(** * Jira export pipeline: a shallow embedding of [app.py] and [get_jira.py]

    The two programs fetch issue records from a Jira server page by page,
    project every record onto a fixed output shape, humanise the
    time-tracking counters and (web surface only) attach the work-logs of
    every issue.

    Python values travelling through the pipeline are decoded JSON, so the
    embedding works on a [json] tree.  Python exceptions are values of
    [exn]; pure code that may raise lives in [result], code that talks to
    the server lives in the monad [io], which threads the list of
    exchanges made so far and the text written to the output streams.  The
    [while True] loops take a bound on the number of iterations and answer
    [Diverge] when it is exhausted. *)

From Stdlib Require Import String Ascii List ZArith Lia Bool DecimalString DecimalZ DecimalPos.
Import ListNotations.
Local Open Scope string_scope.
Local Open Scope Z_scope.

Set Implicit Arguments.

(** ** Python values *)

(** Decoded JSON.  A Python [dict] keeps insertion order and is looked up
    by key, hence an association list read from the left.  JSON numbers
    are integers here: Jira's paging and time-tracking values are, and
    floating-point numbers are outside the model. *)
#[warnings="-register-all"]
Inductive json : Type :=
| JNull
| JBool (b : bool)
| JInt (z : Z)
| JStr (s : string)
| JList (l : list json)
| JObj (kvs : list (string * json)).

(** The exceptions the two programs can meet.  [RequestException] is
    any failure of the call of [requests.get] itself, [HTTPError] what
    [requests]' [raise_for_status] raises (it carries the response, of
    which the status and the body are kept).  The last four come from
    [flask.abort]: [Abort] is the HTTP exception of a status code with
    its description, [MethodNotAllowed] (405) and
    [RequestedRangeNotSatisfiable] (416) are the two exceptions whose
    first argument is not the description, and [LookupError] is raised
    for a code that has no exception. *)
Inductive exn : Type :=
| TypeError
| AttributeError
| ValueError
| JSONDecodeError
| RequestException
| HTTPError (status : Z) (body : string)
| Abort (code : Z) (description : string)
| MethodNotAllowed (valid_methods : string)
| RequestedRangeNotSatisfiable (length : string)
| LookupError (message : string).

Inductive result (A : Type) : Type :=
| Ok (a : A)
| Raise (e : exn).
Arguments Raise {A} e.

Definition rbind {A B} (m : result A) (f : A -> result B) : result B :=
  match m with
  | Ok a => f a
  | Raise e => Raise e
  end.

Declare Scope result_scope.
Delimit Scope result_scope with result.
Notation "x <- m ;; k" := (rbind m (fun x => k))
  (at level 61, m at next level, right associativity) : result_scope.

Fixpoint rmap {A B} (f : A -> result B) (l : list A) : result (list B) :=
  match l with
  | [] => Ok []
  | a :: l' =>
      (b <- f a ;;
       bs <- rmap f l' ;;
       Ok (b :: bs))%result
  end.

(** ** Built-ins *)

(** A text is a string of bytes.  The built-ins that look inside a text
    ([strip], [int], the iteration over a string) are modelled for ASCII
    text. *)
Module Py.

Definition newline : string := String (ascii_of_nat 10) EmptyString.

Fixpoint replace_key (k : string) (v : json) (kvs : list (string * json)) : list (string * json) :=
  match kvs with
  | [] => [(k, v)]
  | (k', v') :: rest =>
      if String.eqb k k' then (k', v) :: rest else (k', v') :: replace_key k v rest
  end.

(** [d[k] = v] for a string key: the binding is replaced where it is,
    or added last. *)
Definition setitem (d : json) (k : string) (v : json) : result json :=
  match d with
  | JObj kvs => Ok (JObj (replace_key k v kvs))
  | _ => Raise TypeError
  end.

(** [l.append(x)]. *)
Definition append {A} (l : list A) (x : A) : list A := (l ++ [x])%list.

(** [str(n)] for an [int]. *)
Definition str_int (n : Z) : string := NilZero.string_of_int (Z.to_int n).

(** Truth value of an object: [None], [False], [0] and the empty
    string, list and dict are false. *)
Definition truthy (v : json) : bool :=
  match v with
  | JNull => false
  | JBool b => b
  | JInt z => negb (z =? 0)
  | JStr s => negb (String.eqb s EmptyString)
  | JList l => match l with [] => false | _ => true end
  | JObj kvs => match kvs with [] => false | _ => true end
  end.

(** [a or b]. *)
Definition or_ (a b : json) : json := if truthy a then a else b.

Fixpoint assoc (k : string) (kvs : list (string * json)) : option json :=
  match kvs with
  | [] => None
  | (k', v) :: rest => if String.eqb k k' then Some v else assoc k rest
  end.

(** [d.get(k, default)]; only a dict has the method. *)
Definition get_default (d : json) (k : string) (default : json) : result json :=
  match d with
  | JObj kvs => Ok (match assoc k kvs with Some v => v | None => default end)
  | _ => Raise AttributeError
  end.

(** [d.get(k)]. *)
Definition get (d : json) (k : string) : result json := get_default d k JNull.

(** [isinstance(v, str)]. *)
Definition is_str (v : json) : bool :=
  match v with JStr _ => true | _ => false end.

Fixpoint chars (s : string) : list json :=
  match s with
  | EmptyString => []
  | String c s' => JStr (String c EmptyString) :: chars s'
  end.

Fixpoint keys (seen : list string) (kvs : list (string * json)) : list json :=
  match kvs with
  | [] => []
  | (k, _) :: rest =>
      if existsb (String.eqb k) seen then keys seen rest
      else JStr k :: keys (k :: seen) rest
  end.

(** The elements an iteration produces: those of a list, the
    one-character strings of a string, the keys of a dict.  Other
    values are not iterable. *)
Definition iter (v : json) : result (list json) :=
  match v with
  | JList l => Ok l
  | JStr s => Ok (chars s)
  | JObj kvs => Ok (keys [] kvs)
  | _ => Raise TypeError
  end.

(** [len(v)]. *)
Definition len (v : json) : result Z :=
  (l <- iter v ;; Ok (Z.of_nat (List.length l)))%result.

(** [n >= v] for an [int] [n]: defined against numbers ([bool] is a
    subtype of [int]), a [TypeError] against anything else. *)
Definition int_ge (n : Z) (v : json) : result bool :=
  match v with
  | JInt t => Ok (n >=? t)
  | JBool b => Ok (n >=? (if b then 1 else 0))
  | _ => Raise TypeError
  end.

(** White space, among the ASCII characters: the texts stripped here
    are taken to hold no other. *)
Definition is_space (c : ascii) : bool :=
  let n := nat_of_ascii c in
  ((9 <=? n) && (n <=? 13) || (28 <=? n) && (n <=? 32))%nat.

Fixpoint lstrip (s : string) : string :=
  match s with
  | EmptyString => EmptyString
  | String c s' => if is_space c then lstrip s' else s
  end.

Fixpoint rstrip (s : string) : string :=
  match s with
  | EmptyString => EmptyString
  | String c s' =>
      match rstrip s' with
      | EmptyString => if is_space c then EmptyString else String c EmptyString
      | t => String c t
      end
  end.

(** [s.strip()]. *)
Definition strip (s : string) : string := rstrip (lstrip s).

(** [s.rstrip('/')]. *)
Fixpoint rstrip_slash (s : string) : string :=
  match s with
  | EmptyString => EmptyString
  | String c s' =>
      match rstrip_slash s' with
      | EmptyString => if Ascii.eqb c "/" then EmptyString else String c EmptyString
      | t => String c t
      end
  end.

Definition digit (c : ascii) : option Z :=
  let n := nat_of_ascii c in
  if ((48 <=? n) && (n <=? 57))%nat then Some (Z.of_nat n - 48) else None.

(** Digits of an integer literal; a single underscore may separate two
    digits. *)
Fixpoint digits (acc : Z) (after_digit : bool) (s : string) : option Z :=
  match s with
  | EmptyString => if after_digit then Some acc else None
  | String c s' =>
      match digit c with
      | Some d => digits (10 * acc + d) true s'
      | None =>
          if Ascii.eqb c "_" && after_digit then digits acc false s' else None
      end
  end.

(** [int(s)] for a string in base 10 (ASCII digits). *)
Definition int_of_string (s : string) : result Z :=
  let body (t : string) :=
    match digits 0 false t with
    | Some n => Ok n
    | None => Raise ValueError
    end in
  match strip s with
  | String "-" t => (n <- body t ;; Ok (- n))%result
  | String "+" t => body t
  | t => body t
  end.

(** [int(v)]. *)
Definition int (v : json) : result Z :=
  match v with
  | JInt z => Ok z
  | JBool b => Ok (if b then 1 else 0)
  | JStr s => int_of_string s
  | _ => Raise TypeError
  end.

Definition hex_digit (upper : bool) (n : nat) : ascii :=
  nth n (list_ascii_of_string
           (if upper then "0123456789ABCDEF" else "0123456789abcdef")) "0"%char.

Definition hex2 (upper : bool) (c : ascii) : string :=
  let n := nat_of_ascii c in
  String (hex_digit upper (n / 16)) (String (hex_digit upper (n mod 16)) EmptyString).

Fixpoint mem_char (c : ascii) (s : string) : bool :=
  match s with
  | EmptyString => false
  | String c' s' => Ascii.eqb c c' || mem_char c s'
  end.

Definition bslash : ascii := ascii_of_nat 92.
Definition dquote : ascii := ascii_of_nat 34.
Definition squote : ascii := ascii_of_nat 39.

Fixpoint escape (quote : ascii) (s : string) : string :=
  match s with
  | EmptyString => EmptyString
  | String c s' =>
      let n := nat_of_ascii c in
      (if Ascii.eqb c bslash || Ascii.eqb c quote then String bslash (String c EmptyString)
       else if (n =? 10)%nat then String bslash "n"
       else if (n =? 13)%nat then String bslash "r"
       else if (n =? 9)%nat then String bslash "t"
       else if ((n <? 32) || (n =? 127))%nat then String bslash ("x" ++ hex2 false c)
       else String c EmptyString) ++ escape quote s'
  end.

(** [repr(s)] for a string: single quotes, unless the string holds a
    single quote and no double quote. *)
Definition repr_str (s : string) : string :=
  let q : ascii :=
    if mem_char squote s && negb (mem_char dquote s) then dquote else squote in
  String q (escape q s) ++ String q EmptyString.

(** [repr(v)]. *)
Fixpoint repr (v : json) : string :=
  match v with
  | JNull => "None"
  | JBool b => if b then "True" else "False"
  | JInt z => str_int z
  | JStr s => repr_str s
  | JList l => "[" ++ String.concat ", " (map repr l) ++ "]"
  | JObj kvs =>
      let fix items (seen : list string) (kvs : list (string * json)) : list string :=
        match kvs with
        | [] => []
        | (k, x) :: rest =>
            if existsb (String.eqb k) seen then items seen rest
            else (repr_str k ++ ": " ++ repr x) :: items (k :: seen) rest
        end in
      "{" ++ String.concat ", " (items [] kvs) ++ "}"
  end.

(** [str(v)], also what an f-string puts in place of [{v}]. *)
Definition str (v : json) : string :=
  match v with
  | JStr s => s
  | _ => repr v
  end.

Definition unreserved (c : ascii) : bool :=
  let n := nat_of_ascii c in
  ((48 <=? n) && (n <=? 57) || (65 <=? n) && (n <=? 90) || (97 <=? n) && (n <=? 122))%nat
  || mem_char c "_.-~".

(** [urllib.parse.quote_plus]. *)
Fixpoint quote_plus (s : string) : string :=
  match s with
  | EmptyString => EmptyString
  | String c s' =>
      (if unreserved c then String c EmptyString
       else if Ascii.eqb c " " then "+"
       else "%" ++ hex2 true c) ++ quote_plus s'
  end.

(** [urllib.parse.urlencode] of a dict of strings. *)
Definition urlencode (params : list (string * string)) : string :=
  String.concat "&" (map (fun kv => quote_plus (fst kv) ++ "=" ++ quote_plus (snd kv)) params).

End Py.

(** ** Duration humaniser ([app.py], [format_seconds_human]) *)

Definition format_seconds_human (seconds : json) : result json :=
  match seconds with
  | JNull => Ok JNull
  | _ =>
      (s <- Py.int seconds ;;
       let days := s / 86400 in
       let rem := s mod 86400 in
       let hours := rem / 3600 in
       let rem := rem mod 3600 in
       let minutes := rem / 60 in
       let parts : list string := [] in
       let parts :=
         if days =? 0 then parts
         else Py.append parts (Py.str_int days ++ " day" ++ (if days >? 1 then "s" else EmptyString)) in
       let parts :=
         if hours =? 0 then parts
         else Py.append parts (Py.str_int hours ++ " hour" ++ (if hours >? 1 then "s" else EmptyString)) in
       let parts :=
         if minutes =? 0 then parts
         else Py.append parts (Py.str_int minutes ++ " minute" ++ (if minutes >? 1 then "s" else EmptyString)) in
       Ok (JStr (match parts with
                 | [] => "0 minutes"
                 | _ => String.concat ", " parts
                 end)))%result
  end.

(** ** The server and the [io] monad *)

(** A call of [requests.get]: the URL, the [params] keyword (empty when
    the query string is already part of the URL), the headers, the
    credentials and the time limit in seconds. *)
Record request : Type := {
  rq_url : string;
  rq_params : list (string * string);
  rq_headers : list (string * string);
  rq_auth : string * string;
  rq_timeout : option Z
}.

(** What the programs read of a response: [resp.status_code],
    [resp.text] and [resp.json()], which is [None] when the body does not
    decode. *)
Record response : Type := {
  status_code : Z;
  text : string;
  decoded : option json
}.

(** The server answers, or the call fails: no connection, time limit,
    or a URL that [requests] cannot use, in which case nothing is sent. *)
Inductive reply : Type :=
| Reply (r : response)
| NoReply.

(** A server is any function of the exchanges made so far and of the
    request at hand; an exchange is one call of [requests.get] with
    what came of it. *)
Definition upstream : Type := list (request * reply) -> request -> reply.

(** What a run has done so far: the exchanges, the texts written to
    the error stream, to the standard output and to the controlling
    terminal, and the files written. *)
Record world : Type := {
  exchanges : list (request * reply);
  stderr : list string;
  stdout : list string;
  terminal : list string;
  files : list (string * json)
}.

Definition start : world :=
  {| exchanges := []; stderr := []; stdout := []; terminal := []; files := [] |}.

Inductive outcome (A : Type) : Type :=
| Done (a : A)
| Fail (e : exn)
| Diverge.
Arguments Fail {A} e.
Arguments Diverge {A}.

Definition io (A : Type) : Type := upstream -> world -> outcome A * world.

Definition ret {A} (a : A) : io A := fun _ w => (Done a, w).

Definition bind {A B} (m : io A) (f : A -> io B) : io B :=
  fun up w =>
    match m up w with
    | (Done a, w') => f a up w'
    | (Fail e, w') => (Fail e, w')
    | (Diverge, w') => (Diverge, w')
    end.

Definition raise {A} (e : exn) : io A := fun _ w => (Fail e, w).

Definition lift {A} (r : result A) : io A :=
  match r with
  | Ok a => ret a
  | Raise e => raise e
  end.

Declare Scope io_scope.
Delimit Scope io_scope with io.
Notation "x <- m ;; k" := (bind m (fun x => k))
  (at level 61, m at next level, right associativity) : io_scope.

(** [while True: body], the body answering [inl] to go round again with a
    new state and [inr] to leave the loop with a value. *)
Fixpoint while_true {S R} (fuel : nat) (body : S -> io (S + R)) (s : S) : io R :=
  match fuel with
  | O => fun _ w => (Diverge, w)
  | Datatypes.S fuel' =>
      (r <- body s ;;
       match r with
       | inl s' => while_true fuel' body s'
       | inr x => ret x
       end)%io
  end.

(** [for x in l: ...] collecting one value per element. *)
Fixpoint for_each {A B} (f : A -> io B) (l : list A) : io (list B) :=
  match l with
  | [] => ret []
  | a :: l' =>
      (b <- f a ;;
       bs <- for_each f l' ;;
       ret (b :: bs))%io
  end.

(** The world after one more exchange with the server. *)
Definition record_exchange (w : world) (rq : request) (rp : reply) : world :=
  {| exchanges := (exchanges w ++ [(rq, rp)])%list;
     stderr := stderr w; stdout := stdout w; terminal := terminal w; files := files w |}.

(** [requests.get]. *)
Definition requests_get (rq : request) : io response :=
  fun up w =>
    let rp := up (exchanges w) rq in
    match rp with
    | Reply r => (Done r, record_exchange w rq rp)
    | NoReply => (Fail RequestException, record_exchange w rq rp)
    end.

(** [resp.json()]. *)
Definition resp_json (resp : response) : io json :=
  match decoded resp with
  | Some data => ret data
  | None => raise JSONDecodeError
  end.

(** [resp.raise_for_status()]: [requests] raises for a client error
    (4xx) or a server error (5xx). *)
Definition raise_for_status (resp : response) : result unit :=
  if (400 <=? status_code resp) && (status_code resp <? 600)
  then Raise (HTTPError (status_code resp) (text resp))
  else Ok tt.

(** The status codes for which [werkzeug] has an exception class, as
    of its version 3.1 (which brought 421); [flask.abort] looks the
    code up among them. *)
Definition default_exceptions : list Z :=
  [400; 401; 403; 404; 405; 406; 408; 409; 410; 411; 412; 413; 414; 415; 416; 417; 418;
   421; 422; 423; 424; 428; 429; 431; 451; 500; 501; 502; 503; 504; 505].

(** [flask.abort(code, text)]: a [LookupError] for a code that has no
    exception class; otherwise the class of the code is instantiated
    with [text] as its first argument, which is the description save
    for 405 (the allowed methods) and 416 (the length of the resource). *)
Definition abort {A} (code : Z) (text : string) : io A :=
  if negb (existsb (Z.eqb code) default_exceptions)
  then raise (LookupError ("no exception for " ++ Py.str_int code))
  else if code =? 405 then raise (MethodNotAllowed text)
  else if code =? 416 then raise (RequestedRangeNotSatisfiable text)
  else raise (Abort code text).

Definition write_stderr (line : string) : io unit :=
  fun _ w =>
    (Done tt, {| exchanges := exchanges w; stderr := (stderr w ++ [line])%list;
                 stdout := stdout w; terminal := terminal w; files := files w |}).

Definition print (line : string) : io unit :=
  fun _ w =>
    (Done tt, {| exchanges := exchanges w; stderr := stderr w;
                 stdout := (stdout w ++ [line])%list; terminal := terminal w;
                 files := files w |}).

Definition write_file (path : string) (content : json) : io unit :=
  fun _ w =>
    (Done tt, {| exchanges := exchanges w; stderr := stderr w; stdout := stdout w;
                 terminal := terminal w; files := (path, content) :: files w |}).

(** [input(prompt)]: the prompt is written to the standard output,
    with no new line after it, and the line the user types is returned. *)
Definition input (prompt typed : string) : io string :=
  fun _ w =>
    (Done typed, {| exchanges := exchanges w; stderr := stderr w;
                    stdout := (stdout w ++ [prompt])%list; terminal := terminal w;
                    files := files w |}).

(** [getpass.getpass(prompt)] in a run that has a controlling terminal:
    the prompt is written to the terminal, what the user types is read
    from it without echo, and a new line is written after it.  (Without
    a terminal [getpass] falls back on the error stream, with warnings
    whose text depends on the installation; such a run is not covered.) *)
Definition getpass (prompt typed : string) : io string :=
  fun _ w =>
    (Done typed, {| exchanges := exchanges w; stderr := stderr w; stdout := stdout w;
                    terminal := (terminal w ++ [prompt; Py.newline])%list;
                    files := files w |}).

(** ** Paging *)

(** The variables of the search loop: [issues], [start_at], [total]
    ([JNull] is Python's [None]). *)
Record page_state : Type := {
  issues : list json;
  start_at : Z;
  total : json
}.

Definition first_page : page_state := {| issues := []; start_at := 0; total := JNull |}.

(** The end of one round of [fetch_all_issues], the same text in both
    programs: from [batch = data.get("issues", [])] to the test that
    leaves the loop. *)
Definition absorb_page (st : page_state) (data : json) : result (page_state + list json) :=
  (batch <- Py.get_default data "issues" (JList []) ;;
   items <- Py.iter batch ;;
   let issues := (issues st ++ items)%list in
   total <- match total st with
            | JNull => (n <- Py.len batch ;; Py.get_default data "total" (JInt n))
            | t => Ok t
            end ;;
   n <- Py.len batch ;;
   let start_at := start_at st + n in
   stop <- Py.int_ge start_at total ;;
   if (stop : bool) then Ok (inr issues)
   else Ok (inl {| issues := issues; start_at := start_at; total := total |}))%result.

Definition accept_json : list (string * string) := [("Accept", "application/json")].

(** ** The web surface ([app.py]) *)

Module App.

(** The call of [requests.get] in [fetch_all_issues] when the cursor
    is [start_at]. *)
Definition search_request (base_url : string) (auth : string * string)
    (jql fields : string) (max_results start_at : Z) : request :=
  let search_url := Py.rstrip_slash base_url ++ "/rest/api/2/search" in
  let headers := accept_json in
  let params := [("jql", jql); ("fields", fields);
                 ("maxResults", Py.str_int max_results);
                 ("startAt", Py.str_int start_at)] in
  let url := search_url ++ "?" ++ Py.urlencode params in
  {| rq_url := url; rq_params := []; rq_headers := headers;
     rq_auth := auth; rq_timeout := Some 30 |}.

(** One round of the loop of [fetch_all_issues]. *)
Definition search_round (base_url : string) (auth : string * string)
    (jql fields : string) (max_results : Z) (st : page_state)
  : io (page_state + list json) :=
  (resp <- requests_get (search_request base_url auth jql fields max_results (start_at st)) ;;
   if status_code resp >=? 400 then abort (status_code resp) (text resp)
   else
     (data <- resp_json resp ;;
      lift (absorb_page st data)))%io.

Definition fetch_all_issues (fuel : nat) (base_url : string) (auth : string * string)
    (jql fields : string) (max_results : Z) : io (list json) :=
  while_true fuel (search_round base_url auth jql fields max_results) first_page.

(** The end of one round of [fetch_worklogs]; the state is
    [(logs_all, sa)]. *)
Definition absorb_worklogs (st : list json * Z) (data : json)
  : result (list json * Z + list json) :=
  let '(logs_all, sa) := st in
  (logs <- Py.get_default data "worklogs" (JList []) ;;
   total <- Py.get_default data "total" (JInt 0) ;;
   items <- Py.iter logs ;;
   let logs_all := (logs_all ++ items)%list in
   n <- Py.len logs ;;
   let sa := sa + n in
   stop <- Py.int_ge sa total ;;
   if (stop : bool) then Ok (inr logs_all) else Ok (inl (logs_all, sa)))%result.

(** The call of [requests.get] in [fetch_worklogs] when the cursor is
    [sa]. *)
Definition worklog_request (base_url : string) (auth : string * string)
    (issue_key : json) (max_results sa : Z) : request :=
  let headers := accept_json in
  let url := Py.rstrip_slash base_url ++ "/rest/api/2/issue/" ++ Py.str issue_key
             ++ "/worklog" in
  let params := [("startAt", Py.str_int sa); ("maxResults", Py.str_int max_results)] in
  {| rq_url := url; rq_params := params; rq_headers := headers;
     rq_auth := auth; rq_timeout := Some 30 |}.

(** One round of the loop of [fetch_worklogs]. *)
Definition worklog_round (base_url : string) (auth : string * string)
    (issue_key : json) (max_results : Z) (st : list json * Z)
  : io (list json * Z + list json) :=
  (resp <- requests_get (worklog_request base_url auth issue_key max_results (snd st)) ;;
   if status_code resp >=? 400
   then abort (status_code resp)
          ("[" ++ Py.str issue_key ++ "] worklog error: " ++ text resp)
   else
     (data <- resp_json resp ;;
      lift (absorb_worklogs st data)))%io.

Definition fetch_worklogs (fuel : nat) (base_url : string) (auth : string * string)
    (issue_key : json) (start_at max_results : Z) : io (list json) :=
  while_true fuel (worklog_round base_url auth issue_key max_results) ([], start_at).

(** The dict [item] built for one issue, before the work-logs. *)
Definition project_item (it : json) : result json :=
  (f <- Py.get_default it "fields" (JObj []) ;;
   original <- Py.get f "timeoriginalestimate" ;;
   remaining <- Py.get f "timeestimate" ;;
   spent <- Py.get f "timespent" ;;
   agg_orig <- Py.get f "aggregatetimeoriginalestimate" ;;
   agg_rem <- Py.get f "aggregatetimeestimate" ;;
   agg_sp <- Py.get f "aggregatetimespent" ;;
   key <- Py.get it "key" ;;
   summary <- Py.get f "summary" ;;
   status <- (x <- Py.get f "status" ;; Py.get (Py.or_ x (JObj [])) "name") ;;
   resolution <- (x <- Py.get f "resolution" ;; Py.get (Py.or_ x (JObj [])) "name") ;;
   resolutiondate <- Py.get f "resolutiondate" ;;
   updated <- Py.get f "updated" ;;
   assignee <- (x <- Py.get f "assignee" ;; Py.get (Py.or_ x (JObj [])) "displayName") ;;
   labels <- Py.get f "labels" ;;
   components <- (x <- Py.get f "components" ;;
                  cs <- Py.iter (Py.or_ x (JList [])) ;;
                  rmap (fun c => Py.get c "name") cs) ;;
   original_h <- format_seconds_human original ;;
   remaining_h <- format_seconds_human remaining ;;
   spent_h <- format_seconds_human spent ;;
   agg_orig_h <- format_seconds_human agg_orig ;;
   agg_rem_h <- format_seconds_human agg_rem ;;
   agg_sp_h <- format_seconds_human agg_sp ;;
   Ok (JObj [
     ("key", key);
     ("summary", summary);
     ("status", status);
     ("resolution", resolution);
     ("resolutiondate", resolutiondate);
     ("updated", updated);
     ("assignee", assignee);
     ("labels", labels);
     ("components", JList components);
     ("time", JObj [
        ("originalEstimateSeconds", original);
        ("originalEstimateHuman", original_h);
        ("remainingEstimateSeconds", remaining);
        ("remainingEstimateHuman", remaining_h);
        ("timeSpentSeconds", spent);
        ("timeSpentHuman", spent_h);
        ("aggregateOriginalEstimateSeconds", agg_orig);
        ("aggregateOriginalEstimateHuman", agg_orig_h);
        ("aggregateRemainingEstimateSeconds", agg_rem);
        ("aggregateRemainingEstimateHuman", agg_rem_h);
        ("aggregateTimeSpentSeconds", agg_sp);
        ("aggregateTimeSpentHuman", agg_sp_h)])]))%result.

(** One element of [item["worklogs"]]. *)
Definition project_worklog (wl : json) : result json :=
  (author <- (x <- Py.get wl "author" ;; Py.get (Py.or_ x (JObj [])) "displayName") ;;
   started <- Py.get wl "started" ;;
   seconds <- Py.get wl "timeSpentSeconds" ;;
   human <- (x <- Py.get wl "timeSpent" ;;
             if Py.truthy x then Ok x
             else (y <- Py.get wl "timeSpentSeconds" ;; format_seconds_human y)) ;;
   comment <- (c <- Py.get wl "comment" ;;
               if Py.is_str c then Py.get wl "comment" else Ok JNull) ;;
   Ok (JObj [
     ("author", author);
     ("started", started);
     ("timeSpentSeconds", seconds);
     ("timeSpentHuman", human);
     ("comment", comment)]))%result.

Definition project_issues (fuel : nat) (issues : list json) (base_url : string)
    (auth : string * string) (include_worklogs : bool) : io (list json) :=
  for_each
    (fun it =>
       (item <- lift (project_item it) ;;
        if include_worklogs then
          (key <- lift (Py.get it "key") ;;
           logs_all <- fetch_worklogs fuel base_url auth key 0 100 ;;
           worklogs <- lift (rmap project_worklog logs_all) ;;
           lift (Py.setitem item "worklogs" (JList worklogs)))
        else ret item)%io)
    issues.

(** [request.form.get(k)], [None] when the field was not sent. *)
Fixpoint form_lookup (form : list (string * string)) (k : string) : option string :=
  match form with
  | [] => None
  | (k', v) :: rest => if String.eqb k k' then Some v else form_lookup rest k
  end.

(** [request.form.get(k, default)]. *)
Definition form_get (form : list (string * string)) (k default : string) : string :=
  match form_lookup form k with
  | Some v => v
  | None => default
  end.

(** The query of [export]. *)
Definition jql (project : string) (use_updated : bool) : string :=
  if use_updated then
    "project = " ++ project ++ " AND statusCategory != Done "
    ++ "AND updated >= startOfMonth(-1) AND updated < startOfMonth() "
    ++ "ORDER BY updated ASC"
  else
    "project = " ++ project ++ " AND resolution IS NOT EMPTY "
    ++ "AND resolutiondate >= startOfMonth(-1) AND resolutiondate < startOfMonth() "
    ++ "ORDER BY resolutiondate ASC".

Definition fields : string :=
  String.concat "," [
    "key"; "summary"; "status"; "resolution"; "resolutiondate"; "updated";
    "assignee"; "labels"; "components";
    "timeoriginalestimate"; "timeestimate"; "timespent";
    "aggregatetimeoriginalestimate"; "aggregatetimeestimate"; "aggregatetimespent"].

(** The [Response] of a successful export; [payload] is the value that
    [json.dumps] writes out. *)
Record http_response : Type := {
  payload : json;
  mimetype : string;
  out_headers : list (string * string)
}.

Definition export (fuel : nat) (form : list (string * string)) : io http_response :=
  let base_url := Py.strip (form_get form "baseUrl" EmptyString) in
  let project := Py.strip (form_get form "projectKey" EmptyString) in
  let username := Py.strip (form_get form "username" EmptyString) in
  let password := form_get form "password" EmptyString in
  let use_updated :=
    match form_lookup form "useUpdated" with
    | Some v => String.eqb v "on"
    | None => false
    end in
  if negb (forallb (fun x => negb (String.eqb x EmptyString))
             [base_url; project; username; password])
  then abort 400 "Parametres manquants"
  else
    (issues <- fetch_all_issues fuel base_url (username, password)
                 (jql project use_updated) fields 100 ;;
     projected <- project_issues fuel issues base_url (username, password) true ;;
     let filename := "jira_" ++ project ++ "_prev_month"
                     ++ (if use_updated then "_updated" else EmptyString) ++ ".json" in
     ret {| payload := JList projected;
            mimetype := "application/json";
            out_headers :=
              [("Content-Disposition",
                "attachment; filename=" ++ String Py.dquote filename
                ++ String Py.dquote EmptyString)] |})%io.

End App.

(** ** The command-line surface ([get_jira.py]) *)

Module GetJira.

Definition build_search_url (base_url : string) : string :=
  let base := Py.rstrip_slash base_url in
  base ++ "/rest/api/2/search".

(** The call of [requests.get] in [fetch_all_issues] when the cursor
    is [start_at]; no time limit is given. *)
Definition search_request (search_url : string) (auth : string * string)
    (jql fields : string) (max_results start_at : Z) : request :=
  let headers := accept_json in
  let params := [("jql", jql); ("fields", fields);
                 ("maxResults", Py.str_int max_results);
                 ("startAt", Py.str_int start_at)] in
  let url := search_url ++ "?" ++ Py.urlencode params in
  {| rq_url := url; rq_params := []; rq_headers := headers;
     rq_auth := auth; rq_timeout := None |}.

(** One round of the loop of [fetch_all_issues]. *)
Definition search_round (search_url : string) (auth : string * string)
    (jql fields : string) (max_results : Z) (st : page_state)
  : io (page_state + list json) :=
  (resp <- requests_get (search_request search_url auth jql fields max_results (start_at st)) ;;
   match raise_for_status resp with
   | Raise e =>
       (_ <- write_stderr ("HTTP error " ++ Py.str_int (status_code resp) ++ ": "
                           ++ text resp ++ Py.newline) ;;
        raise e)
   | Ok _ =>
       (data <- resp_json resp ;;
        lift (absorb_page st data))
   end)%io.

Definition fetch_all_issues (fuel : nat) (search_url : string) (auth : string * string)
    (jql fields : string) (max_results : Z) : io (list json) :=
  while_true fuel (search_round search_url auth jql fields max_results) first_page.

(** The dict appended to [out] for one issue. *)
Definition project_item (it : json) : result json :=
  (f <- Py.get_default it "fields" (JObj []) ;;
   key <- Py.get it "key" ;;
   summary <- Py.get f "summary" ;;
   status <- (x <- Py.get f "status" ;; Py.get (Py.or_ x (JObj [])) "name") ;;
   resolution <- (x <- Py.get f "resolution" ;; Py.get (Py.or_ x (JObj [])) "name") ;;
   resolutiondate <- Py.get f "resolutiondate" ;;
   updated <- Py.get f "updated" ;;
   assignee <- (x <- Py.get f "assignee" ;; Py.get (Py.or_ x (JObj [])) "displayName") ;;
   labels <- Py.get f "labels" ;;
   components <- (x <- Py.get f "components" ;;
                  cs <- Py.iter (Py.or_ x (JList [])) ;;
                  rmap (fun c => Py.get c "name") cs) ;;
   Ok (JObj [
     ("key", key);
     ("summary", summary);
     ("status", status);
     ("resolution", resolution);
     ("resolutiondate", resolutiondate);
     ("updated", updated);
     ("assignee", assignee);
     ("labels", labels);
     ("components", JList components)]))%result.

Definition project_issues (issues : list json) : result (list json) :=
  rmap project_item issues.

(** The parsed command line. *)
Record args : Type := {
  base_url : string;
  project : string;
  output : string;
  username : option string;
  password : option string;
  use_updated : bool
}.

(** The query of [main]. *)
Definition jql (project : string) (use_updated : bool) : string :=
  if use_updated then
    "project = " ++ project ++ " AND status NOT IN (Open) "
    ++ "AND updated >= startOfMonth(-1) AND updated < startOfMonth() "
    ++ "ORDER BY updated ASC"
  else
    "project = " ++ project ++ " AND resolution IS NOT EMPTY "
    ++ "AND resolutiondate >= startOfMonth(-1) AND resolutiondate < startOfMonth() "
    ++ "ORDER BY resolutiondate ASC".

Definition fields : string :=
  String.concat "," [
    "key"; "summary"; "status"; "resolution"; "resolutiondate";
    "updated"; "assignee"; "labels"; "components"].

(** [x or prompt()] for an optional argument: the prompt runs when the
    argument is missing or empty. *)
Definition or_prompt (x : option string) (prompt : io string) : io string :=
  match x with
  | Some v => if String.eqb v EmptyString then prompt else ret v
  | None => prompt
  end.

(** The value of [x or prompt()] when the user types [typed]. *)
Definition or_typed (x : option string) (typed : string) : string :=
  match x with
  | Some v => if String.eqb v EmptyString then typed else v
  | None => typed
  end.

(** [main]; [typed_login] and [typed_password] are what the user types
    at the two prompts, which appear only when the argument is missing
    or empty. *)
Definition main (fuel : nat) (a : args) (typed_login typed_password : string) : io unit :=
  (username <- or_prompt (username a) (input "Login Jira: " typed_login) ;;
   password <- or_prompt (password a)
                 (getpass "Mot de passe Jira (masqué): " typed_password) ;;
   let search_url := build_search_url (base_url a) in
   issues <- fetch_all_issues fuel search_url (username, password)
               (jql (project a) (use_updated a)) fields 100 ;;
   projected <- lift (project_issues issues) ;;
   _ <- write_file (output a) (JList projected) ;;
   print ("OK — " ++ Py.str_int (Z.of_nat (List.length projected))
          ++ " tickets exportés vers " ++ output a))%io.

End GetJira.

(** * Vocabulary of the properties *)

(** One unit of a duration as the text names it: nothing for a zero
    count, [<n> <unit>] otherwise, with an [s] when the count exceeds 1. *)
Definition component (n : Z) (unit : string) : list string :=
  if n =? 0 then []
  else [Py.str_int n ++ " " ++ unit ++ (if n >? 1 then "s" else EmptyString)].

(** The text of a duration of [d] days, [h] hours and [m] minutes. *)
Definition humanized (d h m : Z) : string :=
  match (component d "day" ++ component h "hour" ++ component m "minute")%list with
  | [] => "0 minutes"
  | parts => String.concat ", " parts
  end.

(** The raw time-tracking fields with the two keys each one feeds in the
    [time] block of the enriched record. *)
Definition time_pairs : list (string * string * string) :=
  [("timeoriginalestimate", "originalEstimateSeconds", "originalEstimateHuman");
   ("timeestimate", "remainingEstimateSeconds", "remainingEstimateHuman");
   ("timespent", "timeSpentSeconds", "timeSpentHuman");
   ("aggregatetimeoriginalestimate", "aggregateOriginalEstimateSeconds",
    "aggregateOriginalEstimateHuman");
   ("aggregatetimeestimate", "aggregateRemainingEstimateSeconds",
    "aggregateRemainingEstimateHuman");
   ("aggregatetimespent", "aggregateTimeSpentSeconds", "aggregateTimeSpentHuman")].

Definition null_or_natural (v : json) : Prop :=
  v = JNull \/ exists n, 0 <= n /\ v = JInt n.

(** [it.get("fields", {}).get(k)]. *)
Definition raw_field (it : json) (k : string) : result json :=
  (f <- Py.get_default it "fields" (JObj []) ;; Py.get f k)%result.

(** [item["time"][k]], read with [get]. *)
Definition time_field (item : json) (k : string) : result json :=
  (t <- Py.get item "time" ;; Py.get t k)%result.

(** A form field that was not sent, or sent empty. *)
Definition missing_or_empty (form : list (string * string)) (k : string) : Prop :=
  App.form_lookup form k = None \/ App.form_lookup form k = Some EmptyString.

Definition required_fields : list string :=
  ["baseUrl"; "projectKey"; "username"; "password"].

(** A work-log whose [timeSpent] is present and empty. *)
Definition blank_time_spent : json :=
  JObj [("author", JObj [("displayName", JStr "Ada")]);
        ("started", JStr "2024-05-02T09:00:00.000+0000");
        ("timeSpentSeconds", JInt 3600);
        ("timeSpent", JStr EmptyString);
        ("comment", JObj [("type", JStr "doc")])].

(** The enriched form of [blank_time_spent]. *)
Definition blank_time_spent_out : json :=
  JObj [("author", JStr "Ada");
        ("started", JStr "2024-05-02T09:00:00.000+0000");
        ("timeSpentSeconds", JInt 3600);
        ("timeSpentHuman", JStr "1 hour");
        ("comment", JNull)].

Definition object_or_null (v : json) : Prop :=
  v = JNull \/ exists o, v = JObj o.

Definition objects_or_null (v : json) : Prop :=
  v = JNull \/ exists l, v = JList l /\ Forall (fun c => exists o, c = JObj o) l.

Definition int_or_null (v : json) : Prop :=
  v = JNull \/ exists n, v = JInt n.

(** A raw issue record as the server sends it: a dict whose [fields] is
    missing or a dict, in which [status], [resolution] and [assignee] are
    absent, null or objects, [components] is absent, null or a list of
    objects, and the time-tracking fields are absent, null or integers. *)
Record well_shaped (it : json) : Prop := {
  shaped_fields :
    exists kvs, it = JObj kvs /\
      (Py.assoc "fields" kvs = None \/ exists f, Py.assoc "fields" kvs = Some (JObj f));
  shaped_named :
    forall k v, In k ["status"; "resolution"; "assignee"] ->
      raw_field it k = Ok v -> object_or_null v;
  shaped_components :
    forall v, raw_field it "components" = Ok v -> objects_or_null v;
  shaped_time :
    forall raw sec hum v, In (raw, sec, hum) time_pairs ->
      raw_field it raw = Ok v -> int_or_null v
}.

(** The record [item] has the key [k], with the value [v]. *)
Definition holds (item : json) (k : string) (v : json) : Prop :=
  exists kvs, item = JObj kvs /\ Py.assoc k kvs = Some v.

(** What the enriched record [item] holds for the fields of [it] that
    are absent or null: the key is there, with a null value (an empty
    list for the components). *)
Definition null_safe (it item : json) : Prop :=
  (forall k, In k ["summary"; "resolutiondate"; "updated"; "labels"] ->
     raw_field it k = Ok JNull -> holds item k JNull) /\
  (forall k, In k ["status"; "resolution"; "assignee"] ->
     raw_field it k = Ok JNull -> holds item k JNull) /\
  (raw_field it "components" = Ok JNull -> holds item "components" (JList [])).

(** An issue with no [fields] at all, and one whose fields are null. *)
Definition bare_issue : json := JObj [("key", JStr "ARAPS-1")].

Definition null_issue : json :=
  JObj [("key", JStr "ARAPS-2");
        ("fields", JObj [("summary", JNull); ("status", JNull); ("resolution", JNull);
                         ("assignee", JNull); ("labels", JNull); ("components", JNull);
                         ("timespent", JInt 7200); ("timeestimate", JNull)])].

(** The enriched form of [null_issue] on the web surface. *)
Definition null_issue_item : json :=
  Eval vm_compute in
    match App.project_item null_issue with
    | Ok item => item
    | Raise _ => JNull
    end.

(** [needle in hay] for two strings, as a proposition and as Python
    computes it. *)
Definition contains (needle hay : string) : Prop :=
  exists l r, hay = l ++ needle ++ r.

Fixpoint starts_with (p s : string) : bool :=
  match p, s with
  | EmptyString, _ => true
  | String a p', String b s' => Ascii.eqb a b && starts_with p' s'
  | String _ _, EmptyString => false
  end.

Fixpoint containsb (needle hay : string) : bool :=
  starts_with needle hay
  || match hay with
     | EmptyString => false
     | String _ hay' => containsb needle hay'
     end.

(** The non-empty suffixes of a string, longest first. *)
Fixpoint tails (s : string) : list string :=
  match s with
  | EmptyString => []
  | String _ s' => s :: tails s'
  end.

(** The enriched record [item] comes from the raw record [it]: it is the
    projection of [it], with or without a [worklogs] entry, under the
    key of [it]. *)
Definition enriched_from (it item : json) : Prop :=
  Py.get item "key" = Py.get it "key" /\
  exists b, App.project_item it = Ok b /\
            (item = b \/ exists wls, Py.setitem b "worklogs" (JList wls) = Ok item).

Definition projected_from (it item : json) : Prop :=
  Py.get item "key" = Py.get it "key" /\ GetJira.project_item it = Ok item.

(** The outcome of a computation that does not talk to the server. *)
Definition outcome_of {A} (r : result A) : outcome A :=
  match r with
  | Ok a => Done a
  | Raise e => Fail e
  end.

(** The world in which only [exs] has happened. *)
Definition after (exs : list (request * reply)) : world :=
  {| exchanges := exs; stderr := []; stdout := []; terminal := []; files := [] |}.

(** A successful response whose body decodes to a dict holding the list
    [batch] under [issues]. *)
Definition serves_page (r : response) (batch : list json) : Prop :=
  status_code r = 200 /\
  exists data, decoded r = Some data /\
               Py.get_default data "issues" (JList []) = Ok (JList batch).

(** The body of the response holds the integer [t] under [total]. *)
Definition reports_total (r : response) (t : Z) : Prop :=
  exists data, decoded r = Some data /\ Py.get data "total" = Ok (JInt t).

(** The server answers the requests of [script], made one after the
    other from the exchanges [past], with the responses of [script]. *)
Fixpoint answers_from (up : upstream) (past : list (request * reply))
    (script : list (request * response)) : Prop :=
  match script with
  | [] => True
  | (rq, r) :: rest =>
      up past rq = Reply r /\ answers_from up (past ++ [(rq, Reply r)])%list rest
  end.

(** A run that returns or raises within some number of rounds. *)
Definition terminates {A} (run : nat -> io A) (up : upstream) : Prop :=
  exists fuel, fst (run fuel up start) <> Diverge.

(** A server whose every answer is an empty batch under a total of 1. *)
Definition empty_page : response :=
  {| status_code := 200;
     text := EmptyString;
     decoded := Some (JObj [("issues", JList []); ("total", JInt 1)]) |}.

Definition stalled : upstream := fun _ _ => Reply empty_page.

(** A server holding 250 records, which answers its n-th request with
    the n-th page of 100 and reports the total on every page. *)
Definition records : list json :=
  map (fun n => JObj [("id", JInt (Z.of_nat n))]) (seq 0 250).

Definition page (n : nat) : response :=
  {| status_code := 200;
     text := EmptyString;
     decoded := Some (JObj [("issues", JList (firstn 100 (skipn (100 * n) records)));
                            ("total", JInt 250)]) |}.

Definition paged : upstream := fun past _ => Reply (page (List.length past)).

(** No exchange of [exs] got an error response. *)
Definition clean (is_error : response -> bool) (exs : list (request * reply)) : Prop :=
  forall rq r, In (rq, Reply r) exs -> is_error r = false.

(** The run failed on the last exchange of [exs], the first to get an
    error response, with an exception that carries this response. *)
Definition aborted_at_last {A} (is_error : response -> bool)
    (carried : response -> exn -> Prop) (o : outcome A)
    (exs : list (request * reply)) : Prop :=
  exists past rq r e,
    exs = (past ++ [(rq, Reply r)])%list /\
    clean is_error past /\
    is_error r = true /\
    o = Fail e /\
    carried r e.

(** A computation that stops at the first error response. *)
Definition guarded {A} (is_error : response -> bool)
    (carried : response -> exn -> Prop) (m : io A) : Prop :=
  forall up w o w',
    clean is_error (exchanges w) ->
    m up w = (o, w') ->
    clean is_error (exchanges w') \/ aborted_at_last is_error carried o (exchanges w').


(** The status codes that the web framework turns into an exception
    described by the text given to [abort]: the client and server
    errors it knows, save 405 and 416. *)
Definition described : list Z :=
  [400; 401; 403; 404; 406; 408; 409; 410; 411; 412; 413; 414; 415; 417; 418;
   421; 422; 423; 424; 428; 429; 431; 451; 500; 501; 502; 503; 504; 505].

(** What the web surface raises when it aborts with [status] and
    [message]: the exception of the status described by the message
    when the status is one of [described]; the exception of 405 or 416
    with the message in the place of the allowed methods or of the
    length; and for any other status a [LookupError] that names the
    status and loses the message. *)
Definition web_raised (status : Z) (message : string) (e : exn) : Prop :=
  (In status described -> e = Abort status message) /\
  (status = 405 -> e = MethodNotAllowed message) /\
  (status = 416 -> e = RequestedRangeNotSatisfiable message) /\
  (~ In status (405 :: 416 :: described) ->
   e = LookupError ("no exception for " ++ NilZero.string_of_int (Z.to_int status))).

(** What each surface takes for an error, and what it raises then. *)
Definition web_error (r : response) : bool := status_code r >=? 400.





(** A server that answers every request with status 402. *)
Definition payment_required : response :=
  {| status_code := 402; text := "Payment Required"; decoded := None |}.

Definition sample_args : GetJira.args :=
  {| GetJira.base_url := "https://jira.example.org";
     GetJira.project := "ARAPS";
     GetJira.output := "out.json";
     GetJira.username := Some "ada";
     GetJira.password := Some "secret";
     GetJira.use_updated := false |}.

(** The same command line without the credentials, which are typed at
    the prompts. *)
Definition typing_args : GetJira.args :=
  {| GetJira.base_url := "https://jira.example.org";
     GetJira.project := "ARAPS";
     GetJira.output := "out.json";
     GetJira.username := None;
     GetJira.password := Some EmptyString;
     GetJira.use_updated := true |}.

(** A server that serves the first page and refuses the second request
    with status 403. *)
Definition forbidden : response :=
  {| status_code := 403; text := "Forbidden"; decoded := None |}.

Definition forbidden_on_second : upstream :=
  fun past _ =>
    match past with
    | [] => Reply (page 0)
    | _ => Reply forbidden
    end.

Definition sample_form : list (string * string) :=
  [("baseUrl", "https://jira.example.org/"); ("projectKey", "ARAPS");
   ("username", "ada"); ("password", "secret")].

(** A string of [n] slashes. *)
Fixpoint slashes (n : nat) : string :=
  match n with
  | O => EmptyString
  | S n' => String "/" (slashes n')
  end.

(** A string made of white space only. *)
Fixpoint only_spaces (s : string) : bool :=
  match s with
  | EmptyString => true
  | String c s' => Py.is_space c && only_spaces s'
  end.

(** [w'] continues [w] with exchanges whose requests all satisfy [P]. *)
Definition extends_with (P : request -> Prop) (w w' : world) : Prop :=
  exists more,
    exchanges w' = (exchanges w ++ more)%list /\ Forall (fun x => P (fst x)) more.

(** A computation that sends only requests satisfying [P], and never
    takes back an exchange. *)
Definition sends_only {A} (P : request -> Prop) (m : io A) : Prop :=
  forall up w o w', m up w = (o, w') -> extends_with P w w'.

(** What every request of a web export looks like. *)
Definition web_request_shape (base_url username password : string) (rq : request) : Prop :=
  rq_auth rq = (username, password) /\
  rq_headers rq = accept_json /\
  rq_timeout rq = Some 30 /\
  starts_with (Py.rstrip_slash base_url ++ "/rest/api/2/") (rq_url rq) = true.

(** What every request of the command-line export looks like. *)
Definition cli_request_shape (base_url username password : string) (rq : request) : Prop :=
  rq_auth rq = (username, password) /\
  rq_headers rq = accept_json /\
  rq_timeout rq = None /\
  rq_params rq = [] /\
  starts_with (Py.rstrip_slash base_url ++ "/rest/api/2/search?") (rq_url rq) = true.

(** The four required fields of the form, as [export] reads them. *)
Definition form_base_url (form : list (string * string)) : string :=
  Py.strip (App.form_get form "baseUrl" EmptyString).

Definition form_project (form : list (string * string)) : string :=
  Py.strip (App.form_get form "projectKey" EmptyString).

Definition form_username (form : list (string * string)) : string :=
  Py.strip (App.form_get form "username" EmptyString).

Definition form_password (form : list (string * string)) : string :=
  App.form_get form "password" EmptyString.

(** The check box of the form: ticked when the field is sent as [on]. *)
Definition form_use_updated (form : list (string * string)) : bool :=
  match App.form_lookup form "useUpdated" with
  | Some v => String.eqb v "on"
  | None => false
  end.

Definition form_complete (form : list (string * string)) : Prop :=
  form_base_url form <> EmptyString /\ form_project form <> EmptyString /\
  form_username form <> EmptyString /\ form_password form <> EmptyString.

(** The records an exchange brought: the elements of [issues] in the
    decoded body of the response, nothing when there is none. *)
Definition batch_of (rp : reply) : list json :=
  match rp with
  | Reply r =>
      match decoded r with
      | Some data =>
          match (b <- Py.get_default data "issues" (JList []) ;; Py.iter b)%result with
          | Ok items => items
          | Raise _ => []
          end
      | None => []
      end
  | NoReply => []
  end.

(** The records a sequence of exchanges brought, in order. *)
Definition received (exs : list (request * reply)) : list json :=
  flat_map (fun x => batch_of (snd x)) exs.

(** Every request of [exs] is the one [mk] builds for the number of
    records received before it. *)
Definition paced (mk : Z -> request) (exs : list (request * reply)) : Prop :=
  forall before rq rp rest,
    exs = (before ++ (rq, rp) :: rest)%list ->
    rq = mk (Z.of_nat (List.length (received before))).

(** The answer of a server that honours startAt and maxResults: the at
    most [m] records that follow the first [sa], with the true total. *)
Definition honest_page (records : list json) (m : nat) (sa : Z) : response :=
  {| status_code := 200;
     text := EmptyString;
     decoded := Some (JObj [("issues", JList (firstn m (skipn (Z.to_nat sa) records)));
                            ("total", JInt (Z.of_nat (List.length records)))]) |}.

(** [p] pages of [m] asked of such a server, at the cursors 0, m, 2m,
    and so on. *)
Definition honest_exchanges (mk : Z -> request) (records : list json) (m p : nat)
  : list (request * reply) :=
  map (fun j => (mk (Z.of_nat (j * m)), Reply (honest_page records m (Z.of_nat (j * m)))))
      (seq 0 p).

(** The decoded body of the response is a dict without [total]. *)
Definition lacks_total (r : response) : Prop :=
  exists kvs, decoded r = Some (JObj kvs) /\ Py.assoc "total" kvs = None.

(** The decoded body of the response is a dict whose [total] is null. *)
Definition null_total (r : response) : Prop :=
  exists kvs, decoded r = Some (JObj kvs) /\ Py.assoc "total" kvs = Some JNull.

(** A first page of 100 records sent without a total, and one sent with
    a null total. *)
Definition page_without_total : response :=
  {| status_code := 200;
     text := EmptyString;
     decoded := Some (JObj [("issues", JList (firstn 100 records))]) |}.

Definition page_with_null_total : response :=
  {| status_code := 200;
     text := EmptyString;
     decoded := Some (JObj [("issues", JList (firstn 100 records)); ("total", JNull)]) |}.

(** A successful response whose body decodes to a dict holding the list
    [batch] under [worklogs]. *)
Definition serves_logs (r : response) (batch : list json) : Prop :=
  status_code r = 200 /\
  exists data, decoded r = Some data /\
               Py.get_default data "worklogs" (JList []) = Ok (JList batch).

(** The work-log page of a server that honours startAt and maxResults. *)
Definition honest_log_page (logs : list json) (m : nat) (sa : Z) : response :=
  {| status_code := 200;
     text := EmptyString;
     decoded := Some (JObj [("startAt", JInt sa);
                            ("maxResults", JInt (Z.of_nat m));
                            ("total", JInt (Z.of_nat (List.length logs)));
                            ("worklogs", JList (firstn m (skipn (Z.to_nat sa) logs)))]) |}.

Definition honest_log_exchanges (mk : Z -> request) (logs : list json) (m p : nat)
  : list (request * reply) :=
  map (fun j => (mk (Z.of_nat (j * m)), Reply (honest_log_page logs m (Z.of_nat (j * m)))))
      (seq 0 p).

(** What [fetch_worklogs] raises on an error response for [issue_key]:
    the message is the key between brackets, then [worklog error:] and
    the body of the response. *)
Definition names_issue (issue_key : json) (r : response) (e : exn) : Prop :=
  web_raised (status_code r)
    ("[" ++ Py.str issue_key ++ "] worklog error: " ++ text r) e.

(** Three work-logs, and a server that serves them two by two. *)
Definition three_logs : list json :=
  [JObj [("timeSpentSeconds", JInt 3600)];
   JObj [("timeSpentSeconds", JInt 1800); ("timeSpent", JStr "30m")];
   JObj [("timeSpentSeconds", JInt 60); ("comment", JStr "review")]].

Definition logs_by_two : upstream :=
  fun past _ => Reply (honest_log_page three_logs 2 (Z.of_nat (List.length past * 2))).

(** The keys of a dict, in order. *)
Definition keys_of (v : json) : list string :=
  match v with
  | JObj kvs => map fst kvs
  | _ => []
  end.

Definition cli_keys : list string :=
  ["key"; "summary"; "status"; "resolution"; "resolutiondate"; "updated";
   "assignee"; "labels"; "components"].

Definition web_keys : list string := (cli_keys ++ ["time"])%list.

Definition time_keys : list string :=
  flat_map (fun p => [snd (fst p); snd p]) time_pairs.

Definition worklog_keys : list string :=
  ["author"; "started"; "timeSpentSeconds"; "timeSpentHuman"; "comment"].

(** A record of the web export: the keys of the projection, then a
    [worklogs] list of entries that all have the five work-log keys. *)
Definition full_record (item : json) : Prop :=
  keys_of item = (web_keys ++ ["worklogs"])%list /\
  (exists t, Py.get item "time" = Ok t /\ keys_of t = time_keys) /\
  exists wls, Py.get item "worklogs" = Ok (JList wls) /\
              Forall (fun e => keys_of e = worklog_keys) wls.

(** The name under which the export is downloaded. *)
Definition attachment (project : string) (use_updated : bool) : string :=
  "attachment; filename=" ++ String Py.dquote
    ("jira_" ++ project ++ "_prev_month"
     ++ (if use_updated then "_updated" else EmptyString) ++ ".json")
  ++ String Py.dquote EmptyString.

(** A server with two issues, which answers the search with both and
    every work-log request with the same three work-logs. *)
Definition two_issues : response :=
  {| status_code := 200;
     text := EmptyString;
     decoded := Some (JObj [("issues", JList [bare_issue; null_issue]);
                            ("total", JInt 2)]) |}.

Definition helpful : upstream :=
  fun past _ =>
    match past with
    | [] => Reply two_issues
    | _ => Reply (honest_log_page three_logs 100 0)
    end.

(** The response of the web export against this server. *)
Definition sample_response : App.http_response :=
  Eval vm_compute in
    match fst (App.export 3 sample_form helpful start) with
    | Done resp => resp
    | _ => {| App.payload := JNull; App.mimetype := EmptyString; App.out_headers := [] |}
    end.

(** The fields of an issue that the projectors read, beside its key. *)
Definition cli_fields_read : list string :=
  ["summary"; "status"; "resolution"; "resolutiondate"; "updated"; "assignee";
   "labels"; "components"].

Definition web_fields_read : list string :=
  (cli_fields_read ++ map (fun p => fst (fst p)) time_pairs)%list.

(** The line [main] prints at the end. *)
Definition summary_line (count : nat) (output : string) : string :=
  "OK — " ++ Py.str_int (Z.of_nat count) ++ " tickets exportés vers " ++ output.

(** [null_issue] with fields that no projector reads. *)
Definition null_issue_more : json :=
  JObj [("self", JStr "https://jira.example.org/rest/api/2/issue/10002");
        ("key", JStr "ARAPS-2");
        ("fields", JObj [("summary", JNull); ("status", JNull); ("resolution", JNull);
                         ("assignee", JNull); ("labels", JNull); ("components", JNull);
                         ("timespent", JInt 7200); ("timeestimate", JNull);
                         ("description", JStr "not exported");
                         ("reporter", JObj [("displayName", JStr "Ada")])])].

(** The line the command-line fetcher writes to the error stream. *)
Definition http_error_line (status : Z) (body : string) : string :=
  "HTTP error " ++ Py.str_int status ++ ": " ++ body ++ Py.newline.

(** The value of a hexadecimal digit. *)
Definition hex_value (c : ascii) : option nat :=
  let n := nat_of_ascii c in
  if ((48 <=? n) && (n <=? 57))%nat then Some (n - 48)%nat
  else if ((65 <=? n) && (n <=? 70))%nat then Some (n - 55)%nat
  else if ((97 <=? n) && (n <=? 102))%nat then Some (n - 87)%nat
  else None.

(** What a server reads in one key or value of a query string: [+] is
    a space and [%XY] the character of code XY. *)
Fixpoint form_decode (s : string) : string :=
  match s with
  | EmptyString => EmptyString
  | String c rest =>
      if Ascii.eqb c "+" then String " " (form_decode rest)
      else if Ascii.eqb c "%" then
        match rest with
        | String a (String b rest') =>
            match hex_value a, hex_value b with
            | Some x, Some y => String (ascii_of_nat (16 * x + y)) (form_decode rest')
            | _, _ => String c (form_decode rest)
            end
        | _ => String c (form_decode rest)
        end
      else String c (form_decode rest)
  end.

(** The text before the first [sep], and the text after it when there
    is one. *)
Fixpoint cut (sep : ascii) (s : string) : string * option string :=
  match s with
  | EmptyString => (EmptyString, None)
  | String c rest =>
      if Ascii.eqb c sep then (EmptyString, Some rest)
      else let (a, b) := cut sep rest in (String c a, b)
  end.

(** The pieces of a text between the occurrences of [sep]. *)
Fixpoint split_on (sep : ascii) (s : string) : list string :=
  match s with
  | EmptyString => [EmptyString]
  | String c rest =>
      if Ascii.eqb c sep then EmptyString :: split_on sep rest
      else match split_on sep rest with
           | [] => [String c EmptyString]
           | x :: xs => String c x :: xs
           end
  end.

(** One piece [key=value] of a query string, decoded. *)
Definition query_pair (item : string) : string * string :=
  let (k, v) := cut "=" item in
  (form_decode k, form_decode (match v with Some x => x | None => EmptyString end)).

(** The parameters a query string stands for: its pieces between [&],
    each cut at its first [=] and decoded. *)
Definition query_pairs (q : string) : list (string * string) :=
  match q with
  | EmptyString => []
  | _ => map query_pair (split_on "&" q)
  end.

(** The number a parameter value denotes in decimal notation. *)
Definition number (v : string) : option Z :=
  option_map Z.of_int (NilZero.int_of_string v).

(** The request is a GET of [endpoint] with the parameters [params] in
    the query string of its URL, and nothing in the [params] keyword. *)
Definition asks (endpoint : string) (params : list (string * string)) (rq : request) : Prop :=
  rq_params rq = [] /\
  exists q, rq_url rq = endpoint ++ "?" ++ q /\ query_pairs q = params.

(** The request is a search at [endpoint] with the query [jql] and the
    field list [fields], for the page of at most [max_results] records
    that starts at the record number [start_at]. *)
Definition asks_page (endpoint jql fields : string) (max_results start_at : Z)
    (rq : request) : Prop :=
  exists m s,
    asks endpoint [("jql", jql); ("fields", fields); ("maxResults", m); ("startAt", s)] rq /\
    number m = Some max_results /\ number s = Some start_at.

(** The string [s] holds no character [c]. *)
Fixpoint free_of (c : ascii) (s : string) : bool :=
  match s with
  | EmptyString => true
  | String a rest => negb (Ascii.eqb a c) && free_of c rest
  end.

(** What [quote_plus] writes for one character, and [urlencode] for one
    parameter. *)
Definition quoted (c : ascii) : string :=
  if Py.unreserved c then String c EmptyString
  else if Ascii.eqb c " " then "+"
  else "%" ++ Py.hex2 true c.

Definition encoded (kv : string * string) : string :=
  Py.quote_plus (fst kv) ++ "=" ++ Py.quote_plus (snd kv).

(** The search endpoint of a base URL. *)
Definition search_endpoint (base_url : string) : string :=
  Py.rstrip_slash base_url ++ "/rest/api/2/search".

(** Every request of [exs] satisfies [at_cursor n], where n is the
    number of records received before it. *)
Definition cursor_paced (at_cursor : Z -> request -> Prop)
    (exs : list (request * reply)) : Prop :=
  forall before rq rp rest,
    exs = (before ++ (rq, rp) :: rest)%list ->
    at_cursor (Z.of_nat (List.length (received before))) rq.

(** The exchanges [exs] are [p] searches, the k-th for the page of at
    most [m] records that starts at the record number k * m. *)
Definition pages_asked (endpoint jql fields : string) (m p : nat)
    (exs : list (request * reply)) : Prop :=
  Forall2 (fun k x => asks_page endpoint jql fields (Z.of_nat m) (Z.of_nat (k * m)) (fst x))
    (seq 0 p) exs.

(** The world [w] after the further exchanges [more]. *)
Definition and_then (w : world) (more : list (request * reply)) : world :=
  {| exchanges := (exchanges w ++ more)%list;
     stderr := stderr w; stdout := stdout w; terminal := terminal w; files := files w |}.

(** A server answers every request made after the exchanges [past] with
    an empty batch. *)
Definition dries_up (up : upstream) (past : list (request * reply)) : Prop :=
  forall more rq, exists r, up (past ++ more)%list rq = Reply r /\ serves_page r [].

(** From [w] to [w'] there are [n] further exchanges and nothing else,
    each a request satisfying [P] answered with an empty batch. *)
Definition stalls (P : request -> Prop) (n : nat) (w w' : world) : Prop :=
  exists more,
    w' = and_then w more /\
    List.length more = n /\
    Forall (fun x => P (fst x) /\ exists r, snd x = Reply r /\ serves_page r []) more.

(** A search loop, given by its round and by the request [mk n] it makes
    at the cursor n, does not take an empty batch below the total for
    the end.  When a total is in force, the round leaves the state as it
    is, whatever the empty page says of the total; in the first round
    the total that the empty page reports comes into force and nothing
    else changes; and once the server has dried up the loop only
    repeats the request of its cursor, which satisfies [ask]. *)
Definition goes_round_again (round : page_state -> io (page_state + list json))
    (mk : Z -> request) (ask : Z -> request -> Prop) (up : upstream) : Prop :=
  (forall st w n t r,
      total st = JInt t -> start_at st < t -> serves_page r [] ->
      up (exchanges w) (mk (start_at st)) = Reply r ->
      while_true (S n) round st up w
      = while_true n round st up (record_exchange w (mk (start_at st)) (Reply r))) /\
  (forall w n t r,
      serves_page r [] -> reports_total r t -> 0 < t ->
      up (exchanges w) (mk 0) = Reply r ->
      while_true (S n) round first_page up w
      = while_true n round {| issues := []; start_at := 0; total := JInt t |} up
          (record_exchange w (mk 0) (Reply r))) /\
  (forall st w t fuel,
      total st = JInt t -> start_at st < t -> dries_up up (exchanges w) ->
      exists w',
        while_true fuel round st up w = (Diverge, w') /\
        stalls (fun rq => rq = mk (start_at st) /\ ask (start_at st) rq) fuel w w').

(** An empty batch sent without a total, and a server that sends one
    record of five and empty batches without a total ever after. *)
Definition empty_page_without_total : response :=
  {| status_code := 200;
     text := EmptyString;
     decoded := Some (JObj [("issues", JList [])]) |}.

Definition one_of_five : response :=
  {| status_code := 200;
     text := EmptyString;
     decoded := Some (JObj [("issues", JList [bare_issue]); ("total", JInt 5)]) |}.

Definition one_then_nothing : upstream :=
  fun past _ =>
    match past with
    | [] => Reply one_of_five
    | _ => Reply empty_page_without_total
    end.

(** The two queries of the web export, as text. *)
Definition closed_last_month (project : string) : string :=
  "project = " ++ project
  ++ " AND resolution IS NOT EMPTY AND resolutiondate >= startOfMonth(-1) AND resolutiondate < startOfMonth() ORDER BY resolutiondate ASC".

Definition updated_last_month (project : string) : string :=
  "project = " ++ project
  ++ " AND statusCategory != Done AND updated >= startOfMonth(-1) AND updated < startOfMonth() ORDER BY updated ASC".

(** The prompt texts of a run: those of [texts] when the argument [x]
    is missing or empty, none otherwise. *)
Definition prompted (x : option string) (texts : list string) : list string :=
  match x with
  | Some v => if String.eqb v EmptyString then texts else []
  | None => texts
  end.

(** An issue record in which the field [k] has the value [v] and every
    other field is absent. *)
Definition only_field (k : string) (v : json) : json :=
  JObj [("key", JStr "ARAPS-3"); ("fields", JObj [(k, v)])].

(** [project] reads the field [k] of an issue: there are two records
    with the same key that differ in this field alone, whose projections
    differ. *)
Definition reads (project : json -> result json) (k : string) : Prop :=
  exists it it',
    Py.get it "key" = Py.get it' "key" /\
    (forall k', k' <> k -> raw_field it k' = raw_field it' k') /\
    project it <> project it'.

(** [project] reads the key of an issue: there are two records with the
    same fields whose projections differ. *)
Definition reads_key (project : json -> result json) : Prop :=
  exists it it',
    (forall k, raw_field it k = raw_field it' k) /\ project it <> project it'.

(** A value that shows in the projection under the field [k]. *)
Definition telling (k : string) : json :=
  if existsb (String.eqb k) ["status"; "resolution"] then JObj [("name", JStr "x")]
  else if String.eqb k "assignee" then JObj [("displayName", JStr "x")]
  else if String.eqb k "components" then JList [JObj [("name", JStr "x")]]
  else if existsb (String.eqb k) (map (fun p => fst (fst p)) time_pairs) then JInt 60
  else JStr "x".

(** * Properties *)

(** ** Reasoning about [result] *)

Lemma rbind_ok {A B} (m : result A) (f : A -> result B) (b : B) :
  rbind m f = Ok b -> exists a, m = Ok a /\ f a = Ok b.
Proof.
  destruct m as [a | e]; simpl; intros H; [eauto | discriminate].
Qed.

Ltac rbind_inv H :=
  let a := fresh "v" in
  let Ha := fresh "Hv" in
  apply rbind_ok in H; destruct H as (a & Ha & H).

Lemma rmap_length {A B} (f : A -> result B) (l : list A) (out : list B) :
  rmap f l = Ok out -> List.length out = List.length l.
Proof.
  revert out; induction l as [| a l IH]; simpl; intros out H.
  - injection H as <-. reflexivity.
  - rbind_inv H. rbind_inv H. injection H as <-. simpl. f_equal. eauto.
Qed.

Lemma rmap_forall2 {A B} (f : A -> result B) (l : list A) (out : list B) :
  rmap f l = Ok out <-> Forall2 (fun a b => f a = Ok b) l out.
Proof.
  split.
  - revert out; induction l as [| a l IH]; simpl; intros out H.
    + injection H as <-. constructor.
    + rbind_inv H. rbind_inv H. injection H as <-. constructor; auto.
  - induction 1 as [| a b l out Hab _ IH]; simpl; [reflexivity |].
    rewrite Hab; simpl. rewrite IH; reflexivity.
Qed.

(** ** Strings *)

Lemma append_cons_nonempty (a b : string) (c : ascii) : a ++ String c b <> EmptyString.
Proof. destruct a; simpl; discriminate. Qed.

Lemma append_assoc (a b c : string) : (a ++ b) ++ c = a ++ b ++ c.
Proof. induction a as [| x a IH]; simpl; [reflexivity | now rewrite IH]. Qed.

(** ** Query strings *)

Lemma form_decode_quoted (c : ascii) (t : string) :
  form_decode (quoted c ++ t) = String c (form_decode t).
Proof.
  destruct c as [[] [] [] [] [] [] [] []]; reflexivity.
Qed.

Lemma quoted_free (c : ascii) :
  free_of "&" (quoted c) = true /\ free_of "=" (quoted c) = true.
Proof.
  destruct c as [[] [] [] [] [] [] [] []]; split; reflexivity.
Qed.

Lemma free_of_app (c : ascii) (a b : string) :
  free_of c (a ++ b) = free_of c a && free_of c b.
Proof.
  induction a as [| x a IH]; cbn; [reflexivity |]. rewrite IH. apply andb_assoc.
Qed.

(** Decoding undoes [quote_plus]. *)
Lemma form_decode_quote_plus (s : string) : form_decode (Py.quote_plus s) = s.
Proof.
  induction s as [| c s IH]; [reflexivity |].
  change (Py.quote_plus (String c s)) with (quoted c ++ Py.quote_plus s).
  rewrite form_decode_quoted, IH. reflexivity.
Qed.

Lemma quote_plus_free (s : string) :
  free_of "&" (Py.quote_plus s) = true /\ free_of "=" (Py.quote_plus s) = true.
Proof.
  induction s as [| c s (IH1 & IH2)]; [split; reflexivity |].
  change (Py.quote_plus (String c s)) with (quoted c ++ Py.quote_plus s).
  rewrite !free_of_app, IH1, IH2.
  destruct (quoted_free c) as (-> & ->). split; reflexivity.
Qed.

Lemma cut_free (sep : ascii) (a b : string) :
  free_of sep a = true -> cut sep (a ++ String sep b) = (a, Some b).
Proof.
  induction a as [| c a IH]; cbn.
  - rewrite Ascii.eqb_refl. reflexivity.
  - intros H. apply andb_true_iff in H as (Hc & Ha).
    apply negb_true_iff in Hc. rewrite Hc, (IH Ha). reflexivity.
Qed.

Lemma split_on_free (sep : ascii) (a : string) :
  free_of sep a = true -> split_on sep a = [a].
Proof.
  induction a as [| c a IH]; cbn; [reflexivity |].
  intros H. apply andb_true_iff in H as (Hc & Ha).
  apply negb_true_iff in Hc. rewrite Hc, (IH Ha). reflexivity.
Qed.

Lemma split_on_app (sep : ascii) (a b : string) :
  free_of sep a = true -> split_on sep (a ++ String sep b) = a :: split_on sep b.
Proof.
  induction a as [| c a IH]; cbn.
  - rewrite Ascii.eqb_refl. reflexivity.
  - intros H. apply andb_true_iff in H as (Hc & Ha).
    apply negb_true_iff in Hc. rewrite Hc, (IH Ha). reflexivity.
Qed.

Lemma encoded_free (kv : string * string) : free_of "&" (encoded kv) = true.
Proof.
  unfold encoded. rewrite !free_of_app.
  rewrite (proj1 (quote_plus_free (fst kv))), (proj1 (quote_plus_free (snd kv))). reflexivity.
Qed.

Lemma encoded_decoded (kv : string * string) : query_pair (encoded kv) = kv.
Proof.
  unfold query_pair, encoded. cbn [append].
  rewrite cut_free by apply quote_plus_free.
  rewrite !form_decode_quote_plus. destruct kv; reflexivity.
Qed.

Lemma encoded_first (kv : string * string) (params : list (string * string)) :
  exists c rest, String.concat "&" (map encoded (kv :: params)) = String c rest.
Proof.
  assert (H : exists c rest, encoded kv = String c rest).
  { unfold encoded. destruct (Py.quote_plus (fst kv)) as [| c q]; cbn [append]; eauto. }
  destruct H as (c & rest & H).
  destruct params as [| kv' params]; cbn [map String.concat]; rewrite H; cbn [append]; eauto.
Qed.

(** What [urlencode] writes is read back as the parameters it was
    given, whatever their text. *)
Lemma query_pairs_urlencode (params : list (string * string)) :
  query_pairs (Py.urlencode params) = params.
Proof.
  unfold Py.urlencode. fold encoded.
  destruct params as [| kv params]; [reflexivity |].
  unfold query_pairs.
  destruct (encoded_first kv params) as (c & rest & E). rewrite E, <- E. clear c rest E.
  revert kv. induction params as [| kv' params IH]; intros kv.
  - cbn [map String.concat]. rewrite split_on_free by apply encoded_free.
    cbn [map]. rewrite encoded_decoded. reflexivity.
  - specialize (IH kv').
    change (String.concat "&" (map encoded (kv :: kv' :: params)))
      with (encoded kv ++ String "&" (String.concat "&" (map encoded (kv' :: params)))).
    rewrite split_on_app by apply encoded_free.
    cbn [map]. rewrite encoded_decoded. f_equal. exact IH.
Qed.

Lemma number_str_int (n : Z) : number (Py.str_int n) = Some n.
Proof.
  unfold number, Py.str_int. rewrite NilZero.isi.
  - cbn. now rewrite DecimalZ.of_to.
  - destruct n; cbn; try discriminate. intros H. injection H as H.
    now apply Unsigned.to_uint_nonnil in H.
  - destruct n; cbn; try discriminate. intros H. injection H as H.
    now apply Unsigned.to_uint_nonnil in H.
Qed.

(** The search request of each surface asks for the page at its cursor. *)
Lemma web_request_asks (base_url : string) (auth : string * string) (jql fields : string)
    (max_results start_at : Z) :
  asks_page (search_endpoint base_url) jql fields max_results start_at
    (App.search_request base_url auth jql fields max_results start_at).
Proof.
  exists (Py.str_int max_results), (Py.str_int start_at).
  split; [| split; apply number_str_int].
  split; [reflexivity |]. eexists. split; [reflexivity |]. apply query_pairs_urlencode.
Qed.

Lemma cli_request_asks (search_url : string) (auth : string * string) (jql fields : string)
    (max_results start_at : Z) :
  asks_page search_url jql fields max_results start_at
    (GetJira.search_request search_url auth jql fields max_results start_at).
Proof.
  exists (Py.str_int max_results), (Py.str_int start_at).
  split; [| split; apply number_str_int].
  split; [reflexivity |]. eexists. split; [reflexivity |]. apply query_pairs_urlencode.
Qed.

(** ** The humaniser *)

Lemma humanise_decomposed (s d h m r : Z) :
  s = 86400 * d + 3600 * h + 60 * m + r ->
  0 <= h < 24 -> 0 <= m < 60 -> 0 <= r < 60 ->
  format_seconds_human (JInt s) = Ok (JStr (humanized d h m)).
Proof.
  intros Hs Hh Hm Hr.
  assert (Hd : s / 86400 = d) by (symmetry; apply (Z.div_unique s 86400 d (3600 * h + 60 * m + r)); lia).
  assert (Hrem : s mod 86400 = 3600 * h + 60 * m + r)
    by (symmetry; apply (Z.mod_unique s 86400 d); lia).
  assert (Hh' : (s mod 86400) / 3600 = h)
    by (rewrite Hrem; symmetry; apply (Z.div_unique _ 3600 h (60 * m + r)); lia).
  assert (Hrem' : (s mod 86400) mod 3600 = 60 * m + r)
    by (rewrite Hrem; symmetry; apply (Z.mod_unique _ 3600 h); lia).
  assert (Hm' : ((s mod 86400) mod 3600) / 60 = m)
    by (rewrite Hrem'; symmetry; apply (Z.div_unique _ 60 m r); lia).
  unfold format_seconds_human, Py.int, rbind.
  cbv zeta. rewrite Hm', Hh', Hd.
  unfold humanized, component, Py.append.
  destruct (d =? 0), (h =? 0), (m =? 0); reflexivity.
Qed.

Lemma humanise_int_nonempty (n : Z) :
  exists s, format_seconds_human (JInt n) = Ok (JStr s) /\ s <> EmptyString.
Proof.
  exists (humanized (n / 86400) ((n mod 86400) / 3600) (((n mod 86400) mod 3600) / 60)).
  split.
  - apply humanise_decomposed with (r := ((n mod 86400) mod 3600) mod 60).
    + pose proof (Z.div_mod n 86400). pose proof (Z.div_mod (n mod 86400) 3600).
      pose proof (Z.div_mod ((n mod 86400) mod 3600) 60). lia.
    + pose proof (Z.mod_pos_bound n 86400).
      split; [apply Z.div_pos; lia | apply Z.div_lt_upper_bound; lia].
    + pose proof (Z.mod_pos_bound (n mod 86400) 3600).
      split; [apply Z.div_pos; lia | apply Z.div_lt_upper_bound; lia].
    + apply Z.mod_pos_bound; lia.
  - unfold humanized, component.
    destruct (_ =? 0), (_ =? 0), (_ =? 0); simpl;
      solve [discriminate | apply append_cons_nonempty].
Qed.

(** C3: the humaniser sends null to null and 0 to "0 minutes"; a positive
    count of seconds that splits into [d] whole days, [h] whole hours,
    [m] whole minutes and [r] leftover seconds is rendered from [d], [h]
    and [m] alone: the non-zero components in the order day, hour,
    minute, joined with ", ", each with a plural "s" exactly when its
    count exceeds 1.  So 90000 gives "1 day, 1 hour", 7200 gives
    "2 hours" and 59 gives "0 minutes". *)
Theorem humanizer_decomposes :
  format_seconds_human JNull = Ok JNull /\
  format_seconds_human (JInt 0) = Ok (JStr "0 minutes") /\
  (forall s d h m r : Z,
      0 < s ->
      s = 86400 * d + 3600 * h + 60 * m + r ->
      0 <= h < 24 -> 0 <= m < 60 -> 0 <= r < 60 ->
      format_seconds_human (JInt s) = Ok (JStr (humanized d h m))) /\
  format_seconds_human (JInt 90000) = Ok (JStr "1 day, 1 hour") /\
  format_seconds_human (JInt 7200) = Ok (JStr "2 hours") /\
  format_seconds_human (JInt 59) = Ok (JStr "0 minutes").
Proof.
  repeat split; try reflexivity.
  intros s d h m r _. apply humanise_decomposed.
Qed.

Lemma humanizer_decomposes_witness :
  format_seconds_human (JInt 93784) = Ok (JStr "1 day, 2 hours, 3 minutes").
Proof.
  apply (proj1 (proj2 (proj2 humanizer_decomposes)) 93784 1 2 3 4); lia.
Defined.

Lemma humanise_null_or_int (v h : json) :
  v = JNull \/ (exists n, v = JInt n) ->
  format_seconds_human v = Ok h ->
  (h = JNull <-> v = JNull) /\
  (v <> JNull -> exists s, h = JStr s /\ s <> EmptyString).
Proof.
  intros [-> | (n & ->)] H.
  - simpl in H. injection H as <-. split; [tauto | congruence].
  - destruct (humanise_int_nonempty n) as (s & Hs & Hne).
    rewrite Hs in H. injection H as <-.
    split; [split; discriminate | eauto].
Qed.

(** C4: when the six raw time-tracking fields of an issue are null or
    non-negative integers, every Seconds field of the enriched record is
    the raw value, and its Human field is null exactly when the Seconds
    field is, and a non-empty string otherwise. *)
Theorem human_null_iff_seconds_null (it item : json) :
  (forall raw sec hum v,
      In (raw, sec, hum) time_pairs -> raw_field it raw = Ok v -> null_or_natural v) ->
  App.project_item it = Ok item ->
  forall raw sec hum,
    In (raw, sec, hum) time_pairs ->
    exists sv hv,
      raw_field it raw = Ok sv /\
      time_field item sec = Ok sv /\
      time_field item hum = Ok hv /\
      (hv = JNull <-> sv = JNull) /\
      (sv <> JNull -> exists s, hv = JStr s /\ s <> EmptyString).
Proof.
  intros Hraw H raw sec hum Hin.
  unfold App.project_item in H.
  repeat rbind_inv H. injection H as <-.
  assert (Hf : forall k x, Py.get v k = Ok x -> raw_field it k = Ok x)
    by (intros k x Hk; unfold raw_field; rewrite Hv; exact Hk).
  assert (Hnat : forall x, null_or_natural x -> x = JNull \/ (exists n, x = JInt n))
    by (intros x [-> | (n & _ & ->)]; eauto).
  simpl in Hin.
  repeat (destruct Hin as [Hin | Hin]; [injection Hin as <- <- <- |]); try contradiction;
    match goal with
    | Hk : Py.get v ?k = Ok ?x, Hh : format_seconds_human ?x = Ok ?y |- context [raw_field it ?k] =>
        exists x, y; split; [apply Hf, Hk |];
        split; [reflexivity |]; split; [reflexivity |];
        apply humanise_null_or_int; [| exact Hh];
        apply Hnat; eapply Hraw; [| apply Hf, Hk]; simpl; tauto
    end.
Qed.

(** ** The export endpoint rejects incomplete forms *)

Lemma strip_empty : Py.strip EmptyString = EmptyString.
Proof. reflexivity. Qed.

Lemma form_get_missing_or_empty (form : list (string * string)) (k : string) :
  missing_or_empty form k -> App.form_get form k EmptyString = EmptyString.
Proof. unfold App.form_get; intros [-> | ->]; reflexivity. Qed.

(** C8: when one of baseUrl, projectKey, username, password is missing
    or empty, the export endpoint aborts with status 400 and leaves the
    world as it found it: no request has been sent. *)
Theorem missing_field_rejected (fuel : nat) (form : list (string * string))
    (up : upstream) (w : world) (k : string) :
  In k required_fields ->
  missing_or_empty form k ->
  App.export fuel form up w = (Fail (Abort 400 "Parametres manquants"), w).
Proof.
  intros Hk Hm. apply form_get_missing_or_empty in Hm.
  unfold App.export.
  simpl in Hk.
  destruct Hk as [<- | [<- | [<- | [<- | []]]]]; rewrite Hm; try rewrite strip_empty;
    cbn [forallb String.eqb negb andb];
    repeat match goal with
           | |- context [negb (String.eqb ?x EmptyString)] =>
               destruct (negb (String.eqb x EmptyString))
           end; reflexivity.
Qed.

Lemma missing_field_rejected_witness :
  App.export 5 [("baseUrl", "https://jira.example.org"); ("projectKey", "ARAPS");
                ("username", "ada")]
    (fun _ _ => NoReply) start
  = (Fail (Abort 400 "Parametres manquants"), start).
Proof.
  apply (@missing_field_rejected 5 _ (fun _ _ => NoReply) start "password").
  - simpl; tauto.
  - left; reflexivity.
Defined.

(** ** Work-logs *)

Lemma worklog_fallback_on_empty_string :
  App.project_worklog blank_time_spent = Ok blank_time_spent_out.
Proof. reflexivity. Qed.

(** C9 fails as stated: a [timeSpent] string that is present but empty
    is not carried over; the humanised seconds take its place. *)
Lemma present_time_spent_not_kept :
  ~ (forall wl out s,
        App.project_worklog wl = Ok out ->
        Py.get wl "timeSpent" = Ok (JStr s) ->
        Py.get out "timeSpentHuman" = Ok (JStr s)).
Proof.
  intros H.
  specialize (H blank_time_spent blank_time_spent_out EmptyString eq_refl eq_refl).
  discriminate H.
Qed.

(** C9, amended: [timeSpentHuman] is the upstream [timeSpent] string
    whenever that string is present and not empty, and the humaniser
    applied to [timeSpentSeconds] when [timeSpent] is absent, null or the
    empty string; [comment] is the raw comment when it is a string and
    null for any other shape. *)
Theorem worklog_time_and_comment (wl out : json) :
  App.project_worklog wl = Ok out ->
  exists spent seconds comment human,
    Py.get wl "timeSpent" = Ok spent /\
    Py.get wl "timeSpentSeconds" = Ok seconds /\
    Py.get wl "comment" = Ok comment /\
    Py.get out "timeSpentHuman" = Ok human /\
    (forall s, spent = JStr s -> s <> EmptyString -> human = JStr s) /\
    (spent = JNull \/ spent = JStr EmptyString ->
     format_seconds_human seconds = Ok human) /\
    (forall s, comment = JStr s -> Py.get out "comment" = Ok (JStr s)) /\
    ((forall s, comment <> JStr s) -> Py.get out "comment" = Ok JNull).
Proof.
  unfold App.project_worklog. intros H.
  apply rbind_ok in H as (author & _ & H).
  apply rbind_ok in H as (started & _ & H).
  apply rbind_ok in H as (seconds & Hsec & H).
  apply rbind_ok in H as (human & Hhum & H).
  apply rbind_ok in H as (comment' & Hcom & H).
  injection H as <-.
  apply rbind_ok in Hhum as (spent & Hspent & Hhum).
  apply rbind_ok in Hcom as (comment & Hc & Hcom).
  exists spent, seconds, comment, human.
  repeat split; try assumption; try reflexivity.
  - intros s -> Hne. simpl in Hhum.
    destruct (String.eqb_spec s EmptyString); [contradiction |].
    simpl in Hhum. congruence.
  - intros [-> | ->]; simpl in Hhum; rewrite Hsec in Hhum; exact Hhum.
  - intros s ->. simpl in Hcom. rewrite Hc in Hcom. injection Hcom as <-. reflexivity.
  - intros Hns. change (Ok comment' = Ok JNull).
    destruct comment; simpl in Hcom; try (injection Hcom as <-; reflexivity).
    exfalso; eapply Hns; reflexivity.
Qed.

Lemma worklog_time_and_comment_witness :
  exists spent seconds comment human,
    Py.get blank_time_spent "timeSpent" = Ok spent /\
    Py.get blank_time_spent "timeSpentSeconds" = Ok seconds /\
    Py.get blank_time_spent "comment" = Ok comment /\
    Py.get blank_time_spent_out "timeSpentHuman" = Ok human /\
    (forall s, spent = JStr s -> s <> EmptyString -> human = JStr s) /\
    (spent = JNull \/ spent = JStr EmptyString ->
     format_seconds_human seconds = Ok human) /\
    (forall s, comment = JStr s -> Py.get blank_time_spent_out "comment" = Ok (JStr s)) /\
    ((forall s, comment <> JStr s) -> Py.get blank_time_spent_out "comment" = Ok JNull).
Proof.
  apply (@worklog_time_and_comment blank_time_spent blank_time_spent_out).
  reflexivity.
Defined.

(** ** The projector on sparse records *)

Lemma named_ok (v : json) (k : string) :
  object_or_null v ->
  exists n, Py.get (Py.or_ v (JObj [])) k = Ok n /\ (v = JNull -> n = JNull).
Proof.
  intros [-> | (o & ->)].
  - exists JNull. split; reflexivity.
  - unfold Py.or_. destruct o as [| p o]; simpl.
    + exists JNull. split; [reflexivity | discriminate].
    + eexists; split; [reflexivity | discriminate].
Qed.

Lemma names_ok (l : list json) (k : string) :
  Forall (fun c => exists o, c = JObj o) l ->
  exists names, rmap (fun c => Py.get c k) l = Ok names.
Proof.
  induction 1 as [| c l (o & ->) _ (names & IH)]; simpl.
  - eexists; reflexivity.
  - rewrite IH. simpl. eexists; reflexivity.
Qed.

Lemma components_ok (v : json) :
  objects_or_null v ->
  exists names,
    (cs <- Py.iter (Py.or_ v (JList [])) ;; rmap (fun c => Py.get c "name") cs)%result
    = Ok names /\
    (v = JNull -> names = []).
Proof.
  intros [-> | (l & -> & Hl)].
  - exists []. split; reflexivity.
  - destruct (names_ok "name" Hl) as (names & Hn).
    exists names. split; [| discriminate].
    unfold Py.or_. destruct l; simpl in *; [injection Hn as <-; reflexivity | exact Hn].
Qed.

Lemma format_ok (v : json) :
  int_or_null v -> exists h, format_seconds_human v = Ok h.
Proof.
  intros [-> | (n & ->)].
  - exists JNull; reflexivity.
  - destruct (humanise_int_nonempty n) as (s & Hs & _). eauto.
Qed.

Lemma raw_field_dict (kvs : list (string * json)) :
  Py.assoc "fields" kvs = None \/ (exists f, Py.assoc "fields" kvs = Some (JObj f)) ->
  exists f,
    Py.get_default (JObj kvs) "fields" (JObj []) = Ok (JObj f) /\
    forall k, raw_field (JObj kvs) k = Py.get (JObj f) k.
Proof.
  intros [H | (f & H)]; [exists [] | exists f];
    unfold raw_field, Py.get_default; rewrite H; split; reflexivity.
Qed.

Lemma get_obj (f : list (string * json)) (k : string) :
  Py.get (JObj f) k = Ok (match Py.assoc k f with Some v => v | None => JNull end).
Proof. reflexivity. Qed.

Ltac run_gets := repeat first [rewrite get_obj | progress cbn [rbind]].

Ltac use_named H k :=
  let n := fresh "n" in
  let Hn := fresh "Hn" in
  let Hz := fresh "Hz" in
  destruct (@named_ok _ k H) as (n & Hn & Hz); rewrite Hn; run_gets.

Lemma cli_item_total (it : json) :
  well_shaped it ->
  exists item,
    GetJira.project_item it = Ok item /\ keys_of item = cli_keys /\ null_safe it item.
Proof.
  intros [(kvs & -> & Hf) Hnamed Hcomp _].
  destruct (@raw_field_dict kvs Hf) as (f & Hfields & Hraw).
  assert (Hs : object_or_null (match Py.assoc "status" f with Some v => v | None => JNull end))
    by (apply (Hnamed "status"); [simpl; tauto | rewrite Hraw; reflexivity]).
  assert (Hr : object_or_null (match Py.assoc "resolution" f with Some v => v | None => JNull end))
    by (apply (Hnamed "resolution"); [simpl; tauto | rewrite Hraw; reflexivity]).
  assert (Ha : object_or_null (match Py.assoc "assignee" f with Some v => v | None => JNull end))
    by (apply (Hnamed "assignee"); [simpl; tauto | rewrite Hraw; reflexivity]).
  assert (Hc : objects_or_null (match Py.assoc "components" f with Some v => v | None => JNull end))
    by (apply Hcomp; rewrite Hraw; reflexivity).
  unfold GetJira.project_item. rewrite Hfields.
  run_gets.
  use_named Hs "name". use_named Hr "name". use_named Ha "displayName".
  destruct (@components_ok _ Hc) as (names & Hnames & Hnil). rewrite Hnames. run_gets.
  eexists; split; [reflexivity |]. split; [reflexivity |].
  unfold null_safe, holds. rewrite !Hraw.
  split; [| split].
  - intros k Hk. rewrite Hraw. simpl in Hk.
    destruct Hk as [<- | [<- | [<- | [<- | []]]]]; intros H; injection H as H;
      eexists; (split; [reflexivity |]);
      cbn [Py.assoc String.eqb Ascii.eqb Bool.eqb]; f_equal; exact H.
  - intros k Hk. rewrite Hraw. simpl in Hk.
    destruct Hk as [<- | [<- | [<- | []]]]; intros H; injection H as H;
      eexists; (split; [reflexivity |]);
      cbn [Py.assoc String.eqb Ascii.eqb Bool.eqb]; f_equal; auto.
  - intros H. injection H as H.
    eexists; split; [reflexivity |].
    cbn [Py.assoc String.eqb Ascii.eqb Bool.eqb].
    rewrite (Hnil H). reflexivity.
Qed.

Ltac use_time Ht raw :=
  let h := fresh "h" in
  let Hh := fresh "Hh" in
  destruct (Ht raw) as (h & Hh); [simpl; tauto |]; rewrite Hh; run_gets.

Lemma web_item_total (it : json) :
  well_shaped it ->
  exists item,
    App.project_item it = Ok item /\ keys_of item = web_keys /\ null_safe it item.
Proof.
  intros [(kvs & -> & Hf) Hnamed Hcomp Htime].
  destruct (@raw_field_dict kvs Hf) as (f & Hfields & Hraw).
  assert (Hs : object_or_null (match Py.assoc "status" f with Some v => v | None => JNull end))
    by (apply (Hnamed "status"); [simpl; tauto | rewrite Hraw; reflexivity]).
  assert (Hr : object_or_null (match Py.assoc "resolution" f with Some v => v | None => JNull end))
    by (apply (Hnamed "resolution"); [simpl; tauto | rewrite Hraw; reflexivity]).
  assert (Ha : object_or_null (match Py.assoc "assignee" f with Some v => v | None => JNull end))
    by (apply (Hnamed "assignee"); [simpl; tauto | rewrite Hraw; reflexivity]).
  assert (Hc : objects_or_null (match Py.assoc "components" f with Some v => v | None => JNull end))
    by (apply Hcomp; rewrite Hraw; reflexivity).
  assert (Ht : forall raw,
             In raw (map (fun p => fst (fst p)) time_pairs) ->
             exists h, format_seconds_human
                         (match Py.assoc raw f with Some v => v | None => JNull end) = Ok h).
  { intros raw Hin. apply in_map_iff in Hin as (((raw' & sec) & hum) & <- & Hin).
    apply format_ok. eapply Htime; [exact Hin | rewrite Hraw; reflexivity]. }
  unfold App.project_item. rewrite Hfields.
  run_gets.
  use_named Hs "name". use_named Hr "name". use_named Ha "displayName".
  destruct (@components_ok _ Hc) as (names & Hnames & Hnil). rewrite Hnames. run_gets.
  use_time Ht "timeoriginalestimate". use_time Ht "timeestimate". use_time Ht "timespent".
  use_time Ht "aggregatetimeoriginalestimate". use_time Ht "aggregatetimeestimate".
  use_time Ht "aggregatetimespent".
  eexists; split; [reflexivity |]. split; [reflexivity |].
  unfold null_safe, holds. rewrite !Hraw.
  split; [| split].
  - intros k Hk. rewrite Hraw. simpl in Hk.
    destruct Hk as [<- | [<- | [<- | [<- | []]]]]; intros H; injection H as H;
      eexists; (split; [reflexivity |]);
      cbn [Py.assoc String.eqb Ascii.eqb Bool.eqb]; f_equal; exact H.
  - intros k Hk. rewrite Hraw. simpl in Hk.
    destruct Hk as [<- | [<- | [<- | []]]]; intros H; injection H as H;
      eexists; (split; [reflexivity |]);
      cbn [Py.assoc String.eqb Ascii.eqb Bool.eqb]; f_equal; auto.
  - intros H. injection H as H.
    eexists; split; [reflexivity |].
    cbn [Py.assoc String.eqb Ascii.eqb Bool.eqb].
    rewrite (Hnil H). reflexivity.
Qed.

(** C10: on a raw issue record whose [fields] map is missing or a dict,
    and whose fields are absent, null or of the shape the server sends,
    both projectors return an enriched record, with all the keys of
    their output: an absent or null summary, resolutiondate, updated or
    labels is there with a null value, so is the name of an absent or
    null status, resolution or assignee, and an absent or null
    components list is there as the empty list. *)
Theorem projector_total_on_sparse_records (it : json) :
  well_shaped it ->
  (exists item,
      App.project_item it = Ok item /\ keys_of item = web_keys /\ null_safe it item) /\
  (exists item,
      GetJira.project_item it = Ok item /\ keys_of item = cli_keys /\ null_safe it item).
Proof.
  intros H. split; [apply web_item_total | apply cli_item_total]; exact H.
Qed.

Lemma projector_total_on_sparse_records_witness :
  (exists item,
      App.project_item null_issue = Ok item /\ keys_of item = web_keys /\
      null_safe null_issue item) /\
  (exists item,
      GetJira.project_item null_issue = Ok item /\ keys_of item = cli_keys /\
      null_safe null_issue item).
Proof.
  apply (@projector_total_on_sparse_records null_issue).
  constructor.
  - eexists; split; [reflexivity |]. right. eexists; reflexivity.
  - intros k v Hk. simpl in Hk.
    destruct Hk as [<- | [<- | [<- | []]]]; intros H; injection H as <-; left; reflexivity.
  - intros v H. injection H as <-. left; reflexivity.
  - intros raw sec hum v Hin. simpl in Hin.
    repeat (destruct Hin as [Hin | Hin]; [injection Hin as <- <- <- |]); try contradiction;
      intros H; injection H as <-; solve [left; reflexivity | right; eexists; reflexivity].
Defined.

Lemma human_null_iff_seconds_null_witness :
  exists sv hv,
    raw_field null_issue "timespent" = Ok sv /\
    time_field null_issue_item "timeSpentSeconds" = Ok sv /\
    time_field null_issue_item "timeSpentHuman" = Ok hv /\
    (hv = JNull <-> sv = JNull) /\
    (sv <> JNull -> exists s, hv = JStr s /\ s <> EmptyString).
Proof.
  apply (@human_null_iff_seconds_null null_issue null_issue_item).
  - intros raw sec hum v Hin. simpl in Hin.
    repeat (destruct Hin as [Hin | Hin]; [injection Hin as <- <- <- |]); try contradiction;
      intros H; injection H as <-;
      solve [left; reflexivity | right; exists 7200; split; [lia | reflexivity]].
  - reflexivity.
  - simpl; tauto.
Defined.

(** ** The query builder *)

Lemma starts_with_iff (p s : string) :
  starts_with p s = true <-> exists r, s = p ++ r.
Proof.
  revert s; induction p as [| a p IH]; intros s; simpl.
  - split; [eauto | reflexivity].
  - destruct s as [| b s].
    + split; [discriminate | intros (r & H); discriminate].
    + rewrite andb_true_iff, IH, Ascii.eqb_eq. split.
      * intros (-> & r & ->). eauto.
      * intros (r & H). injection H as -> ->. eauto.
Qed.

Lemma contains_cons (n h : string) (c : ascii) :
  contains n (String c h) <-> starts_with n (String c h) = true \/ contains n h.
Proof.
  rewrite starts_with_iff. split.
  - intros (l & r & H). destruct l as [| c' l]; simpl in H.
    + left; eauto.
    + injection H as -> ->. right. exists l, r. reflexivity.
  - intros [(r & ->) | (l & r & ->)].
    + exists EmptyString, r. reflexivity.
    + exists (String c l), r. reflexivity.
Qed.

Lemma containsb_iff (n h : string) : containsb n h = true <-> contains n h.
Proof.
  induction h as [| c h IH].
  - simpl. rewrite orb_false_r, starts_with_iff. split.
    + intros (r & H). exists EmptyString, r. exact H.
    + intros (l & r & H). destruct l; [eauto | discriminate].
  - rewrite contains_cons. cbn [containsb]. rewrite orb_true_iff, IH. reflexivity.
Qed.

Lemma contains_app_r (n a b : string) : contains n b -> contains n (a ++ b).
Proof.
  intros (l & r & ->). exists (a ++ l), r. now rewrite append_assoc.
Qed.

Lemma contains_app_l (n a b : string) : contains n a -> contains n (a ++ b).
Proof.
  intros (l & r & ->). exists l, (r ++ b). now rewrite !append_assoc.
Qed.

Lemma starts_with_app (n q rest : string) :
  starts_with n (q ++ rest) = true ->
  starts_with n q = true \/ existsb (fun t => starts_with t rest) (tails n) = true.
Proof.
  revert n; induction q as [| c q IH]; intros n H.
  - destruct n as [| a n]; [left; reflexivity |].
    right. cbn [tails existsb]. cbn [append] in H. rewrite H. reflexivity.
  - destruct n as [| a n]; [left; reflexivity |].
    simpl in H. apply andb_true_iff in H as (Hc & H).
    destruct (IH n H) as [Hq | Ht].
    + left. simpl. now rewrite Hc, Hq.
    + right. cbn [tails existsb]. rewrite Ht. apply orb_true_r.
Qed.

(** A needle found in [p ++ rest] lies in [p], or in [rest], or runs
    over the seam, a suffix of it opening [rest]. *)
Lemma contains_app (n p rest : string) :
  contains n (p ++ rest) ->
  contains n p \/ existsb (fun t => starts_with t rest) (tails n) = true \/ contains n rest.
Proof.
  induction p as [| c p IH]; intros H.
  - right; right. exact H.
  - change (String c p ++ rest) with (String c (p ++ rest)) in H.
    apply contains_cons in H as [H | H].
    + change (String c (p ++ rest)) with (String c p ++ rest) in H.
      apply starts_with_app in H as [H | H]; [left | right; left; exact H].
      apply starts_with_iff in H as (r & ->). exists EmptyString, r. reflexivity.
    + destruct (IH H) as [Hp | Hr]; [left | right; exact Hr].
      apply contains_cons. right. exact Hp.
Qed.

Ltac peel_head H :=
  cbn [append] in H;
  repeat (apply contains_cons in H as [H | H]; [simpl in H; discriminate H |]).

Ltac found_in_tail :=
  do 2 apply contains_app_r; apply containsb_iff; vm_compute; reflexivity.

Ltac key_brings_it H :=
  peel_head H;
  apply contains_app in H as [H | [H | H]];
  [ exact H
  | vm_compute in H; discriminate H
  | apply containsb_iff in H; vm_compute in H; discriminate H ].

(** C6 fails as stated: the project key is any text, and a key that
    holds a resolution term brings it into the query built with
    useUpdated. *)
Lemma resolution_term_in_updated_query :
  ~ (forall project,
        ~ contains "resolution" (App.jql project true) /\
        ~ contains "resolution" (GetJira.jql project true)).
Proof.
  intros H. destruct (H "ARAPS AND resolution IS EMPTY") as (H1 & _).
  apply H1. apply containsb_iff. vm_compute. reflexivity.
Qed.

(** C6, amended: for every project key, on both surfaces, the query
    built without useUpdated holds [resolution IS NOT EMPTY] and a lower
    and an upper bound on [resolutiondate]; the query built with
    useUpdated holds a lower and an upper bound on [updated], and the
    word [resolution] occurs in it exactly when it occurs in the project
    key; all four bounds are [startOfMonth(-1)] and [startOfMonth()]. *)
Theorem query_selection (project : string) :
  (contains "resolution IS NOT EMPTY" (App.jql project false) /\
   contains "resolutiondate >= startOfMonth(-1)" (App.jql project false) /\
   contains "resolutiondate < startOfMonth()" (App.jql project false) /\
   contains "updated >= startOfMonth(-1)" (App.jql project true) /\
   contains "updated < startOfMonth()" (App.jql project true) /\
   (contains "resolution" (App.jql project true) <-> contains "resolution" project)) /\
  (contains "resolution IS NOT EMPTY" (GetJira.jql project false) /\
   contains "resolutiondate >= startOfMonth(-1)" (GetJira.jql project false) /\
   contains "resolutiondate < startOfMonth()" (GetJira.jql project false) /\
   contains "updated >= startOfMonth(-1)" (GetJira.jql project true) /\
   contains "updated < startOfMonth()" (GetJira.jql project true) /\
   (contains "resolution" (GetJira.jql project true) <-> contains "resolution" project)).
Proof.
  unfold App.jql, GetJira.jql.
  repeat match goal with |- _ /\ _ => split end;
    try found_in_tail;
    (split; intros H; [key_brings_it H | apply contains_app_r, contains_app_l, H]).
Qed.

Lemma query_selection_witness :
  ~ contains "resolution" (App.jql "ARAPS" true) /\
  ~ contains "resolution" (GetJira.jql "ARAPS" true).
Proof.
  split; intros H.
  - apply (proj1 (proj2 (proj2 (proj2 (proj2 (proj2 (proj1 (query_selection "ARAPS")))))))) in H.
    apply containsb_iff in H. discriminate H.
  - apply (proj1 (proj2 (proj2 (proj2 (proj2 (proj2 (proj2 (query_selection "ARAPS")))))))) in H.
    apply containsb_iff in H. discriminate H.
Defined.

(** ** Reasoning about [io] *)

Lemma bind_done {A B} (m : io A) (f : A -> io B) (up : upstream) (w w' : world) (b : B) :
  bind m f up w = (Done b, w') ->
  exists a w1, m up w = (Done a, w1) /\ f a up w1 = (Done b, w').
Proof.
  unfold bind. destruct (m up w) as [[a | e |] w1]; intros H; try discriminate. eauto.
Qed.

Lemma lift_done {A} (r : result A) (up : upstream) (w w' : world) (a : A) :
  lift r up w = (Done a, w') -> r = Ok a /\ w' = w.
Proof.
  destruct r; simpl; unfold ret, raise; intros H; inversion H; auto.
Qed.

Lemma for_each_forall2 {A B} (R : A -> B -> Prop) (f : A -> io B) (up : upstream)
    (l : list A) :
  (forall a b w w', In a l -> f a up w = (Done b, w') -> R a b) ->
  forall w w' out, for_each f l up w = (Done out, w') -> Forall2 R l out.
Proof.
  induction l as [| a l IH]; intros Hf w w' out H.
  - inversion H. constructor.
  - simpl in H.
    apply bind_done in H as (b & w1 & Hb & H).
    apply bind_done in H as (bs & w2 & Hbs & H).
    inversion H; subst. constructor.
    + eapply Hf; [left; reflexivity | exact Hb].
    + eapply IH; [| exact Hbs]. intros; eapply Hf; [right |]; eassumption.
Qed.

(** ** The projector keeps one record per issue, in order *)

Lemma web_item_key (it b : json) :
  App.project_item it = Ok b ->
  Py.get b "key" = Py.get it "key" /\
  forall wls item, Py.setitem b "worklogs" (JList wls) = Ok item ->
                   Py.get item "key" = Py.get it "key".
Proof.
  unfold App.project_item. intros H.
  repeat rbind_inv H. injection H as <-.
  match goal with Hk : Py.get it "key" = Ok _ |- _ => rewrite Hk end.
  split; [reflexivity |].
  intros wls item Hs. simpl in Hs. injection Hs as <-. reflexivity.
Qed.

Lemma cli_item_key (it b : json) :
  GetJira.project_item it = Ok b -> Py.get b "key" = Py.get it "key".
Proof.
  unfold GetJira.project_item. intros H.
  repeat rbind_inv H. injection H as <-.
  match goal with Hk : Py.get it "key" = Ok _ |- _ => rewrite Hk end.
  reflexivity.
Qed.

Lemma web_projection_in_order (fuel : nat) (issues : list json) (base_url : string)
    (auth : string * string) (include_worklogs : bool) (up : upstream) (w w' : world)
    (out : list json) :
  App.project_issues fuel issues base_url auth include_worklogs up w = (Done out, w') ->
  Forall2 enriched_from issues out.
Proof.
  unfold App.project_issues. apply for_each_forall2.
  intros it item w0 w0' _ H.
  apply bind_done in H as (b & w1 & Hb & H).
  apply lift_done in Hb as (Hb & ->).
  destruct (web_item_key _ Hb) as (Hkey & Hkey').
  destruct include_worklogs.
  - apply bind_done in H as (key & w2 & _ & H).
    apply bind_done in H as (logs & w3 & _ & H).
    apply bind_done in H as (wls & w4 & _ & H).
    apply lift_done in H as (H & _).
    split; [eapply Hkey'; exact H |]. exists b. split; [exact Hb | right; eauto].
  - inversion H; subst. split; [exact Hkey |]. exists item. auto.
Qed.

Lemma for_each_returns {A B} (f : A -> io B) (up : upstream) (l : list A) :
  Forall (fun a => exists b, forall w, f a up w = (Done b, w)) l ->
  forall w, exists out, for_each f l up w = (Done out, w).
Proof.
  induction 1 as [| a l (b & Hb) _ IH]; intros w.
  - eexists; reflexivity.
  - destruct (IH w) as (out & Hout).
    exists (b :: out). cbn [for_each]. unfold bind. rewrite Hb, Hout. reflexivity.
Qed.

Lemma web_projection_returns (fuel : nat) (issues : list json) (base_url : string)
    (auth : string * string) (up : upstream) (w : world) :
  Forall well_shaped issues ->
  exists out, App.project_issues fuel issues base_url auth false up w = (Done out, w).
Proof.
  intros H. unfold App.project_issues. apply for_each_returns.
  eapply Forall_impl; [| exact H].
  intros it Hit. destruct (web_item_total Hit) as (item & Hitem & _).
  exists item. intros w0. unfold bind. rewrite Hitem. reflexivity.
Qed.

Lemma cli_projection_returns (issues : list json) :
  Forall well_shaped issues -> exists out, GetJira.project_issues issues = Ok out.
Proof.
  unfold GetJira.project_issues.
  induction 1 as [| it issues Hit _ (out & IH)]; simpl.
  - eexists; reflexivity.
  - destruct (cli_item_total Hit) as (item & Hitem & _).
    rewrite Hitem, IH. eexists; reflexivity.
Qed.

(** C7: the enriched list has one record per raw record, in the same
    order: whenever a projector returns, its output matches the input
    position by position, each output record being the enrichment of the
    input record at that place (so the two lists have the same length);
    and on well-shaped records the projectors do return. *)
Theorem projection_one_to_one (fuel : nat) (issues : list json) (base_url : string)
    (auth : string * string) (up : upstream) (w : world) :
  (forall include_worklogs w' out,
      App.project_issues fuel issues base_url auth include_worklogs up w = (Done out, w') ->
      Forall2 enriched_from issues out /\ List.length out = List.length issues) /\
  (forall out,
      GetJira.project_issues issues = Ok out ->
      Forall2 projected_from issues out /\ List.length out = List.length issues) /\
  (Forall well_shaped issues ->
   (exists out, App.project_issues fuel issues base_url auth false up w = (Done out, w)) /\
   (exists out, GetJira.project_issues issues = Ok out)).
Proof.
  repeat match goal with |- _ /\ _ => split end.
  - intros incl w' out H. apply web_projection_in_order in H.
    split; [exact H | symmetry; eapply Forall2_length; exact H].
  - intros out H. split; [| eapply rmap_length; exact H].
    apply rmap_forall2 in H. eapply Forall2_impl; [| exact H].
    intros it item Hi. split; [apply cli_item_key | ]; exact Hi.
  - intros H. split; [apply web_projection_returns | apply cli_projection_returns]; exact H.
Qed.

Ltac shape_by_evaluation :=
  constructor;
  [ eexists; split; [reflexivity |];
    first [left; reflexivity | right; eexists; reflexivity]
  | intros k v Hk; simpl in Hk;
    destruct Hk as [<- | [<- | [<- | []]]]; intros H; injection H as <-; left; reflexivity
  | intros v H; injection H as <-; left; reflexivity
  | intros raw sec hum v Hin; simpl in Hin;
    repeat (destruct Hin as [Hin | Hin]; [injection Hin as <- <- <- |]); try contradiction;
    intros H; injection H as <-; solve [left; reflexivity | right; eexists; reflexivity] ].

Lemma bare_issue_shaped : well_shaped bare_issue.
Proof. shape_by_evaluation. Qed.

Lemma null_issue_shaped : well_shaped null_issue.
Proof. shape_by_evaluation. Qed.

Lemma projection_one_to_one_witness :
  (exists out, App.project_issues 3 [bare_issue; null_issue] "https://jira.example.org"
                 ("ada", "secret") false (fun _ _ => NoReply) start = (Done out, start)) /\
  (exists out, GetJira.project_issues [bare_issue; null_issue] = Ok out).
Proof.
  apply (proj2 (proj2 (@projection_one_to_one 3 [bare_issue; null_issue]
                         "https://jira.example.org" ("ada", "secret")
                         (fun _ _ => NoReply) start))).
  apply Forall_cons; [apply bare_issue_shaped |].
  apply Forall_cons; [apply null_issue_shaped | apply Forall_nil].
Defined.

(** ** Paging *)

Lemma while_true_step {S R} (n : nat) (body : S -> io (S + R)) (s : S)
    (up : upstream) (w : world) :
  while_true (Datatypes.S n) body s up w =
  match body s up w with
  | (Done (inl s'), w') => while_true n body s' up w'
  | (Done (inr x), w') => (Done x, w')
  | (Fail e, w') => (Fail e, w')
  | (Diverge, w') => (Diverge, w')
  end.
Proof.
  cbn [while_true]. unfold bind.
  destruct (body s up w) as [[[s' | x] | e |] w']; reflexivity.
Qed.

(** One round on a list [batch], once the total in force is known to be
    the integer [t]. *)
Lemma absorb_page_list (st : page_state) (data : json) (batch : list json) (t : Z) :
  Py.get_default data "issues" (JList []) = Ok (JList batch) ->
  match total st with
  | JNull => Py.get_default data "total" (JInt (Z.of_nat (List.length batch)))
  | x => Ok x
  end = Ok (JInt t) ->
  absorb_page st data =
  Ok (if start_at st + Z.of_nat (List.length batch) >=? t
      then inr (issues st ++ batch)%list
      else inl {| issues := (issues st ++ batch)%list;
                  start_at := start_at st + Z.of_nat (List.length batch);
                  total := JInt t |}).
Proof.
  intros Hb Ht. unfold absorb_page. rewrite Hb. cbn [rbind Py.iter Py.len].
  rewrite Ht. cbn [rbind Py.int_ge].
  destruct (start_at st + Z.of_nat (List.length batch) >=? t); reflexivity.
Qed.

Lemma reported_total (data : json) (t : Z) (default : json) :
  Py.get data "total" = Ok (JInt t) -> Py.get_default data "total" default = Ok (JInt t).
Proof.
  destruct data; try discriminate. unfold Py.get, Py.get_default.
  destruct (Py.assoc "total" kvs); [trivial | discriminate].
Qed.

Lemma app_round_accepted (base_url : string) (auth : string * string) (jql fields : string)
    (max_results : Z) (st : page_state) (up : upstream) (w : world) (r : response)
    (data : json) :
  let rq := App.search_request base_url auth jql fields max_results (start_at st) in
  up (exchanges w) rq = Reply r ->
  status_code r = 200 ->
  decoded r = Some data ->
  App.search_round base_url auth jql fields max_results st up w
  = (outcome_of (absorb_page st data), record_exchange w rq (Reply r)).
Proof.
  intros rq Hup Hs Hd. unfold App.search_round, bind, requests_get.
  fold rq. rewrite Hup, Hs. cbn [Z.geb Z.compare Pos.compare Pos.compare_cont].
  unfold resp_json. rewrite Hd. unfold ret.
  destruct (absorb_page st data); reflexivity.
Qed.

Lemma cli_round_accepted (search_url : string) (auth : string * string) (jql fields : string)
    (max_results : Z) (st : page_state) (up : upstream) (w : world) (r : response)
    (data : json) :
  let rq := GetJira.search_request search_url auth jql fields max_results (start_at st) in
  up (exchanges w) rq = Reply r ->
  status_code r = 200 ->
  decoded r = Some data ->
  GetJira.search_round search_url auth jql fields max_results st up w
  = (outcome_of (absorb_page st data), record_exchange w rq (Reply r)).
Proof.
  intros rq Hup Hs Hd. unfold GetJira.search_round, bind, requests_get.
  fold rq. rewrite Hup. unfold raise_for_status. rewrite Hs. cbn.
  unfold resp_json. rewrite Hd. unfold ret.
  destruct (absorb_page st data); reflexivity.
Qed.

Section Paging.

(** The search loop of either surface: its round and the request the
    round makes at a given cursor. *)
Variable round : page_state -> io (page_state + list json).
Variable mk : Z -> request.

Hypothesis round_accepted :
  forall st up w r data,
    up (exchanges w) (mk (start_at st)) = Reply r ->
    status_code r = 200 ->
    decoded r = Some data ->
    round st up w
    = (outcome_of (absorb_page st data), record_exchange w (mk (start_at st)) (Reply r)).

Lemma round_on_page (st : page_state) (up : upstream) (w : world) (r : response)
    (batch : list json) (t : Z) :
  up (exchanges w) (mk (start_at st)) = Reply r ->
  serves_page r batch ->
  total st = JInt t \/ (total st = JNull /\ reports_total r t) ->
  round st up w =
  (Done (if start_at st + Z.of_nat (List.length batch) >=? t
         then inr (issues st ++ batch)%list
         else inl {| issues := (issues st ++ batch)%list;
                     start_at := start_at st + Z.of_nat (List.length batch);
                     total := JInt t |}),
   record_exchange w (mk (start_at st)) (Reply r)).
Proof.
  intros Hup (Hs & data & Hd & Hb) Ht.
  rewrite (round_accepted _ _ _ Hup Hs Hd).
  rewrite (@absorb_page_list st data batch t Hb); [reflexivity |].
  destruct Ht as [-> | (-> & data' & Hd' & Ht)]; [reflexivity |].
  rewrite Hd in Hd'. injection Hd' as <-. apply reported_total, Ht.
Qed.

Lemma three_rounds (up : upstream) (p0 p1 p2 : list json) (r0 r1 r2 : response)
    (fuel : nat) :
  List.length p0 = 100%nat -> List.length p1 = 100%nat -> List.length p2 = 50%nat ->
  serves_page r0 p0 -> serves_page r1 p1 -> serves_page r2 p2 ->
  reports_total r0 250 ->
  answers_from up [] [(mk 0, r0); (mk 100, r1); (mk 200, r2)] ->
  (3 <= fuel)%nat ->
  while_true fuel round first_page up start
  = (Done (p0 ++ p1 ++ p2)%list,
     after [(mk 0, Reply r0); (mk 100, Reply r1); (mk 200, Reply r2)]).
Proof.
  intros L0 L1 L2 S0 S1 S2 T0 (U0 & U1 & U2 & _) Hfuel.
  destruct fuel as [| [| [| fuel]]]; try lia.
  rewrite while_true_step.
  rewrite round_on_page with (r := r0) (batch := p0) (t := 250);
    [| exact U0 | exact S0 | right; auto].
  rewrite L0. cbn [first_page start_at issues total app].
  change (0 + Z.of_nat 100 >=? 250) with false. cbv iota.
  change (0 + Z.of_nat 100) with 100.
  rewrite while_true_step.
  rewrite round_on_page with (r := r1) (batch := p1) (t := 250);
    [| exact U1 | exact S1 | left; reflexivity].
  rewrite L1. cbn [start_at issues total].
  change (100 + Z.of_nat 100 >=? 250) with false. cbv iota.
  change (100 + Z.of_nat 100) with 200.
  rewrite while_true_step.
  rewrite round_on_page with (r := r2) (batch := p2) (t := 250);
    [| exact U2 | exact S2 | left; reflexivity].
  rewrite L2. cbn [start_at issues total].
  change (200 + Z.of_nat 50 >=? 250) with true. cbv iota.
  rewrite <- app_assoc. reflexivity.
Qed.

(** An empty batch below the total changes nothing but the total in
    force: the loop goes round again from the same cursor. *)
Lemma stalled_round (st : page_state) (up : upstream) (w : world) (r : response)
    (t : Z) (n : nat) :
  up (exchanges w) (mk (start_at st)) = Reply r ->
  serves_page r [] ->
  total st = JInt t \/ (total st = JNull /\ reports_total r t) ->
  start_at st < t ->
  while_true (S n) round st up w
  = while_true n round
      {| issues := issues st; start_at := start_at st; total := JInt t |}
      up (record_exchange w (mk (start_at st)) (Reply r)).
Proof.
  intros Hup Hs Ht Hlt.
  rewrite while_true_step.
  rewrite round_on_page with (r := r) (batch := []) (t := t); try assumption.
  cbn [List.length Z.of_nat]. rewrite Z.add_0_r, app_nil_r.
  destruct (Z.geb_spec (start_at st) t); [lia | reflexivity].
Qed.

Lemma stalled_forever (up : upstream) (r : response) (t : Z) :
  (forall past rq, up past rq = Reply r) ->
  serves_page r [] -> reports_total r t -> 0 < t ->
  forall fuel st w,
    start_at st = 0 ->
    total st = JInt t \/ total st = JNull ->
    while_true fuel round st up w
    = (Diverge,
       {| exchanges := (exchanges w ++ repeat (mk 0, Reply r) fuel)%list;
          stderr := stderr w; stdout := stdout w; terminal := terminal w;
        files := files w |}).
Proof.
  intros Hup Hs Ht Hpos.
  induction fuel as [| n IH]; intros st w H0 Htot.
  - cbn [while_true repeat]. rewrite app_nil_r. destruct w; reflexivity.
  - rewrite stalled_round with (r := r) (t := t);
      [| apply Hup | exact Hs | destruct Htot; auto | lia].
    rewrite IH; [| exact H0 | left; reflexivity].
    rewrite H0. cbn [record_exchange exchanges stderr stdout files repeat].
    rewrite <- app_assoc. reflexivity.
Qed.

Lemma state_in_force (st : page_state) (t : Z) :
  total st = JInt t ->
  {| issues := issues st; start_at := start_at st; total := JInt t |} = st.
Proof. destruct st; cbn; intros ->; reflexivity. Qed.

Lemma and_then_nil (w : world) : and_then w [] = w.
Proof. destruct w; unfold and_then; cbn. now rewrite app_nil_r. Qed.

Lemma and_then_cons (w : world) (rq : request) (rp : reply) (more : list (request * reply)) :
  and_then (record_exchange w rq rp) more = and_then w ((rq, rp) :: more).
Proof. unfold and_then, record_exchange; cbn. now rewrite <- app_assoc. Qed.

Lemma dries_up_next (up : upstream) (w : world) (rq : request) (rp : reply) :
  dries_up up (exchanges w) -> dries_up up (exchanges (record_exchange w rq rp)).
Proof.
  intros H more rq'. cbn [record_exchange exchanges]. rewrite <- app_assoc. apply H.
Qed.

(** Once the server has dried up below a total in force, the loop never
    leaves: it repeats the request of its cursor. *)
Lemma dry_forever (up : upstream) (ask : Z -> request -> Prop) (t : Z) :
  (forall sa, ask sa (mk sa)) ->
  forall fuel st w,
    total st = JInt t -> start_at st < t -> dries_up up (exchanges w) ->
    exists w',
      while_true fuel round st up w = (Diverge, w') /\
      stalls (fun rq => rq = mk (start_at st) /\ ask (start_at st) rq) fuel w w'.
Proof.
  intros Hask. induction fuel as [| n IH]; intros st w Ht Hlt Hdry.
  - exists w. split; [reflexivity |]. exists []. rewrite and_then_nil. auto.
  - destruct (Hdry [] (mk (start_at st))) as (r & Hup & Hs). rewrite app_nil_r in Hup.
    rewrite stalled_round with (r := r) (t := t); auto.
    rewrite (@state_in_force st t Ht).
    destruct (IH st (record_exchange w (mk (start_at st)) (Reply r)) Ht Hlt
                (@dries_up_next up _ _ _ Hdry)) as (w' & Hrun & more & -> & Hlen & Hall).
    eexists. split; [exact Hrun |].
    exists ((mk (start_at st), Reply r) :: more).
    split; [apply and_then_cons |]. split; [cbn; now rewrite Hlen |].
    constructor; [| exact Hall]. cbn; eauto.
Qed.

Lemma round_again (up : upstream) (ask : Z -> request -> Prop) :
  (forall sa, ask sa (mk sa)) -> goes_round_again round mk ask up.
Proof.
  intros Hask. split; [| split].
  - intros st w n t r Ht Hlt Hs Hup.
    rewrite stalled_round with (r := r) (t := t); auto.
    now rewrite (@state_in_force st t Ht).
  - intros w n t r Hs Ht Hpos Hup.
    apply (@stalled_round first_page up w r t n); auto.
  - intros st w t fuel Ht Hlt Hdry. eapply dry_forever; eassumption.
Qed.

(** A server whose first answer is empty under a positive total and
    which sends empty batches ever after keeps the fetcher going for
    ever, at the cursor 0. *)
Lemma dry_from_start (up : upstream) (ask : Z -> request -> Prop) (t : Z) (fuel : nat) :
  (forall sa, ask sa (mk sa)) ->
  0 < t -> dries_up up [] ->
  (forall rq r, up [] rq = Reply r -> reports_total r t) ->
  exists w',
    while_true fuel round first_page up start = (Diverge, w') /\
    stalls (fun rq => rq = mk 0 /\ ask 0 rq) fuel start w'.
Proof.
  intros Hask Hpos Hdry Hfirst.
  destruct fuel as [| n].
  - exists start. split; [reflexivity |]. exists []. auto.
  - destruct (Hdry [] (mk 0)) as (r & Hup & Hs). cbn [app] in Hup.
    rewrite (@stalled_round first_page up start r t n); auto;
      [| right; split; [reflexivity | eapply Hfirst; exact Hup]].
    destruct (@dry_forever up ask t Hask n
                {| issues := []; start_at := 0; total := JInt t |}
                (record_exchange start (mk 0) (Reply r)) eq_refl Hpos
                (@dries_up_next up start _ _ Hdry)) as (w' & Hrun & more & -> & Hlen & Hall).
    eexists. split; [exact Hrun |].
    exists ((mk 0, Reply r) :: more).
    split; [apply and_then_cons |]. split; [cbn; now rewrite Hlen |].
    constructor; [| exact Hall]. cbn; eauto.
Qed.

End Paging.

(** C1: when the server reports a total of 250 and serves pages of 100
    records, the fetcher of either surface makes exactly three requests,
    which ask the search endpoint for the pages of at most 100 records
    that start at the records number 0, 100 and 200 (startAt), and it
    returns the 250 records in the order the pages brought them; only
    the first response has to report the total, whatever the later ones
    say. *)
Theorem three_pages_of_250 (base_url search_url jql fields : string)
    (auth : string * string) (p0 p1 p2 : list json) (r0 r1 r2 : response) (fuel : nat) :
  List.length p0 = 100%nat -> List.length p1 = 100%nat -> List.length p2 = 50%nat ->
  serves_page r0 p0 -> serves_page r1 p1 -> serves_page r2 p2 ->
  reports_total r0 250 ->
  (3 <= fuel)%nat ->
  (forall up,
      let rq := App.search_request base_url auth jql fields 100 in
      answers_from up [] [(rq 0, r0); (rq 100, r1); (rq 200, r2)] ->
      App.fetch_all_issues fuel base_url auth jql fields 100 up start
      = (Done (p0 ++ p1 ++ p2)%list,
         after [(rq 0, Reply r0); (rq 100, Reply r1); (rq 200, Reply r2)]) /\
      Forall2 (asks_page (search_endpoint base_url) jql fields 100)
        [0; 100; 200] [rq 0; rq 100; rq 200]) /\
  (forall up,
      let rq := GetJira.search_request search_url auth jql fields 100 in
      answers_from up [] [(rq 0, r0); (rq 100, r1); (rq 200, r2)] ->
      GetJira.fetch_all_issues fuel search_url auth jql fields 100 up start
      = (Done (p0 ++ p1 ++ p2)%list,
         after [(rq 0, Reply r0); (rq 100, Reply r1); (rq 200, Reply r2)]) /\
      Forall2 (asks_page search_url jql fields 100) [0; 100; 200] [rq 0; rq 100; rq 200]).
Proof.
  intros L0 L1 L2 S0 S1 S2 T0 Hfuel. split; intros up rq Hup; split.
  - unfold App.fetch_all_issues.
    apply three_rounds with (mk := rq); try assumption.
    intros st up' w r data. apply app_round_accepted.
  - repeat constructor; apply web_request_asks.
  - unfold GetJira.fetch_all_issues.
    apply three_rounds with (mk := rq); try assumption.
    intros st up' w r data. apply cli_round_accepted.
  - repeat constructor; apply cli_request_asks.
Qed.

Lemma three_pages_of_250_witness :
  let rq := App.search_request "https://jira.example.org/" ("ada", "secret")
              (App.jql "ARAPS" false) App.fields 100 in
  App.fetch_all_issues 5 "https://jira.example.org/" ("ada", "secret")
    (App.jql "ARAPS" false) App.fields 100 paged start
  = (Done records,
     after [(rq 0, Reply (page 0)); (rq 100, Reply (page 1)); (rq 200, Reply (page 2))]) /\
  Forall2 (asks_page (search_endpoint "https://jira.example.org/") (App.jql "ARAPS" false)
             App.fields 100)
    [0; 100; 200] [rq 0; rq 100; rq 200].
Proof.
  intros rq.
  refine (proj1 (@three_pages_of_250 "https://jira.example.org/" EmptyString
                   (App.jql "ARAPS" false) App.fields ("ada", "secret")
                   (firstn 100 records) (firstn 100 (skipn 100 records))
                   (skipn 200 records) (page 0) (page 1) (page 2) 5
                   _ _ _ _ _ _ _ _) paged _);
    try reflexivity;
    try (split; [reflexivity | eexists; split; reflexivity]);
    try (eexists; split; reflexivity);
    try lia.
Defined.

(** C2 fails as stated: against a server that answers every request
    with an empty batch under a total of 1, the fetcher never returns. *)
Lemma empty_batch_never_returns :
  ~ terminates
      (fun fuel => App.fetch_all_issues fuel "https://jira.example.org" ("ada", "secret")
                     (App.jql "ARAPS" false) App.fields 100)
      stalled.
Proof.
  intros (fuel & H). apply H. unfold App.fetch_all_issues.
  assert (Hs : serves_page empty_page [])
    by (split; [reflexivity | eexists; split; reflexivity]).
  assert (Ht : reports_total empty_page 1) by (eexists; split; reflexivity).
  rewrite (@stalled_forever _ _
             (fun st up w r data =>
                @app_round_accepted "https://jira.example.org" ("ada", "secret")
                  (App.jql "ARAPS" false) App.fields 100 st up w r data)
             stalled empty_page 1 (fun _ _ => eq_refl) Hs Ht eq_refl
             fuel first_page start eq_refl (or_intror eq_refl)).
  reflexivity.
Qed.

(** C2, amended: an empty batch received while the cursor is below the
    total in force is not taken for the end, whatever that page says of
    the total.  On either surface the loop goes round again with the
    same cursor and the same records, so it makes the same request; and
    once the server answers every request that way the fetcher never
    terminates: after n rounds it has made n requests, all for the same
    startAt, which is 0 when the server has been that way from the
    start. *)
Theorem empty_batch_goes_round_again (base_url search_url jql fields : string)
    (auth : string * string) (max_results : Z) (up : upstream) :
  let web := App.search_request base_url auth jql fields max_results in
  let cli := GetJira.search_request search_url auth jql fields max_results in
  let web_asks := asks_page (search_endpoint base_url) jql fields max_results in
  let cli_asks := asks_page search_url jql fields max_results in
  goes_round_again (App.search_round base_url auth jql fields max_results) web web_asks up /\
  goes_round_again (GetJira.search_round search_url auth jql fields max_results)
    cli cli_asks up /\
  (forall t fuel,
      0 < t ->
      dries_up up [] ->
      (forall rq r, up [] rq = Reply r -> reports_total r t) ->
      (exists w',
          App.fetch_all_issues fuel base_url auth jql fields max_results up start
          = (Diverge, w') /\
          stalls (fun rq => rq = web 0 /\ web_asks 0 rq) fuel start w') /\
      (exists w',
          GetJira.fetch_all_issues fuel search_url auth jql fields max_results up start
          = (Diverge, w') /\
          stalls (fun rq => rq = cli 0 /\ cli_asks 0 rq) fuel start w')).
Proof.
  intros web cli web_asks cli_asks.
  assert (Hweb : forall st up w r data,
             up (exchanges w) (web (start_at st)) = Reply r ->
             status_code r = 200 -> decoded r = Some data ->
             App.search_round base_url auth jql fields max_results st up w
             = (outcome_of (absorb_page st data),
                record_exchange w (web (start_at st)) (Reply r)))
    by (intros; apply app_round_accepted; assumption).
  assert (Hcli : forall st up w r data,
             up (exchanges w) (cli (start_at st)) = Reply r ->
             status_code r = 200 -> decoded r = Some data ->
             GetJira.search_round search_url auth jql fields max_results st up w
             = (outcome_of (absorb_page st data),
                record_exchange w (cli (start_at st)) (Reply r)))
    by (intros; apply cli_round_accepted; assumption).
  assert (Aweb : forall sa, web_asks sa (web sa)) by (intros; apply web_request_asks).
  assert (Acli : forall sa, cli_asks sa (cli sa)) by (intros; apply cli_request_asks).
  split; [apply (@round_again _ _ Hweb up web_asks Aweb) |].
  split; [apply (@round_again _ _ Hcli up cli_asks Acli) |].
  intros t fuel Hpos Hdry Hfirst. split.
  - apply (@dry_from_start _ _ Hweb up web_asks t fuel Aweb Hpos Hdry Hfirst).
  - apply (@dry_from_start _ _ Hcli up cli_asks t fuel Acli Hpos Hdry Hfirst).
Qed.

Lemma empty_batch_goes_round_again_witness :
  let web := App.search_request "https://jira.example.org" ("ada", "secret")
               (App.jql "ARAPS" false) App.fields 100 in
  let web_asks := asks_page (search_endpoint "https://jira.example.org")
                    (App.jql "ARAPS" false) App.fields 100 in
  let st := {| issues := [bare_issue]; start_at := 1; total := JInt 5 |} in
  let w := record_exchange start (web 0) (Reply one_of_five) in
  exists w',
    while_true 4 (App.search_round "https://jira.example.org" ("ada", "secret")
                    (App.jql "ARAPS" false) App.fields 100) st one_then_nothing w
    = (Diverge, w') /\
    stalls (fun rq => rq = web 1 /\ web_asks 1 rq) 4 w w'.
Proof.
  intros web web_asks st w.
  refine (proj2 (proj2 (proj1 (@empty_batch_goes_round_again
                                 "https://jira.example.org" EmptyString
                                 (App.jql "ARAPS" false) App.fields ("ada", "secret")
                                 100 one_then_nothing))) st w 5 4%nat _ _ _).
  - reflexivity.
  - simpl; lia.
  - intros more rq. exists empty_page_without_total. split.
    + reflexivity.
    + split; [reflexivity | eexists; split; reflexivity].
Defined.

(** ** Error responses *)

Section Abort.

Variable is_error : response -> bool.
Variable carried : response -> exn -> Prop.

Local Abbreviation clean := (clean is_error).
Local Abbreviation guarded := (guarded is_error carried).
Local Abbreviation aborted_at_last := (aborted_at_last is_error carried).

Lemma clean_snoc (exs : list (request * reply)) (rq : request) (rp : reply) :
  clean exs ->
  (forall r, rp = Reply r -> is_error r = false) ->
  clean (exs ++ [(rq, rp)]).
Proof.
  intros Hc Hr rq' r' Hin. apply in_app_iff in Hin as [Hin | [Hin | []]].
  - eapply Hc; exact Hin.
  - injection Hin as _ Hin. apply Hr. exact Hin.
Qed.

Lemma aborted_fails {A B} (o : outcome A) (exs : list (request * reply)) :
  aborted_at_last o exs -> exists e, o = Fail e /\ aborted_at_last (@Fail B e) exs.
Proof.
  intros (past & rq & r & e & H1 & H2 & H3 & -> & H5).
  exists e. split; [reflexivity |]. exists past, rq, r, e. auto.
Qed.

Lemma guarded_ret {A} (a : A) : guarded (ret a).
Proof. intros up w o w' Hc H. inversion H; subst. left; exact Hc. Qed.



Lemma guarded_bind {A B} (m : io A) (f : A -> io B) :
  guarded m -> (forall a, guarded (f a)) -> guarded (bind m f).
Proof.
  intros Hm Hf up w o w' Hc H. unfold bind in H.
  destruct (m up w) as [o1 w1] eqn:E.
  destruct (Hm up w o1 w1 Hc E) as [Hc1 | Hab].
  - destruct o1 as [a | e |].
    + eapply Hf; eassumption.
    + inversion H; subst. left; exact Hc1.
    + inversion H; subst. left; exact Hc1.
  - apply (@aborted_fails A B) in Hab as (e & -> & Hab).
    inversion H; subst. right; exact Hab.
Qed.

Lemma guarded_while {S R} (body : S -> io (S + R)) :
  (forall s, guarded (body s)) -> forall fuel s, guarded (while_true fuel body s).
Proof.
  intros Hb. induction fuel as [| n IH]; intros s.
  - intros up w o w' Hc H. inversion H; subst. left; exact Hc.
  - cbn [while_true]. apply guarded_bind; [apply Hb |].
    intros [s' | x]; [apply IH | apply guarded_ret].
Qed.



(** From a clean start, an error response in the trace is the last
    exchange, and the run failed on it. *)
Lemma error_is_last {A} (m : io A) (up : upstream) (w : world) (o : outcome A)
    (w' : world) (rq : request) (r : response) :
  guarded m ->
  clean (exchanges w) ->
  m up w = (o, w') ->
  In (rq, Reply r) (exchanges w') ->
  is_error r = true ->
  exists past e,
    exchanges w' = (past ++ [(rq, Reply r)])%list /\
    clean past /\
    o = Fail e /\
    carried r e.
Proof.
  intros Hg Hc H Hin Herr.
  destruct (Hg up w o w' Hc H) as [Hc' | (past & rq' & r' & e & Hex & Hp & _ & -> & Hcar)].
  - rewrite (Hc' rq r Hin) in Herr. discriminate.
  - rewrite Hex in Hin. apply in_app_iff in Hin as [Hin | [Hin | []]].
    + rewrite (Hp rq r Hin) in Herr. discriminate.
    + injection Hin as <- <-. exists past, e. auto.
Qed.

End Abort.

(** What [abort] raises. *)
Lemma described_registered (code : Z) :
  In code (405 :: 416 :: described) <-> existsb (Z.eqb code) default_exceptions = true.
Proof.
  rewrite existsb_exists. split.
  - intros H. exists code. split; [| apply Z.eqb_refl].
    simpl in H. simpl. tauto.
  - intros (x & Hin & Hx). apply Z.eqb_eq in Hx. subst x.
    simpl in Hin. simpl. tauto.
Qed.

Lemma abort_raises {A} (code : Z) (text : string) :
  exists e, @abort A code text = raise e /\ web_raised code text e.
Proof.
  unfold abort, web_raised.
  destruct (existsb (Z.eqb code) default_exceptions) eqn:E; cbn [negb].
  - apply described_registered in E.
    destruct (Z.eqb_spec code 405) as [-> | H405];
      [| destruct (Z.eqb_spec code 416) as [-> | H416]];
      eexists; (split; [reflexivity |]); repeat split; intros H;
      try reflexivity; try contradiction; try discriminate;
      try (simpl in H; exfalso; intuition discriminate).
  - eexists. split; [reflexivity |]. repeat split; intros H; try reflexivity;
      exfalso; apply Bool.not_true_iff_false in E; apply E, described_registered.
    + right; right; exact H.
    + left; auto.
    + right; left; auto.
Qed.


Lemma web_worklog_round_guarded (base_url : string) (auth : string * string)
    (issue_key : json) (max_results : Z) (st : list json * Z) :
  guarded web_error (names_issue issue_key)
    (App.worklog_round base_url auth issue_key max_results st).
Proof.
  intros up w o w' Hc H. unfold App.worklog_round, bind, requests_get in H.
  destruct (up (exchanges w) _) as [r |] eqn:E.
  - destruct (status_code r >=? 400) eqn:Hs.
    + destruct (@abort_raises (list json * Z + list json) (status_code r)
                  ("[" ++ Py.str issue_key ++ "] worklog error: " ++ text r))
        as (e & He & Hraised).
      rewrite He in H. inversion H; subst. right.
      exists (exchanges w),
        (App.worklog_request base_url auth issue_key max_results (snd st)), r, e.
      split; [reflexivity |]. split; [exact Hc |]. split; [exact Hs |].
      split; [reflexivity | exact Hraised].
    + left.
      assert (Hw : exchanges w' = exchanges (record_exchange w
                     (App.worklog_request base_url auth issue_key max_results (snd st))
                     (Reply r))).
      { unfold resp_json in H. destruct (decoded r); [| inversion H; reflexivity].
        unfold ret in H. destruct (App.absorb_worklogs st j); inversion H; reflexivity. }
      rewrite Hw. apply clean_snoc; [exact Hc |]. intros r' Hr. injection Hr as <-. exact Hs.
  - inversion H; subst. left. apply clean_snoc; [exact Hc |]. intros r' Hr. discriminate.
Qed.






(** The two prompts of [main]: what they return and what they write. *)
Lemma login_prompt (x : option string) (prompt typed : string) (up : upstream) (w : world) :
  GetJira.or_prompt x (input prompt typed) up w
  = (Done (GetJira.or_typed x typed),
     {| exchanges := exchanges w; stderr := stderr w;
        stdout := (stdout w ++ prompted x [prompt])%list;
        terminal := terminal w; files := files w |}).
Proof.
  destruct w. destruct x as [v |]; cbn; [destruct (String.eqb v EmptyString) |];
    cbn; rewrite ?app_nil_r; reflexivity.
Qed.

Lemma password_prompt (x : option string) (prompt typed : string) (up : upstream)
    (w : world) :
  GetJira.or_prompt x (getpass prompt typed) up w
  = (Done (GetJira.or_typed x typed),
     {| exchanges := exchanges w; stderr := stderr w; stdout := stdout w;
        terminal := (terminal w ++ prompted x [prompt; Py.newline])%list;
        files := files w |}).
Proof.
  destruct w. destruct x as [v |]; cbn; [destruct (String.eqb v EmptyString) |];
    cbn; rewrite ?app_nil_r; reflexivity.
Qed.

(** [main] after its prompts: the rest runs with the credentials given
    or typed, from a world that differs by the prompt texts only. *)
Lemma main_after_prompts (fuel : nat) (a : GetJira.args) (typed_login typed_password : string)
    (up : upstream) (w : world) :
  let username := GetJira.or_typed (GetJira.username a) typed_login in
  let password := GetJira.or_typed (GetJira.password a) typed_password in
  GetJira.main fuel a typed_login typed_password up w
  = (issues <- GetJira.fetch_all_issues fuel (GetJira.build_search_url (GetJira.base_url a))
                 (username, password)
                 (GetJira.jql (GetJira.project a) (GetJira.use_updated a)) GetJira.fields 100 ;;
     projected <- lift (GetJira.project_issues issues) ;;
     _ <- write_file (GetJira.output a) (JList projected) ;;
     print (summary_line (List.length projected) (GetJira.output a)))%io
    up
    {| exchanges := exchanges w; stderr := stderr w;
       stdout := (stdout w ++ prompted (GetJira.username a) ["Login Jira: "])%list;
       terminal := (terminal w
                    ++ prompted (GetJira.password a)
                         ["Mot de passe Jira (masqué): "; Py.newline])%list;
       files := files w |}.
Proof.
  intros username password. unfold GetJira.main.
  unfold bind at 1. rewrite login_prompt.
  unfold bind at 1. rewrite password_prompt. reflexivity.
Qed.









(** ** Sample evaluations *)

Example humanise_90000 : format_seconds_human (JInt 90000) = Ok (JStr "1 day, 1 hour").
Proof. reflexivity. Qed.

Example humanise_neg : format_seconds_human (JInt (-1)) = Ok (JStr "-1 day, 23 hours, 59 minutes").
Proof. reflexivity. Qed.

Example humanise_str : format_seconds_human (JStr " 7_200 ") = Ok (JStr "2 hours").
Proof. reflexivity. Qed.

Example repr_nested :
  Py.str (JObj [("a", JList [JInt 1; JNull]); ("b", JStr "x"); ("a", JBool true)])
  = "{'a': [1, None], 'b': 'x'}".
Proof. reflexivity. Qed.

Example urlencode_jql :
  Py.urlencode [("jql", "project = A AND updated >= startOfMonth(-1)"); ("startAt", "0")]
  = "jql=project+%3D+A+AND+updated+%3E%3D+startOfMonth%28-1%29&startAt=0".
Proof. reflexivity. Qed.

Example query_read_back :
  query_pairs "jql=project+%3D+A+AND+updated+%3E%3D+startOfMonth%28-1%29&startAt=0"
  = [("jql", "project = A AND updated >= startOfMonth(-1)"); ("startAt", "0")].
Proof. reflexivity. Qed.

Example abort_403 : @abort unit 403 "Forbidden" = raise (Abort 403 "Forbidden").
Proof. reflexivity. Qed.

Example abort_405 : @abort unit 405 "GET" = raise (MethodNotAllowed "GET").
Proof. reflexivity. Qed.

Example abort_402 :
  @abort unit 402 "Payment Required" = raise (LookupError "no exception for 402").
Proof. reflexivity. Qed.

Example export_on_402 :
  fst (App.export 2 sample_form (fun _ _ => Reply payment_required) start)
  = Fail (LookupError "no exception for 402").
Proof. reflexivity. Qed.

Example one_record_then_nothing :
  fst (App.fetch_all_issues 6 "https://jira.example.org" ("ada", "secret")
         (App.jql "ARAPS" false) App.fields 100 one_then_nothing start)
  = Diverge.
Proof. reflexivity. Qed.

Example prompts_of_main :
  stdout (snd (GetJira.main 4 typing_args "ada" "secret" paged start))
  = ["Login Jira: "; summary_line 250 "out.json"] /\
  terminal (snd (GetJira.main 4 typing_args "ada" "secret" paged start))
  = ["Mot de passe Jira (masqué): "; Py.newline].
Proof. split; vm_compute; reflexivity. Qed.


(** * Further properties of the code *)

(** ** Durations within one minute *)

Lemma humanise_by_minutes (s : Z) :
  format_seconds_human (JInt s)
  = Ok (JStr (humanized ((s / 60) / 1440) (((s / 60) mod 1440) / 60)
                (((s / 60) mod 1440) mod 60))).
Proof.
  apply humanise_decomposed with (r := s mod 60).
  - pose proof (Z.div_mod s 60). pose proof (Z.div_mod (s / 60) 1440).
    pose proof (Z.div_mod ((s / 60) mod 1440) 60).
    lia.
  - pose proof (Z.mod_pos_bound (s / 60) 1440).
    split; [apply Z.div_pos; lia | apply Z.div_lt_upper_bound; lia].
  - apply Z.mod_pos_bound; lia.
  - apply Z.mod_pos_bound; lia.
Qed.

(** Two counts of seconds that fall in the same minute (floor division
    by 60, negative counts included) get the same text. *)
Theorem same_minute_same_text (s s' : Z) :
  s / 60 = s' / 60 ->
  format_seconds_human (JInt s) = format_seconds_human (JInt s').
Proof.
  intros H. rewrite !humanise_by_minutes, H. reflexivity.
Qed.

Lemma same_minute_same_text_witness :
  format_seconds_human (JInt 3600) = format_seconds_human (JInt 3659).
Proof. apply (@same_minute_same_text 3600 3659). reflexivity. Defined.

(** ** Trailing slashes of the base URL *)

Lemma rstrip_slash_snoc (s : string) : Py.rstrip_slash (s ++ "/") = Py.rstrip_slash s.
Proof.
  induction s as [| c s IH]; [reflexivity |].
  cbn [append Py.rstrip_slash]. rewrite IH. reflexivity.
Qed.

Lemma rstrip_slash_slashes (s : string) (n : nat) :
  Py.rstrip_slash (s ++ slashes n) = Py.rstrip_slash s.
Proof.
  revert s; induction n as [| n IH]; intros s; cbn [slashes].
  - f_equal. induction s as [| c s IHs]; [reflexivity | cbn; now rewrite IHs].
  - change (String "/" (slashes n)) with ("/" ++ slashes n).
    rewrite <- append_assoc, IH. apply rstrip_slash_snoc.
Qed.

Lemma rstrip_slash_no_trailing (s t : string) : Py.rstrip_slash s <> t ++ "/".
Proof.
  revert t; induction s as [| c s IH]; intros t; cbn [Py.rstrip_slash].
  - destruct t; discriminate.
  - destruct (Py.rstrip_slash s) as [| c' u] eqn:E.
    + destruct (Ascii.eqb_spec c "/") as [-> | Hc].
      * destruct t; discriminate.
      * destruct t as [| a [| b t]]; cbn; try discriminate.
        intros H. injection H as H. contradiction.
    + destruct t as [| a t]; cbn; [discriminate |].
      intros H. injection H as _ H. exact (IH t H).
Qed.

(** Any number of slashes at the end of the base URL is dropped: the
    search and work-log requests of both surfaces are those of the bare
    base URL, and the prefix the paths are appended to never ends with a
    slash. *)
Theorem trailing_slashes_ignored (base : string) (n : nat) :
  (forall auth jql fields max_results start_at,
      App.search_request (base ++ slashes n) auth jql fields max_results start_at
      = App.search_request base auth jql fields max_results start_at) /\
  (forall auth issue_key max_results sa,
      App.worklog_request (base ++ slashes n) auth issue_key max_results sa
      = App.worklog_request base auth issue_key max_results sa) /\
  GetJira.build_search_url (base ++ slashes n) = GetJira.build_search_url base /\
  (forall t, Py.rstrip_slash base <> t ++ "/").
Proof.
  unfold App.search_request, App.worklog_request, GetJira.build_search_url.
  rewrite rstrip_slash_slashes.
  repeat split. intros t. apply rstrip_slash_no_trailing.
Qed.

(** ** Blank form fields *)

Lemma lstrip_only_spaces (s : string) : only_spaces s = true -> Py.lstrip s = EmptyString.
Proof.
  induction s as [| c s IH]; cbn; [reflexivity |].
  destruct (Py.is_space c); [exact IH | discriminate].
Qed.

(** A baseUrl, projectKey or username made of white space only counts
    as missing: the export aborts with 400 before any request. *)
Theorem blank_field_rejected (fuel : nat) (form : list (string * string))
    (up : upstream) (w : world) (k : string) :
  In k ["baseUrl"; "projectKey"; "username"] ->
  only_spaces (App.form_get form k EmptyString) = true ->
  App.export fuel form up w = (Fail (Abort 400 "Parametres manquants"), w).
Proof.
  intros Hk Hb.
  assert (Hs : Py.strip (App.form_get form k EmptyString) = EmptyString)
    by (unfold Py.strip; rewrite (lstrip_only_spaces _ Hb); reflexivity).
  unfold App.export. simpl in Hk.
  destruct Hk as [<- | [<- | [<- | []]]]; rewrite Hs;
    cbn [forallb String.eqb negb andb];
    repeat match goal with
           | |- context [negb (String.eqb ?x EmptyString)] =>
               destruct (negb (String.eqb x EmptyString))
           end; reflexivity.
Qed.

Lemma blank_field_rejected_witness :
  App.export 5 [("baseUrl", "https://jira.example.org"); ("projectKey", "   ");
                ("username", "ada"); ("password", "secret")]
    (fun _ _ => NoReply) start
  = (Fail (Abort 400 "Parametres manquants"), start).
Proof.
  apply (@blank_field_rejected 5 _ (fun _ _ => NoReply) start "projectKey").
  - simpl; tauto.
  - reflexivity.
Defined.

(** ** The requests an export sends *)

Section Requests.

Variable P : request -> Prop.

Lemma extends_refl (w : world) : extends_with P w w.
Proof. exists []. split; [now rewrite app_nil_r | constructor]. Qed.

Lemma extends_trans (w1 w2 w3 : world) :
  extends_with P w1 w2 -> extends_with P w2 w3 -> extends_with P w1 w3.
Proof.
  intros (m1 & E1 & F1) (m2 & E2 & F2). exists (m1 ++ m2)%list. split.
  - rewrite E2, E1, app_assoc. reflexivity.
  - apply Forall_app; auto.
Qed.

Lemma sends_only_quiet {A} (m : io A) :
  (forall up w o w', m up w = (o, w') -> exchanges w' = exchanges w) -> sends_only P m.
Proof.
  intros Hq up w o w' H. exists []. split; [| constructor].
  rewrite (Hq up w o w' H), app_nil_r. reflexivity.
Qed.

Lemma sends_only_ret {A} (a : A) : sends_only P (ret a).
Proof. apply sends_only_quiet. intros up w o w' H; inversion H; reflexivity. Qed.

Lemma sends_only_raise {A} (e : exn) : sends_only P (@raise A e).
Proof. apply sends_only_quiet. intros up w o w' H; inversion H; reflexivity. Qed.

Lemma sends_only_lift {A} (r : result A) : sends_only P (lift r).
Proof. destruct r; [apply sends_only_ret | apply sends_only_raise]. Qed.

Lemma sends_only_abort {A} (code : Z) (text : string) : sends_only P (@abort A code text).
Proof. destruct (@abort_raises A code text) as (e & -> & _). apply sends_only_raise. Qed.

Lemma sends_only_get (rq : request) : P rq -> sends_only P (requests_get rq).
Proof.
  intros Hrq up w o w' H. exists [(rq, up (exchanges w) rq)].
  split; [| repeat constructor; exact Hrq].
  unfold requests_get in H. destruct (up (exchanges w) rq); inversion H; reflexivity.
Qed.

Lemma sends_only_bind {A B} (m : io A) (f : A -> io B) :
  sends_only P m -> (forall a, sends_only P (f a)) -> sends_only P (bind m f).
Proof.
  intros Hm Hf up w o w' H. unfold bind in H.
  destruct (m up w) as [[a | e |] w1] eqn:E.
  - eapply extends_trans; [eapply Hm; exact E | eapply Hf; exact H].
  - inversion H; subst. eapply Hm; exact E.
  - inversion H; subst. eapply Hm; exact E.
Qed.

Lemma sends_only_while {S R} (body : S -> io (S + R)) :
  (forall s, sends_only P (body s)) -> forall fuel s, sends_only P (while_true fuel body s).
Proof.
  intros Hb. induction fuel as [| n IH]; intros s.
  - intros up w o w' H. inversion H; subst. apply extends_refl.
  - cbn [while_true]. apply sends_only_bind; [apply Hb |].
    intros [s' | x]; [apply IH | apply sends_only_ret].
Qed.

Lemma sends_only_for_each {A B} (f : A -> io B) (l : list A) :
  (forall a, sends_only P (f a)) -> sends_only P (for_each f l).
Proof.
  intros Hf. induction l as [| a l IH]; cbn [for_each].
  - apply sends_only_ret.
  - apply sends_only_bind; [apply Hf |]. intros b.
    apply sends_only_bind; [exact IH |]. intros bs. apply sends_only_ret.
Qed.

End Requests.

Lemma web_search_round_sends (P : request -> Prop) (base_url : string)
    (auth : string * string) (jql fields : string) (max_results : Z) (st : page_state) :
  P (App.search_request base_url auth jql fields max_results (start_at st)) ->
  sends_only P (App.search_round base_url auth jql fields max_results st).
Proof.
  intros HP. unfold App.search_round.
  apply sends_only_bind; [apply sends_only_get, HP |]. intros resp.
  destruct (status_code resp >=? 400); [apply sends_only_abort |].
  apply sends_only_bind; [| intros; apply sends_only_lift].
  unfold resp_json. destruct (decoded resp); [apply sends_only_ret | apply sends_only_raise].
Qed.

Lemma web_worklog_round_sends (P : request -> Prop) (base_url : string)
    (auth : string * string) (issue_key : json) (max_results : Z) (st : list json * Z) :
  P (App.worklog_request base_url auth issue_key max_results (snd st)) ->
  sends_only P (App.worklog_round base_url auth issue_key max_results st).
Proof.
  intros HP. unfold App.worklog_round.
  apply sends_only_bind; [apply sends_only_get, HP |]. intros resp.
  destruct (status_code resp >=? 400); [apply sends_only_abort |].
  apply sends_only_bind; [| intros; apply sends_only_lift].
  unfold resp_json. destruct (decoded resp); [apply sends_only_ret | apply sends_only_raise].
Qed.

Lemma cli_search_round_sends (P : request -> Prop) (search_url : string)
    (auth : string * string) (jql fields : string) (max_results : Z) (st : page_state) :
  P (GetJira.search_request search_url auth jql fields max_results (start_at st)) ->
  sends_only P (GetJira.search_round search_url auth jql fields max_results st).
Proof.
  intros HP. unfold GetJira.search_round.
  apply sends_only_bind; [apply sends_only_get, HP |]. intros resp.
  destruct (raise_for_status resp).
  - apply sends_only_bind; [| intros; apply sends_only_lift].
    unfold resp_json. destruct (decoded resp); [apply sends_only_ret | apply sends_only_raise].
  - apply sends_only_bind; [| intros; apply sends_only_raise].
    apply sends_only_quiet. intros up w o w' H. inversion H; reflexivity.
Qed.

Ltac url_under_api :=
  unfold App.search_request, App.worklog_request, GetJira.search_request,
    GetJira.build_search_url;
  cbn [rq_url]; apply starts_with_iff; eexists;
  rewrite !append_assoc; cbn [append]; reflexivity.

Lemma web_fetch_sends (P : request -> Prop) (fuel : nat) (base_url : string)
    (auth : string * string) (jql fields : string) (max_results : Z) :
  (forall sa, P (App.search_request base_url auth jql fields max_results sa)) ->
  sends_only P (App.fetch_all_issues fuel base_url auth jql fields max_results).
Proof.
  intros HP. apply sends_only_while. intros st. apply web_search_round_sends, HP.
Qed.

Lemma web_worklogs_sends (P : request -> Prop) (fuel : nat) (base_url : string)
    (auth : string * string) (issue_key : json) (start_at max_results : Z) :
  (forall sa, P (App.worklog_request base_url auth issue_key max_results sa)) ->
  sends_only P (App.fetch_worklogs fuel base_url auth issue_key start_at max_results).
Proof.
  intros HP. apply sends_only_while. intros st. apply web_worklog_round_sends, HP.
Qed.

Lemma web_project_sends (P : request -> Prop) (fuel : nat) (issues : list json)
    (base_url : string) (auth : string * string) (include_worklogs : bool) :
  (forall key sa, P (App.worklog_request base_url auth key 100 sa)) ->
  sends_only P (App.project_issues fuel issues base_url auth include_worklogs).
Proof.
  intros HP. apply sends_only_for_each. intros it.
  apply sends_only_bind; [apply sends_only_lift |]. intros item.
  destruct include_worklogs; [| apply sends_only_ret].
  apply sends_only_bind; [apply sends_only_lift |]. intros key.
  apply sends_only_bind; [apply web_worklogs_sends, HP |]. intros logs.
  apply sends_only_bind; [apply sends_only_lift |]. intros wls. apply sends_only_lift.
Qed.

Lemma cli_fetch_sends (P : request -> Prop) (fuel : nat) (search_url : string)
    (auth : string * string) (jql fields : string) (max_results : Z) :
  (forall sa, P (GetJira.search_request search_url auth jql fields max_results sa)) ->
  sends_only P (GetJira.fetch_all_issues fuel search_url auth jql fields max_results).
Proof.
  intros HP. apply sends_only_while. intros st. apply cli_search_round_sends, HP.
Qed.

(** Every request of a web export carries the credentials of the form
    (the user name stripped, the password as typed), the [Accept] header
    and a time limit of 30 seconds, and goes to a path under
    [/rest/api/2/] of the base URL, stripped of white space and trailing
    slashes. *)
Theorem web_requests_shape (fuel : nat) (form : list (string * string)) (up : upstream)
    (w w' : world) (o : outcome App.http_response) :
  App.export fuel form up w = (o, w') ->
  extends_with
    (web_request_shape (Py.strip (App.form_get form "baseUrl" EmptyString))
       (Py.strip (App.form_get form "username" EmptyString))
       (App.form_get form "password" EmptyString))
    w w'.
Proof.
  revert up w o w'.
  change (sends_only
            (web_request_shape (Py.strip (App.form_get form "baseUrl" EmptyString))
               (Py.strip (App.form_get form "username" EmptyString))
               (App.form_get form "password" EmptyString))
            (App.export fuel form)).
  unfold App.export.
  destruct (negb _); [apply sends_only_abort |].
  apply sends_only_bind.
  { apply web_fetch_sends. intros sa. repeat split. url_under_api. }
  intros issues.
  apply sends_only_bind; [| intros; apply sends_only_ret].
  apply web_project_sends. intros key sa. repeat split. url_under_api.
Qed.

Lemma web_requests_shape_witness :
  extends_with
    (web_request_shape (Py.strip (App.form_get sample_form "baseUrl" EmptyString))
       (Py.strip (App.form_get sample_form "username" EmptyString))
       (App.form_get sample_form "password" EmptyString))
    start (snd (App.export 5 sample_form forbidden_on_second start)).
Proof.
  apply (@web_requests_shape 5 sample_form forbidden_on_second start _
           (fst (App.export 5 sample_form forbidden_on_second start))).
  apply surjective_pairing.
Defined.

(** Every request of the command-line export carries the credentials
    (given or typed), the [Accept] header and no time limit, and is a
    search under the base URL with the parameters in the URL. *)
Theorem cli_requests_shape (fuel : nat) (a : GetJira.args)
    (typed_login typed_password : string) (up : upstream) (w w' : world)
    (o : outcome unit) :
  GetJira.main fuel a typed_login typed_password up w = (o, w') ->
  extends_with
    (cli_request_shape (GetJira.base_url a)
       (GetJira.or_typed (GetJira.username a) typed_login)
       (GetJira.or_typed (GetJira.password a) typed_password))
    w w'.
Proof.
  rewrite main_after_prompts. intros H.
  match type of H with
  | ?m up ?w0 = _ =>
      apply (fun G : sends_only
                       (cli_request_shape (GetJira.base_url a)
                          (GetJira.or_typed (GetJira.username a) typed_login)
                          (GetJira.or_typed (GetJira.password a) typed_password)) m =>
               G up w0 o w' H)
  end.
  apply sends_only_bind.
  { apply cli_fetch_sends. intros sa. repeat split. url_under_api. }
  intros issues.
  apply sends_only_bind; [apply sends_only_lift |]. intros projected.
  apply sends_only_bind; [| intros _]; apply sends_only_quiet;
    intros up' w1 o1 w1' H1; inversion H1; reflexivity.
Qed.

Lemma cli_requests_shape_witness :
  extends_with
    (cli_request_shape (GetJira.base_url sample_args)
       (GetJira.or_typed (GetJira.username sample_args) EmptyString)
       (GetJira.or_typed (GetJira.password sample_args) EmptyString))
    start (snd (GetJira.main 5 sample_args EmptyString EmptyString paged start)).
Proof.
  apply (@cli_requests_shape 5 sample_args EmptyString EmptyString paged start _
           (fst (GetJira.main 5 sample_args EmptyString EmptyString paged start))).
  apply surjective_pairing.
Defined.

(** ** The first request of an export *)

Lemma bind_first {A B} (P : request -> Prop) (m : io A) (f : A -> io B)
    (up : upstream) (w w' : world) (o : outcome B) :
  (forall a, sends_only P (f a)) ->
  bind m f up w = (o, w') ->
  exists o1 w1, m up w = (o1, w1) /\ extends_with P w1 w'.
Proof.
  intros Hf H. unfold bind in H.
  destruct (m up w) as [[a | e |] w1] eqn:E.
  - exists (Done a), w1. split; [reflexivity | eapply Hf; exact H].
  - inversion H; subst. exists (Fail e), w'. split; [reflexivity | apply extends_refl].
  - inversion H; subst. exists Diverge, w'. split; [reflexivity | apply extends_refl].
Qed.

Lemma eqb_empty_false (s : string) : s <> EmptyString -> String.eqb s EmptyString = false.
Proof. intros H. destruct (String.eqb_spec s EmptyString); [contradiction | reflexivity]. Qed.

Lemma web_query_text (project : string) (use_updated : bool) :
  App.jql project use_updated
  = if use_updated then updated_last_month project else closed_last_month project.
Proof. destruct use_updated; reflexivity. Qed.

(** With at least one round allowed, an export calls [requests.get]
    exactly when the form is complete.  Its first call is then a GET of
    the search endpoint of the stripped base URL, with the credentials
    of the form and, in the query string, the four parameters jql,
    fields, maxResults and startAt: the query for the stripped project
    (the updated-date query when useUpdated is [on], the
    resolution-date query for any other value), the fifteen field names,
    100 and 0.  An incomplete form ends in the 400 abort. *)
Theorem export_first_request (fuel : nat) (form : list (string * string))
    (up : upstream) (o : outcome App.http_response) (w' : world) :
  App.export (S fuel) form up start = (o, w') ->
  (form_complete form ->
   exists rq rp more,
     exchanges w' = (rq, rp) :: more /\
     rq = App.search_request (form_base_url form) (form_username form, form_password form)
            (App.jql (form_project form) (form_use_updated form)) App.fields 100 0 /\
     rq_auth rq = (form_username form, form_password form) /\
     asks_page (search_endpoint (form_base_url form))
       (if form_use_updated form then updated_last_month (form_project form)
        else closed_last_month (form_project form))
       "key,summary,status,resolution,resolutiondate,updated,assignee,labels,components,timeoriginalestimate,timeestimate,timespent,aggregatetimeoriginalestimate,aggregatetimeestimate,aggregatetimespent"
       100 0 rq) /\
  (~ form_complete form ->
   exchanges w' = [] /\ o = Fail (Abort 400 "Parametres manquants")).
Proof.
  intros H. unfold App.export in H.
  fold (form_base_url form) (form_project form) (form_username form)
    (form_password form) (form_use_updated form) in H.
  split.
  - intros (Hb & Hp & Hu & Hw).
    cbn [forallb] in H.
    rewrite (eqb_empty_false Hb), (eqb_empty_false Hp), (eqb_empty_false Hu),
      (eqb_empty_false Hw) in H.
    cbn [negb andb] in H.
    apply (@bind_first _ _ (fun _ => True)) in H as (o1 & w1 & H & (m1 & E1 & _)).
    2:{ intros issues. apply sends_only_bind; [| intros; apply sends_only_ret].
        apply web_project_sends. trivial. }
    unfold App.fetch_all_issues in H. cbn [while_true] in H.
    apply (@bind_first _ _ (fun _ => True)) in H as (o2 & w2 & H & (m2 & E2 & _)).
    2:{ intros [s' | x]; [| apply sends_only_ret].
        apply sends_only_while. intros st. apply web_search_round_sends. trivial. }
    unfold App.search_round in H.
    apply (@bind_first _ _ (fun _ => True)) in H as (o3 & w3 & H & (m3 & E3 & _)).
    2:{ intros resp. destruct (status_code resp >=? 400); [apply sends_only_abort |].
        apply sends_only_bind; [| intros; apply sends_only_lift].
        unfold resp_json. destruct (decoded resp);
          [apply sends_only_ret | apply sends_only_raise]. }
    unfold requests_get in H.
    exists (App.search_request (form_base_url form)
              (form_username form, form_password form)
              (App.jql (form_project form) (form_use_updated form))
              App.fields 100 0),
      (up [] (App.search_request (form_base_url form)
                (form_username form, form_password form)
                (App.jql (form_project form) (form_use_updated form))
                App.fields 100 0)), (m3 ++ m2 ++ m1)%list.
    split; [| split; [reflexivity | split; [reflexivity |]]].
    + rewrite E1, E2, E3.
      cbn [first_page start_at start exchanges] in H.
      destruct (up [] _); inversion H; subst; cbn [record_exchange exchanges app];
        rewrite <- !app_assoc; reflexivity.
    + rewrite <- web_query_text. apply web_request_asks.
  - intros Hn.
    assert (Hc : negb (forallb (fun x => negb (String.eqb x EmptyString))
                         [form_base_url form; form_project form; form_username form;
                          form_password form]) = true).
    { apply negb_true_iff. apply not_true_is_false. intros Hall. apply Hn.
      cbn [forallb] in Hall.
      repeat (apply andb_true_iff in Hall as (?H & Hall)).
      repeat split; intros E; rewrite E in *; discriminate. }
    rewrite Hc in H. inversion H; subst. split; reflexivity.
Qed.

Lemma export_first_request_witness :
  exists rq rp more,
    exchanges (snd (App.export 5 sample_form forbidden_on_second start)) = (rq, rp) :: more /\
    rq = App.search_request (form_base_url sample_form)
           (form_username sample_form, form_password sample_form)
           (App.jql (form_project sample_form) (form_use_updated sample_form))
           App.fields 100 0 /\
    rq_auth rq = (form_username sample_form, form_password sample_form) /\
    asks_page (search_endpoint (form_base_url sample_form))
      (if form_use_updated sample_form then updated_last_month (form_project sample_form)
       else closed_last_month (form_project sample_form))
      "key,summary,status,resolution,resolutiondate,updated,assignee,labels,components,timeoriginalestimate,timeestimate,timespent,aggregatetimeoriginalestimate,aggregatetimeestimate,aggregatetimespent"
      100 0 rq.
Proof.
  apply (proj1 (@export_first_request 4 sample_form forbidden_on_second _ _
                  (surjective_pairing _))).
  repeat split; discriminate.
Defined.

(** ** What a fetch returns, whatever the server does *)

Lemma absorb_page_inv (st : page_state) (data : json) (x : page_state + list json) :
  absorb_page st data = Ok x ->
  exists items,
    (b <- Py.get_default data "issues" (JList []) ;; Py.iter b)%result = Ok items /\
    match x with
    | inl st' =>
        issues st' = (issues st ++ items)%list /\
        start_at st' = start_at st + Z.of_nat (List.length items)
    | inr l => l = (issues st ++ items)%list
    end.
Proof.
  unfold absorb_page. intros H.
  apply rbind_ok in H as (batch & Hb & H).
  apply rbind_ok in H as (items & Hi & H).
  apply rbind_ok in H as (tot & _ & H).
  apply rbind_ok in H as (n & Hn & H).
  apply rbind_ok in H as (stop & _ & H).
  unfold Py.len in Hn. rewrite Hi in Hn. injection Hn as <-.
  exists items. rewrite Hb. split; [exact Hi |].
  destruct stop; injection H as <-; auto.
Qed.

Lemma received_snoc (exs : list (request * reply)) (rq : request) (rp : reply) :
  received (exs ++ [(rq, rp)]) = (received exs ++ batch_of rp)%list.
Proof. unfold received. rewrite flat_map_app. cbn. now rewrite app_nil_r. Qed.

Lemma paced_snoc (mk : Z -> request) (exs : list (request * reply)) (rp : reply) :
  paced mk exs ->
  paced mk (exs ++ [(mk (Z.of_nat (List.length (received exs))), rp)]).
Proof.
  intros Hp before rq rp' rest E.
  destruct rest as [| y rest].
  - apply app_inj_tail in E as (<- & E). injection E as <- _. reflexivity.
  - assert (E' : exs = (before ++ (rq, rp') :: removelast (y :: rest))%list).
    { apply (f_equal (@removelast _)) in E.
      rewrite removelast_last in E. rewrite E.
      rewrite removelast_app by discriminate.
      change ((rq, rp') :: y :: rest) with ([(rq, rp')] ++ y :: rest)%list.
      rewrite removelast_app by discriminate. reflexivity. }
    eapply Hp; exact E'.
Qed.

Section Cursor.

Variable round : page_state -> io (page_state + list json).
Variable mk : Z -> request.

Hypothesis round_cases :
  forall st up w o w',
    round st up w = (o, w') ->
    exists rp,
      exchanges w' = (exchanges w ++ [(mk (start_at st), rp)])%list /\
      forall x, o = Done x ->
                exists r data,
                  rp = Reply r /\ decoded r = Some data /\ absorb_page st data = Ok x.

Lemma loop_keeps_count (up : upstream) (fuel : nat) :
  forall st w o w',
    issues st = received (exchanges w) ->
    start_at st = Z.of_nat (List.length (issues st)) ->
    paced mk (exchanges w) ->
    while_true fuel round st up w = (o, w') ->
    paced mk (exchanges w') /\ (forall l, o = Done l -> l = received (exchanges w')).
Proof.
  induction fuel as [| n IH]; intros st w o w' Hi Hs Hp H.
  - inversion H; subst. split; [exact Hp | discriminate].
  - rewrite while_true_step in H.
    destruct (round st up w) as [o1 w1] eqn:E.
    destruct (round_cases E) as (rp & Hex & Hdone).
    assert (Hp1 : paced mk (exchanges w1)).
    { rewrite Hex, Hs, Hi. apply paced_snoc, Hp. }
    destruct o1 as [[st' | l] | e |].
    + destruct (Hdone _ eq_refl) as (r & data & -> & Hd & Ha).
      apply absorb_page_inv in Ha as (items & Hitems & Hi' & Hs').
      assert (Hb : batch_of (Reply r) = items) by (cbn; rewrite Hd, Hitems; reflexivity).
      apply (IH st' w1 o w'); try assumption.
      * rewrite Hi', Hex, received_snoc, Hb, Hi. reflexivity.
      * rewrite Hs', Hi', Hs, length_app. lia.
    + destruct (Hdone _ eq_refl) as (r & data & -> & Hd & Ha).
      apply absorb_page_inv in Ha as (items & Hitems & ->).
      inversion H; subst. split; [exact Hp1 |].
      intros l' Hl. injection Hl as <-.
      rewrite Hex, received_snoc, Hi. cbn. rewrite Hd, Hitems. reflexivity.
    + inversion H; subst. split; [exact Hp1 | discriminate].
    + inversion H; subst. split; [exact Hp1 | discriminate].
Qed.

Lemma fetch_keeps_count (up : upstream) (fuel : nat) (o : outcome (list json))
    (w' : world) :
  while_true fuel round first_page up start = (o, w') ->
  paced mk (exchanges w') /\ (forall l, o = Done l -> l = received (exchanges w')).
Proof.
  apply loop_keeps_count; try reflexivity.
  intros before rq rp rest E. destruct before; discriminate.
Qed.

End Cursor.

Lemma app_round_cases (base_url : string) (auth : string * string) (jql fields : string)
    (max_results : Z) (st : page_state) (up : upstream) (w w' : world)
    (o : outcome (page_state + list json)) :
  App.search_round base_url auth jql fields max_results st up w = (o, w') ->
  exists rp,
    exchanges w'
    = (exchanges w
       ++ [(App.search_request base_url auth jql fields max_results (start_at st), rp)])%list /\
    forall x, o = Done x ->
              exists r data,
                rp = Reply r /\ decoded r = Some data /\ absorb_page st data = Ok x.
Proof.
  intros H. unfold App.search_round, bind, requests_get in H.
  exists (up (exchanges w)
            (App.search_request base_url auth jql fields max_results (start_at st))).
  destruct (up (exchanges w) _) as [r |].
  - destruct (status_code r >=? 400).
    + destruct (@abort_raises (page_state + list json) (status_code r) (text r))
        as (e & He & _).
      rewrite He in H. inversion H; subst. split; [reflexivity | discriminate].
    + unfold resp_json in H. destruct (decoded r) as [data |] eqn:Hd.
      * unfold ret in H. destruct (absorb_page st data) as [x | e] eqn:Ha;
          inversion H; subst; (split; [reflexivity |]); [| discriminate].
        intros x' Hx. injection Hx as <-. eauto.
      * inversion H; subst. split; [reflexivity | discriminate].
  - inversion H; subst. split; [reflexivity | discriminate].
Qed.

Lemma cli_round_cases (search_url : string) (auth : string * string) (jql fields : string)
    (max_results : Z) (st : page_state) (up : upstream) (w w' : world)
    (o : outcome (page_state + list json)) :
  GetJira.search_round search_url auth jql fields max_results st up w = (o, w') ->
  exists rp,
    exchanges w'
    = (exchanges w
       ++ [(GetJira.search_request search_url auth jql fields max_results (start_at st),
            rp)])%list /\
    forall x, o = Done x ->
              exists r data,
                rp = Reply r /\ decoded r = Some data /\ absorb_page st data = Ok x.
Proof.
  intros H. unfold GetJira.search_round, bind, requests_get in H.
  exists (up (exchanges w)
            (GetJira.search_request search_url auth jql fields max_results (start_at st))).
  destruct (up (exchanges w) _) as [r |].
  - destruct (raise_for_status r).
    + unfold resp_json in H. destruct (decoded r) as [data |] eqn:Hd.
      * unfold ret in H. destruct (absorb_page st data) as [x | e] eqn:Ha;
          inversion H; subst; (split; [reflexivity |]); [| discriminate].
        intros x' Hx. injection Hx as <-. eauto.
      * inversion H; subst. split; [reflexivity | discriminate].
    + cbn in H. inversion H; subst. split; [reflexivity | discriminate].
  - inversion H; subst. split; [reflexivity | discriminate].
Qed.

(** Whatever the server answers, the list a fetch returns is the
    concatenation, in order, of the batches of all the responses it got:
    nothing is dropped, repeated or reordered. *)
Theorem fetched_is_received :
  (forall fuel base_url auth jql fields max_results up w' l,
      App.fetch_all_issues fuel base_url auth jql fields max_results up start
      = (Done l, w') ->
      l = received (exchanges w')) /\
  (forall fuel search_url auth jql fields max_results up w' l,
      GetJira.fetch_all_issues fuel search_url auth jql fields max_results up start
      = (Done l, w') ->
      l = received (exchanges w')).
Proof.
  split; intros until l; intros H.
  - eapply (@fetch_keeps_count _ _ (fun st up0 w o0 w0 => @app_round_cases base_url auth jql fields max_results st up0 w w0 o0));
      [exact H | reflexivity].
  - eapply (@fetch_keeps_count _ _ (fun st up0 w o0 w0 => @cli_round_cases search_url auth jql fields max_results st up0 w w0 o0));
      [exact H | reflexivity].
Qed.

Lemma paced_asks (mk : Z -> request) (ask : Z -> request -> Prop)
    (exs : list (request * reply)) :
  (forall sa, ask sa (mk sa)) -> paced mk exs -> cursor_paced ask exs.
Proof.
  intros Hask Hp before rq rp rest E. rewrite (Hp before rq rp rest E). apply Hask.
Qed.

(** Whatever the server answers and however the fetch ends, each search
    request asks, as its startAt, for the number of records received
    before it, with the same query, field list and page size: the
    cursor never skips a record and never asks for one twice. *)
Theorem cursor_counts_received :
  (forall fuel base_url auth jql fields max_results up o w',
      App.fetch_all_issues fuel base_url auth jql fields max_results up start = (o, w') ->
      paced (App.search_request base_url auth jql fields max_results) (exchanges w') /\
      cursor_paced (asks_page (search_endpoint base_url) jql fields max_results)
        (exchanges w')) /\
  (forall fuel search_url auth jql fields max_results up o w',
      GetJira.fetch_all_issues fuel search_url auth jql fields max_results up start
      = (o, w') ->
      paced (GetJira.search_request search_url auth jql fields max_results)
        (exchanges w') /\
      cursor_paced (asks_page search_url jql fields max_results) (exchanges w')).
Proof.
  split; intros until w'; intros H.
  - assert (Hp : paced (App.search_request base_url auth jql fields max_results)
                   (exchanges w')).
    { eapply (@fetch_keeps_count _ _ (fun st up0 w o0 w0 => @app_round_cases base_url auth jql fields max_results st up0 w w0 o0)).
      exact H. }
    split; [exact Hp |].
    eapply paced_asks; [| exact Hp]. intros sa. apply web_request_asks.
  - assert (Hp : paced (GetJira.search_request search_url auth jql fields max_results)
                   (exchanges w')).
    { eapply (@fetch_keeps_count _ _ (fun st up0 w o0 w0 => @cli_round_cases search_url auth jql fields max_results st up0 w w0 o0)).
      exact H. }
    split; [exact Hp |].
    eapply paced_asks; [| exact Hp]. intros sa. apply cli_request_asks.
Qed.

Lemma fetched_is_received_witness :
  records
  = received (exchanges (snd (App.fetch_all_issues 5 "https://jira.example.org/"
                                ("ada", "secret") (App.jql "ARAPS" false) App.fields 100
                                paged start))).
Proof.
  apply (proj1 fetched_is_received 5%nat "https://jira.example.org/" ("ada", "secret")
           (App.jql "ARAPS" false) App.fields 100 paged).
  vm_compute. reflexivity.
Defined.

Lemma cursor_counts_received_witness :
  paced (App.search_request "https://jira.example.org/" ("ada", "secret")
           (App.jql "ARAPS" false) App.fields 100)
    (exchanges (snd (App.fetch_all_issues 5 "https://jira.example.org/"
                       ("ada", "secret") (App.jql "ARAPS" false) App.fields 100
                       forbidden_on_second start))) /\
  cursor_paced (asks_page (search_endpoint "https://jira.example.org/")
                  (App.jql "ARAPS" false) App.fields 100)
    (exchanges (snd (App.fetch_all_issues 5 "https://jira.example.org/"
                       ("ada", "secret") (App.jql "ARAPS" false) App.fields 100
                       forbidden_on_second start))).
Proof.
  apply (proj1 cursor_counts_received 5%nat "https://jira.example.org/" ("ada", "secret")
           (App.jql "ARAPS" false) App.fields 100 forbidden_on_second
           (fst (App.fetch_all_issues 5 "https://jira.example.org/"
                   ("ada", "secret") (App.jql "ARAPS" false) App.fields 100
                   forbidden_on_second start))).
  apply surjective_pairing.
Defined.

(** ** A server that honours startAt and maxResults *)

Lemma firstn_plus {A} (a b : nat) (l : list A) :
  firstn (a + b) l = (firstn a l ++ firstn b (skipn a l))%list.
Proof.
  revert l; induction a as [| a IH]; intros l; [reflexivity |].
  destruct l as [| x l]; cbn; [now rewrite firstn_nil | now rewrite IH].
Qed.

Section Honest.

Variable round : page_state -> io (page_state + list json).
Variable mk : Z -> request.

Hypothesis round_accepted :
  forall st up w r data,
    up (exchanges w) (mk (start_at st)) = Reply r ->
    status_code r = 200 ->
    decoded r = Some data ->
    round st up w
    = (outcome_of (absorb_page st data), record_exchange w (mk (start_at st)) (Reply r)).

Variable up : upstream.
Variable records : list json.
Variable m p : nat.

Hypothesis m_positive : (0 < m)%nat.
Hypothesis honest :
  forall k, (k < p)%nat ->
            up (honest_exchanges mk records m k) (mk (Z.of_nat (k * m)))
            = Reply (honest_page records m (Z.of_nat (k * m))).
Hypothesis p_covers : (List.length records <= p * m)%nat.
Hypothesis p_least : p = 1%nat \/ ((p - 1) * m < List.length records)%nat.

Lemma honest_loop (j : nat) :
  forall k fuel st w,
    p = (k + j)%nat ->
    (1 <= j <= fuel)%nat ->
    exchanges w = honest_exchanges mk records m k ->
    start_at st = Z.of_nat (k * m) ->
    issues st = firstn (k * m) records ->
    total st = JInt (Z.of_nat (List.length records)) \/ (k = 0%nat /\ total st = JNull) ->
    while_true fuel round st up w
    = (Done records,
       {| exchanges := honest_exchanges mk records m p;
          stderr := stderr w; stdout := stdout w; terminal := terminal w;
        files := files w |}).
Proof.
  induction j as [| j IH]; intros k fuel st w Hp Hj Hw Hs Hi Ht; [lia |].
  destruct fuel as [| fuel]; [lia |].
  rewrite while_true_step.
  rewrite (@round_on_page round mk round_accepted st up w
             (honest_page records m (start_at st))
             (firstn m (skipn (k * m) records)) (Z.of_nat (List.length records))).
  - rewrite length_firstn, length_skipn, Hs, Hi.
    assert (Hw' : exchanges (record_exchange w (mk (Z.of_nat (k * m)))
                               (Reply (honest_page records m (Z.of_nat (k * m)))))
                  = honest_exchanges mk records m (S k)).
    { cbn [record_exchange exchanges]. rewrite Hw. unfold honest_exchanges.
      rewrite seq_S, map_app. reflexivity. }
    destruct (Z.geb_spec (Z.of_nat (k * m)
                          + Z.of_nat (Nat.min m (List.length records - k * m)))
                         (Z.of_nat (List.length records))) as [Hge | Hlt].
    + assert (j = 0%nat) by (destruct p_least; nia). subst j.
      rewrite <- firstn_plus, firstn_all2 by nia.
      replace p with (S k) by lia. rewrite <- Hw'. reflexivity.
    + assert (Hm : Nat.min m (List.length records - k * m) = m) by nia.
      rewrite Hm in *.
      rewrite IH with (k := S k); try nia.
      * reflexivity.
      * exact Hw'.
      * cbn [start_at]. nia.
      * cbn [issues]. rewrite <- firstn_plus. f_equal. nia.
      * left; reflexivity.
  - rewrite Hw, Hs. apply honest. lia.
  - split; [reflexivity |]. eexists; split; [reflexivity |].
    rewrite Hs, Nat2Z.id. reflexivity.
  - destruct Ht as [Ht | (_ & Ht)]; [left; exact Ht | right].
    split; [exact Ht |]. eexists; split; reflexivity.
Qed.

Lemma honest_fetch (fuel : nat) :
  (p <= fuel)%nat ->
  while_true fuel round first_page up start
  = (Done records, after (honest_exchanges mk records m p)).
Proof.
  intros Hp.
  rewrite (@honest_loop p 0 fuel first_page start); auto.
  destruct p_least; nia.
Qed.

End Honest.

Lemma honest_pages_asked (mk : Z -> request) (ask : Z -> request -> Prop)
    (records : list json) (m p : nat) :
  (forall sa, ask sa (mk sa)) ->
  Forall2 (fun k x => ask (Z.of_nat (k * m)) (fst x)) (seq 0 p)
    (honest_exchanges mk records m p).
Proof.
  intros Hask. unfold honest_exchanges.
  induction (seq 0 p) as [| k l IH]; cbn [map]; constructor; [apply Hask | exact IH].
Qed.

(** Against a server that answers each request with the page of at most
    maxResults records found at its startAt and reports the true total,
    the fetcher of either surface returns exactly the records of the
    server, in order, after one request per page: the k-th request asks
    the search endpoint, with the query and the field list, for at most
    maxResults records from the record number k * maxResults on; an
    empty result takes one request. *)
Theorem honest_server_fully_fetched (base_url search_url jql fields : string)
    (auth : string * string) (records : list json) (m p fuel : nat) :
  (0 < m)%nat ->
  (List.length records <= p * m)%nat ->
  p = 1%nat \/ ((p - 1) * m < List.length records)%nat ->
  (p <= fuel)%nat ->
  (forall up,
      let rq := App.search_request base_url auth jql fields (Z.of_nat m) in
      (forall k, (k < p)%nat ->
                 up (honest_exchanges rq records m k) (rq (Z.of_nat (k * m)))
                 = Reply (honest_page records m (Z.of_nat (k * m)))) ->
      App.fetch_all_issues fuel base_url auth jql fields (Z.of_nat m) up start
      = (Done records, after (honest_exchanges rq records m p)) /\
      pages_asked (search_endpoint base_url) jql fields m p
        (honest_exchanges rq records m p)) /\
  (forall up,
      let rq := GetJira.search_request search_url auth jql fields (Z.of_nat m) in
      (forall k, (k < p)%nat ->
                 up (honest_exchanges rq records m k) (rq (Z.of_nat (k * m)))
                 = Reply (honest_page records m (Z.of_nat (k * m)))) ->
      GetJira.fetch_all_issues fuel search_url auth jql fields (Z.of_nat m) up start
      = (Done records, after (honest_exchanges rq records m p)) /\
      pages_asked search_url jql fields m p (honest_exchanges rq records m p)).
Proof.
  intros Hm Hc Hl Hf. split; intros up rq Hup; split.
  - unfold App.fetch_all_issues.
    apply honest_fetch with (mk := rq); try assumption.
    intros st up' w r data. apply app_round_accepted.
  - apply honest_pages_asked. intros sa. apply web_request_asks.
  - unfold GetJira.fetch_all_issues.
    apply honest_fetch with (mk := rq); try assumption.
    intros st up' w r data. apply cli_round_accepted.
  - apply honest_pages_asked. intros sa. apply cli_request_asks.
Qed.

Lemma honest_server_fully_fetched_witness :
  GetJira.fetch_all_issues 4 "https://jira.example.org/rest/api/2/search"
    ("ada", "secret") (GetJira.jql "ARAPS" true) GetJira.fields (Z.of_nat 100) paged start
  = (Done records,
     after (honest_exchanges
              (GetJira.search_request "https://jira.example.org/rest/api/2/search"
                 ("ada", "secret") (GetJira.jql "ARAPS" true) GetJira.fields
                 (Z.of_nat 100))
              records 100 3)) /\
  pages_asked "https://jira.example.org/rest/api/2/search" (GetJira.jql "ARAPS" true)
    GetJira.fields 100 3
    (honest_exchanges
       (GetJira.search_request "https://jira.example.org/rest/api/2/search"
          ("ada", "secret") (GetJira.jql "ARAPS" true) GetJira.fields (Z.of_nat 100))
       records 100 3).
Proof.
  refine (proj2 (@honest_server_fully_fetched EmptyString
                   "https://jira.example.org/rest/api/2/search"
                   (GetJira.jql "ARAPS" true) GetJira.fields ("ada", "secret")
                   records 100 3 4 _ _ _ _) paged _).
  - lia.
  - vm_compute. lia.
  - right. vm_compute. lia.
  - lia.
  - intros k Hk. destruct k as [| [| [| k]]]; [reflexivity .. | lia].
Defined.

(** ** A first response without a usable total *)

Section FirstTotal.

Variable round : page_state -> io (page_state + list json).
Variable mk : Z -> request.

Hypothesis round_accepted :
  forall st up w r data,
    up (exchanges w) (mk (start_at st)) = Reply r ->
    status_code r = 200 ->
    decoded r = Some data ->
    round st up w
    = (outcome_of (absorb_page st data), record_exchange w (mk (start_at st)) (Reply r)).

Lemma missing_total_one_round (up : upstream) (r : response) (batch : list json)
    (fuel : nat) :
  up [] (mk 0) = Reply r ->
  serves_page r batch ->
  lacks_total r ->
  while_true (S fuel) round first_page up start
  = (Done batch, after [(mk 0, Reply r)]).
Proof.
  intros Hup (Hs & data & Hd & Hb) (kvs & Hd' & Hk).
  rewrite Hd in Hd'. injection Hd' as ->.
  rewrite while_true_step.
  rewrite (round_accepted first_page up start Hup Hs Hd).
  rewrite (@absorb_page_list first_page (JObj kvs) batch
             (Z.of_nat (List.length batch)) Hb).
  - cbn [first_page start_at issues app outcome_of].
    destruct (Z.geb_spec (0 + Z.of_nat (List.length batch)) (Z.of_nat (List.length batch)));
      [reflexivity | lia].
  - cbn [first_page total Py.get_default]. rewrite Hk. reflexivity.
Qed.

Lemma null_total_one_round (up : upstream) (r : response) (batch : list json)
    (fuel : nat) :
  up [] (mk 0) = Reply r ->
  serves_page r batch ->
  null_total r ->
  while_true (S fuel) round first_page up start
  = (Fail TypeError, after [(mk 0, Reply r)]).
Proof.
  intros Hup (Hs & data & Hd & Hb) (kvs & Hd' & Hk).
  rewrite Hd in Hd'. injection Hd' as ->.
  rewrite while_true_step.
  rewrite (round_accepted first_page up start Hup Hs Hd).
  unfold absorb_page. rewrite Hb.
  cbn [rbind Py.iter Py.len first_page total Py.get_default]. rewrite Hk.
  reflexivity.
Qed.

End FirstTotal.

(** When the first response carries no total, the size of its batch
    stands for it: the fetcher of either surface returns that batch
    after this single request, even if the server holds more. *)
Theorem missing_total_stops_after_first_page (base_url search_url jql fields : string)
    (auth : string * string) (max_results : Z) (r : response) (batch : list json)
    (fuel : nat) :
  serves_page r batch ->
  lacks_total r ->
  (forall up,
      let rq := App.search_request base_url auth jql fields max_results 0 in
      up [] rq = Reply r ->
      App.fetch_all_issues (S fuel) base_url auth jql fields max_results up start
      = (Done batch, after [(rq, Reply r)])) /\
  (forall up,
      let rq := GetJira.search_request search_url auth jql fields max_results 0 in
      up [] rq = Reply r ->
      GetJira.fetch_all_issues (S fuel) search_url auth jql fields max_results up start
      = (Done batch, after [(rq, Reply r)])).
Proof.
  intros Hs Hl. split; intros up rq Hup.
  - unfold App.fetch_all_issues.
    apply (@missing_total_one_round _
             (App.search_request base_url auth jql fields max_results)); try assumption.
    intros st up' w r' data. apply app_round_accepted.
  - unfold GetJira.fetch_all_issues.
    apply (@missing_total_one_round _
             (GetJira.search_request search_url auth jql fields max_results));
      try assumption.
    intros st up' w r' data. apply cli_round_accepted.
Qed.

(** When the total of the first response is null, the comparison of the
    cursor with it raises: the fetcher of either surface fails with a
    TypeError after this single request. *)
Theorem null_total_raises (base_url search_url jql fields : string)
    (auth : string * string) (max_results : Z) (r : response) (batch : list json)
    (fuel : nat) :
  serves_page r batch ->
  null_total r ->
  (forall up,
      let rq := App.search_request base_url auth jql fields max_results 0 in
      up [] rq = Reply r ->
      App.fetch_all_issues (S fuel) base_url auth jql fields max_results up start
      = (Fail TypeError, after [(rq, Reply r)])) /\
  (forall up,
      let rq := GetJira.search_request search_url auth jql fields max_results 0 in
      up [] rq = Reply r ->
      GetJira.fetch_all_issues (S fuel) search_url auth jql fields max_results up start
      = (Fail TypeError, after [(rq, Reply r)])).
Proof.
  intros Hs Hl. split; intros up rq Hup.
  - unfold App.fetch_all_issues.
    apply (@null_total_one_round _
             (App.search_request base_url auth jql fields max_results)) with (batch := batch);
      try assumption.
    intros st up' w r' data. apply app_round_accepted.
  - unfold GetJira.fetch_all_issues.
    apply (@null_total_one_round _
             (GetJira.search_request search_url auth jql fields max_results))
      with (batch := batch); try assumption.
    intros st up' w r' data. apply cli_round_accepted.
Qed.

Lemma missing_total_stops_after_first_page_witness :
  let rq := App.search_request "https://jira.example.org" ("ada", "secret")
              (App.jql "ARAPS" false) App.fields 100 0 in
  App.fetch_all_issues 3 "https://jira.example.org" ("ada", "secret")
    (App.jql "ARAPS" false) App.fields 100 (fun _ _ => Reply page_without_total) start
  = (Done (firstn 100 records), after [(rq, Reply page_without_total)]).
Proof.
  intros rq.
  refine (proj1 (@missing_total_stops_after_first_page "https://jira.example.org"
                   EmptyString (App.jql "ARAPS" false) App.fields ("ada", "secret") 100
                   page_without_total (firstn 100 records) 2 _ _)
            (fun _ _ => Reply page_without_total) eq_refl).
  - split; [reflexivity | eexists; split; reflexivity].
  - eexists; split; reflexivity.
Defined.

Lemma null_total_raises_witness :
  let rq := App.search_request "https://jira.example.org" ("ada", "secret")
              (App.jql "ARAPS" false) App.fields 100 0 in
  App.fetch_all_issues 3 "https://jira.example.org" ("ada", "secret")
    (App.jql "ARAPS" false) App.fields 100 (fun _ _ => Reply page_with_null_total) start
  = (Fail TypeError, after [(rq, Reply page_with_null_total)]).
Proof.
  intros rq.
  refine (proj1 (@null_total_raises "https://jira.example.org"
                   EmptyString (App.jql "ARAPS" false) App.fields ("ada", "secret") 100
                   page_with_null_total (firstn 100 records) 2 _ _)
            (fun _ _ => Reply page_with_null_total) eq_refl).
  - split; [reflexivity | eexists; split; reflexivity].
  - eexists; split; reflexivity.
Defined.

(** ** Fetching work-logs *)

Lemma worklog_round_accepted (base_url : string) (auth : string * string)
    (issue_key : json) (max_results : Z) (st : list json * Z) (up : upstream) (w : world)
    (r : response) (data : json) :
  let rq := App.worklog_request base_url auth issue_key max_results (snd st) in
  up (exchanges w) rq = Reply r ->
  status_code r = 200 ->
  decoded r = Some data ->
  App.worklog_round base_url auth issue_key max_results st up w
  = (outcome_of (App.absorb_worklogs st data), record_exchange w rq (Reply r)).
Proof.
  intros rq Hup Hs Hd. unfold App.worklog_round, bind, requests_get.
  fold rq. rewrite Hup, Hs. cbn [Z.geb Z.compare Pos.compare Pos.compare_cont].
  unfold resp_json. rewrite Hd. unfold ret.
  destruct (App.absorb_worklogs st data); reflexivity.
Qed.

Lemma absorb_worklogs_list (acc : list json) (sa : Z) (data : json) (batch : list json)
    (t : Z) :
  Py.get_default data "worklogs" (JList []) = Ok (JList batch) ->
  Py.get_default data "total" (JInt 0) = Ok (JInt t) ->
  App.absorb_worklogs (acc, sa) data
  = Ok (if sa + Z.of_nat (List.length batch) >=? t
        then inr (acc ++ batch)%list
        else inl ((acc ++ batch)%list, sa + Z.of_nat (List.length batch))).
Proof.
  intros Hb Ht. unfold App.absorb_worklogs. rewrite Hb. cbn [rbind]. rewrite Ht.
  cbn [rbind Py.iter Py.len Py.int_ge].
  destruct (sa + Z.of_nat (List.length batch) >=? t); reflexivity.
Qed.

(** The total is read anew from every work-log response, 0 standing for
    a missing one: a response without total ends the fetch at once with
    the work-logs gathered so far and its own batch, whatever was
    announced before. *)
Theorem worklogs_without_total_stop (fuel : nat) (base_url : string)
    (auth : string * string) (issue_key : json) (max_results : Z)
    (acc : list json) (sa : Z) (up : upstream) (w : world) (r : response)
    (batch : list json) :
  let rq := App.worklog_request base_url auth issue_key max_results sa in
  0 <= sa ->
  up (exchanges w) rq = Reply r ->
  serves_logs r batch ->
  lacks_total r ->
  while_true (S fuel) (App.worklog_round base_url auth issue_key max_results) (acc, sa) up w
  = (Done (acc ++ batch)%list, record_exchange w rq (Reply r)).
Proof.
  intros rq Hsa Hup (Hs & data & Hd & Hb) (kvs & Hd' & Hk).
  rewrite Hd in Hd'. injection Hd' as ->.
  rewrite while_true_step.
  rewrite (@worklog_round_accepted base_url auth issue_key max_results (acc, sa) up w r
             (JObj kvs) Hup Hs Hd).
  rewrite (@absorb_worklogs_list acc sa (JObj kvs) batch 0 Hb).
  - destruct (Z.geb_spec (sa + Z.of_nat (List.length batch)) 0); [reflexivity | lia].
  - cbn [Py.get_default]. rewrite Hk. reflexivity.
Qed.

Section HonestLogs.

Variable base_url : string.
Variable auth : string * string.
Variable issue_key : json.
Variable up : upstream.
Variable logs : list json.
Variable m p : nat.
Variable past : list (request * reply).

Let mk := App.worklog_request base_url auth issue_key (Z.of_nat m).

Hypothesis m_positive : (0 < m)%nat.
Hypothesis honest :
  forall k, (k < p)%nat ->
            up (past ++ honest_log_exchanges mk logs m k)%list (mk (Z.of_nat (k * m)))
            = Reply (honest_log_page logs m (Z.of_nat (k * m))).
Hypothesis p_covers : (List.length logs <= p * m)%nat.
Hypothesis p_least : p = 1%nat \/ ((p - 1) * m < List.length logs)%nat.

Lemma honest_log_loop (j : nat) :
  forall k fuel acc sa w,
    p = (k + j)%nat ->
    (1 <= j <= fuel)%nat ->
    exchanges w = (past ++ honest_log_exchanges mk logs m k)%list ->
    sa = Z.of_nat (k * m) ->
    acc = firstn (k * m) logs ->
    while_true fuel (App.worklog_round base_url auth issue_key (Z.of_nat m)) (acc, sa) up w
    = (Done logs,
       {| exchanges := (past ++ honest_log_exchanges mk logs m p)%list;
          stderr := stderr w; stdout := stdout w; terminal := terminal w;
        files := files w |}).
Proof.
  induction j as [| j IH]; intros k fuel acc sa w Hp Hj Hw Hs Hi; [lia |].
  destruct fuel as [| fuel]; [lia |].
  rewrite while_true_step.
  rewrite (@worklog_round_accepted base_url auth issue_key (Z.of_nat m) (acc, sa) up w
             (honest_log_page logs m sa)
             (JObj [("startAt", JInt sa);
                    ("maxResults", JInt (Z.of_nat m));
                    ("total", JInt (Z.of_nat (List.length logs)));
                    ("worklogs", JList (firstn m (skipn (Z.to_nat sa) logs)))]));
    [| cbn [snd]; rewrite Hw, Hs; apply honest; lia | reflexivity | reflexivity].
  rewrite (@absorb_worklogs_list acc sa _ (firstn m (skipn (Z.to_nat sa) logs))
             (Z.of_nat (List.length logs))); [| reflexivity | reflexivity].
  cbn [outcome_of snd].
  assert (Hw' : exchanges (record_exchange w
                             (App.worklog_request base_url auth issue_key (Z.of_nat m) sa)
                             (Reply (honest_log_page logs m sa)))
                = (past ++ honest_log_exchanges mk logs m (S k))%list).
  { cbn [record_exchange exchanges]. rewrite Hw, Hs. unfold honest_log_exchanges.
    rewrite seq_S, map_app, app_assoc. reflexivity. }
  subst sa acc. rewrite Nat2Z.id, length_firstn, length_skipn.
  destruct (Z.geb_spec (Z.of_nat (k * m)
                        + Z.of_nat (Nat.min m (List.length logs - k * m)))
                       (Z.of_nat (List.length logs))) as [Hge | Hlt].
  - assert (j = 0%nat) by (destruct p_least; nia). subst j.
    rewrite <- firstn_plus, firstn_all2 by nia.
    replace p with (S k) by lia. rewrite <- Hw'. reflexivity.
  - assert (Hm : Nat.min m (List.length logs - k * m) = m) by nia.
    rewrite Hm in *.
    rewrite IH with (k := S k); try nia.
    + reflexivity.
    + exact Hw'.
    + rewrite <- firstn_plus. f_equal. nia.
Qed.

End HonestLogs.

(** Against a server that answers each work-log request with the page of
    at most maxResults entries found at its startAt and reports the true
    total, [fetch_worklogs] returns exactly the work-logs of the issue,
    in order, after one request per page. *)
Theorem honest_worklogs_fully_fetched (base_url : string) (auth : string * string)
    (issue_key : json) (up : upstream) (w : world) (logs : list json) (m p fuel : nat) :
  let rq := App.worklog_request base_url auth issue_key (Z.of_nat m) in
  (0 < m)%nat ->
  (List.length logs <= p * m)%nat ->
  p = 1%nat \/ ((p - 1) * m < List.length logs)%nat ->
  (p <= fuel)%nat ->
  (forall k, (k < p)%nat ->
             up (exchanges w ++ honest_log_exchanges rq logs m k)%list (rq (Z.of_nat (k * m)))
             = Reply (honest_log_page logs m (Z.of_nat (k * m)))) ->
  App.fetch_worklogs fuel base_url auth issue_key 0 (Z.of_nat m) up w
  = (Done logs,
     {| exchanges := (exchanges w ++ honest_log_exchanges rq logs m p)%list;
        stderr := stderr w; stdout := stdout w; terminal := terminal w;
        files := files w |}).
Proof.
  intros rq Hm Hc Hl Hf Hup. unfold App.fetch_worklogs.
  apply (@honest_log_loop base_url auth issue_key up logs m p (exchanges w) Hm Hup Hc Hl
           p 0%nat fuel [] 0 w); try reflexivity.
  - destruct Hl; nia.
  - cbn. now rewrite app_nil_r.
Qed.

Lemma honest_worklogs_fully_fetched_witness :
  App.fetch_worklogs 3 "https://jira.example.org" ("ada", "secret") (JStr "ARAPS-1") 0
    (Z.of_nat 2) logs_by_two start
  = (Done three_logs,
     after (honest_log_exchanges
              (App.worklog_request "https://jira.example.org" ("ada", "secret")
                 (JStr "ARAPS-1") (Z.of_nat 2))
              three_logs 2 2)).
Proof.
  refine (@honest_worklogs_fully_fetched "https://jira.example.org" ("ada", "secret")
            (JStr "ARAPS-1") logs_by_two start three_logs 2 2 3 _ _ _ _ _).
  - lia.
  - cbn; lia.
  - right; cbn; lia.
  - lia.
  - intros k Hk. destruct k as [| [| k]]; [reflexivity | reflexivity | lia].
Defined.

Lemma worklogs_without_total_stop_witness :
  let rq := App.worklog_request "https://jira.example.org" ("ada", "secret")
              (JStr "ARAPS-1") 100 0 in
  while_true 2 (App.worklog_round "https://jira.example.org" ("ada", "secret")
                  (JStr "ARAPS-1") 100) ([], 0)
    (fun _ _ => Reply {| status_code := 200; text := EmptyString;
                         decoded := Some (JObj [("worklogs", JList three_logs)]) |})
    start
  = (Done three_logs,
     record_exchange start rq
       (Reply {| status_code := 200; text := EmptyString;
                 decoded := Some (JObj [("worklogs", JList three_logs)]) |})).
Proof.
  intros rq.
  refine (@worklogs_without_total_stop 1 "https://jira.example.org" ("ada", "secret")
            (JStr "ARAPS-1") 100 [] 0 _ start _ three_logs _ eq_refl _ _).
  - lia.
  - split; [reflexivity | eexists; split; reflexivity].
  - eexists; split; reflexivity.
Defined.

(** A work-log response with status 400 or above ends [fetch_worklogs]
    at once: it is the last exchange, and the fetch fails with the
    exception that the web framework has for the status, given the
    message that names the issue (the key between brackets, then
    "worklog error:" and the body of the response).  For the statuses of
    [described] this is the HTTP exception of the same status with that
    message as its description; for 405 and 416 the message takes the
    place of the allowed methods or of the length; for any other status
    it is a [LookupError] that names the status only. *)
Theorem worklog_error_names_issue (fuel : nat) (base_url : string)
    (auth : string * string) (issue_key : json) (sa max_results : Z) (up : upstream)
    (w w' : world) (o : outcome (list json)) (rq : request) (r : response) :
  clean web_error (exchanges w) ->
  App.fetch_worklogs fuel base_url auth issue_key sa max_results up w = (o, w') ->
  In (rq, Reply r) (exchanges w') ->
  400 <= status_code r ->
  (exists e,
      o = Fail e /\
      web_raised (status_code r)
        ("[" ++ Py.str issue_key ++ "] worklog error: " ++ text r) e) /\
  exists past, exchanges w' = (past ++ [(rq, Reply r)])%list.
Proof.
  intros Hc H Hin Hs.
  destruct (@error_is_last web_error (names_issue issue_key) _
              (App.fetch_worklogs fuel base_url auth issue_key sa max_results)
              up w o w' rq r)
    as (past & e & Hex & _ & -> & He); try assumption.
  - unfold App.fetch_worklogs. apply guarded_while. intros st.
    apply web_worklog_round_guarded.
  - unfold web_error. apply Z.geb_le. exact Hs.
  - split; [exists e; split; [reflexivity | exact He] | eauto].
Qed.

Lemma worklog_error_names_issue_witness :
  (exists e,
      fst (App.fetch_worklogs 3 "https://jira.example.org" ("ada", "secret")
             (JStr "ARAPS-1") 0 100 (fun _ _ => Reply forbidden) start)
      = Fail e /\
      web_raised (status_code forbidden)
        ("[" ++ Py.str (JStr "ARAPS-1") ++ "] worklog error: " ++ text forbidden) e) /\
  exists past,
    exchanges (snd (App.fetch_worklogs 3 "https://jira.example.org" ("ada", "secret")
                      (JStr "ARAPS-1") 0 100 (fun _ _ => Reply forbidden) start))
    = (past ++ [(App.worklog_request "https://jira.example.org" ("ada", "secret")
                   (JStr "ARAPS-1") 100 0, Reply forbidden)])%list.
Proof.
  apply (@worklog_error_names_issue 3 "https://jira.example.org" ("ada", "secret")
           (JStr "ARAPS-1") 0 100 (fun _ _ => Reply forbidden) start).
  - intros rq r [].
  - apply surjective_pairing.
  - left; reflexivity.
  - cbn; lia.
Defined.

(** ** What a successful export delivers *)

Lemma web_item_keys (it b : json) :
  App.project_item it = Ok b ->
  keys_of b = web_keys /\
  (exists t, Py.get b "time" = Ok t /\ keys_of t = time_keys) /\
  forall wls item,
    Py.setitem b "worklogs" (JList wls) = Ok item ->
    keys_of item = (web_keys ++ ["worklogs"])%list /\
    (exists t, Py.get item "time" = Ok t /\ keys_of t = time_keys) /\
    Py.get item "worklogs" = Ok (JList wls).
Proof.
  unfold App.project_item. intros H.
  repeat rbind_inv H. injection H as <-.
  split; [reflexivity |]. split; [eexists; split; reflexivity |].
  intros wls item Hs. cbn in Hs. injection Hs as <-.
  split; [reflexivity |]. split; [eexists; split; reflexivity | reflexivity].
Qed.

Lemma worklog_entry_keys (wl out : json) :
  App.project_worklog wl = Ok out -> keys_of out = worklog_keys.
Proof.
  unfold App.project_worklog. intros H.
  repeat rbind_inv H. injection H as <-. reflexivity.
Qed.

Lemma web_projection_full (fuel : nat) (issues : list json) (base_url : string)
    (auth : string * string) (up : upstream) (w w' : world) (out : list json) :
  App.project_issues fuel issues base_url auth true up w = (Done out, w') ->
  Forall full_record out.
Proof.
  intros H.
  assert (F : Forall2 (fun _ item => full_record item) issues out).
  { revert H. unfold App.project_issues. apply for_each_forall2.
    intros it item w0 w0' _ H.
    apply bind_done in H as (b & w1 & Hb & H).
    apply lift_done in Hb as (Hb & ->).
    apply bind_done in H as (key & w2 & _ & H).
    apply bind_done in H as (logs & w3 & _ & H).
    apply bind_done in H as (wls & w4 & Hw & H).
    apply lift_done in Hw as (Hw & _).
    apply lift_done in H as (H & _).
    destruct (web_item_keys _ Hb) as (_ & _ & Hk).
    destruct (Hk wls item H) as (K1 & K2 & K3).
    split; [exact K1 |]. split; [exact K2 |].
    exists wls. split; [exact K3 |].
    apply rmap_forall2 in Hw. clear - Hw.
    induction Hw as [| wl e logs wls Hwl _ IH]; constructor; [| exact IH].
    eapply worklog_entry_keys; exact Hwl. }
  clear H. induction F; constructor; auto.
Qed.

(** A successful web export delivers, as an [application/json]
    attachment named after the project and the strategy, one record per
    issue fetched, in the order fetched; every record has the same keys
    in the same order, a time block of twelve keys, and a [worklogs]
    list whose entries all have the same five keys. *)
Theorem export_payload (fuel : nat) (form : list (string * string)) (up : upstream)
    (w w' : world) (resp : App.http_response) :
  App.export fuel form up w = (Done resp, w') ->
  exists issues projected w1,
    App.fetch_all_issues fuel (form_base_url form) (form_username form, form_password form)
      (App.jql (form_project form) (form_use_updated form)) App.fields 100 up w
    = (Done issues, w1) /\
    App.payload resp = JList projected /\
    Forall2 enriched_from issues projected /\
    Forall full_record projected /\
    App.mimetype resp = "application/json" /\
    App.out_headers resp
    = [("Content-Disposition", attachment (form_project form) (form_use_updated form))].
Proof.
  intros H. unfold App.export in H.
  fold (form_base_url form) (form_project form) (form_username form)
    (form_password form) (form_use_updated form) in H.
  destruct (negb _); [discriminate |].
  apply bind_done in H as (issues & w1 & Hf & H).
  apply bind_done in H as (projected & w2 & Hp & H).
  inversion H; subst. cbn [App.payload App.mimetype App.out_headers].
  exists issues, projected, w1.
  split; [exact Hf |]. split; [reflexivity |].
  split; [eapply web_projection_in_order; exact Hp |].
  split; [eapply web_projection_full; exact Hp |].
  split; reflexivity.
Qed.

Lemma export_payload_witness :
  exists issues projected w1,
    App.fetch_all_issues 3 (form_base_url sample_form)
      (form_username sample_form, form_password sample_form)
      (App.jql (form_project sample_form) (form_use_updated sample_form)) App.fields 100
      helpful start
    = (Done issues, w1) /\
    App.payload sample_response = JList projected /\
    Forall2 enriched_from issues projected /\
    Forall full_record projected /\
    App.mimetype sample_response = "application/json" /\
    App.out_headers sample_response
    = [("Content-Disposition",
        attachment (form_project sample_form) (form_use_updated sample_form))].
Proof.
  apply (@export_payload 3 sample_form helpful start
           (snd (App.export 3 sample_form helpful start)) sample_response).
  vm_compute. reflexivity.
Defined.





(** ** The fields the projectors read *)

Lemma rbind_ext {A B} (m m' : result A) (k k' : A -> result B) :
  m = m' -> (forall a, k a = k' a) -> rbind m k = rbind m' k'.
Proof. intros -> H. destruct m'; simpl; auto. Qed.

Ltac same_reads Hkey Hf :=
  repeat (apply rbind_ext;
          [ first [ exact Hkey
                  | apply Hf; simpl; tauto
                  | apply rbind_ext; [apply Hf; simpl; tauto | intros; reflexivity]
                  | reflexivity ]
          | intros ? ]);
  reflexivity.

Lemma only_field_elsewhere (k k' : string) (v : json) :
  k' <> k -> raw_field (only_field k v) k' = Ok JNull.
Proof.
  intros H. unfold raw_field, only_field. cbn.
  rewrite (proj2 (String.eqb_neq k' k) H). reflexivity.
Qed.

Ltac field_is_read :=
  match goal with
  | |- reads _ ?k =>
      exists (only_field k JNull), (only_field k (telling k));
      split; [reflexivity |];
      split; [intros k' Hk'; now rewrite !only_field_elsewhere by exact Hk' |];
      intros H; vm_compute in H; discriminate H
  end.

Ltac key_is_read :=
  exists (JObj [("key", JStr "ARAPS-3")]), (JObj [("key", JStr "ARAPS-4")]);
  split; [intros k; reflexivity | intros H; vm_compute in H; discriminate H].

(** The projection of an issue depends on its key and on the fields the
    export asks the server for, and on nothing else: two raw records
    that agree on these have the same projection (or make the projector
    raise the same error).  And the projection depends on each of them:
    the names between the commas of the [fields] parameter of each
    surface are the key and the fields its projector reads, and for
    every one of them there are two records that differ there alone
    and have different projections. *)
Theorem projection_reads_requested_fields :
  split_on "," App.fields = "key" :: web_fields_read /\
  split_on "," GetJira.fields = "key" :: cli_fields_read /\
  (forall it it',
      Py.get it "key" = Py.get it' "key" ->
      (forall k, In k web_fields_read -> raw_field it k = raw_field it' k) ->
      App.project_item it = App.project_item it') /\
  (forall it it',
      Py.get it "key" = Py.get it' "key" ->
      (forall k, In k cli_fields_read -> raw_field it k = raw_field it' k) ->
      GetJira.project_item it = GetJira.project_item it') /\
  (reads_key App.project_item /\ Forall (reads App.project_item) web_fields_read) /\
  (reads_key GetJira.project_item /\ Forall (reads GetJira.project_item) cli_fields_read).
Proof.
  split; [reflexivity |]. split; [reflexivity |].
  split; [| split; [| split]].
  - intros it it' Hkey Hf.
    destruct it; destruct it'; try discriminate Hkey; try reflexivity.
    unfold raw_field in Hf. cbn [Py.get_default rbind] in Hf.
    unfold App.project_item. cbn [Py.get_default rbind].
    set (f := match Py.assoc "fields" kvs with Some v => v | None => JObj [] end) in *.
    set (f' := match Py.assoc "fields" kvs0 with Some v => v | None => JObj [] end) in *.
    clearbody f f'. same_reads Hkey Hf.
  - intros it it' Hkey Hf.
    destruct it; destruct it'; try discriminate Hkey; try reflexivity.
    unfold raw_field in Hf. cbn [Py.get_default rbind] in Hf.
    unfold GetJira.project_item. cbn [Py.get_default rbind].
    set (f := match Py.assoc "fields" kvs with Some v => v | None => JObj [] end) in *.
    set (f' := match Py.assoc "fields" kvs0 with Some v => v | None => JObj [] end) in *.
    clearbody f f'. same_reads Hkey Hf.
  - split; [key_is_read |]. repeat (constructor; [field_is_read |]). constructor.
  - split; [key_is_read |]. repeat (constructor; [field_is_read |]). constructor.
Qed.

Lemma projection_reads_requested_fields_witness :
  App.project_item null_issue = App.project_item null_issue_more.
Proof.
  apply (proj1 (proj2 (proj2 projection_reads_requested_fields))).
  - reflexivity.
  - intros k Hk. cbn in Hk.
    repeat (destruct Hk as [<- | Hk]; [reflexivity |]). contradiction.
Defined.

(** ** The error stream of the command-line fetcher *)

Lemma rbind_raise {A B} (m : result A) (k : A -> result B) (e : exn) :
  rbind m k = Raise e -> m = Raise e \/ exists a, m = Ok a /\ k a = Raise e.
Proof.
  destruct m as [a | e']; simpl; intros H; [right; eauto | left; congruence].
Qed.

Lemma get_default_raises (d : json) (k : string) (default : json) (e : exn) :
  Py.get_default d k default = Raise e -> e = AttributeError.
Proof. destruct d; simpl; intros H; inversion H; reflexivity. Qed.

Lemma iter_raises (v : json) (e : exn) : Py.iter v = Raise e -> e = TypeError.
Proof. destruct v; simpl; intros H; inversion H; reflexivity. Qed.

Lemma len_raises (v : json) (e : exn) : Py.len v = Raise e -> e = TypeError.
Proof.
  unfold Py.len. intros H. apply rbind_raise in H as [H | (l & _ & H)];
    [eapply iter_raises; exact H | discriminate].
Qed.

Lemma int_ge_raises (n : Z) (v : json) (e : exn) : Py.int_ge n v = Raise e -> e = TypeError.
Proof. destruct v; simpl; intros H; inversion H; reflexivity. Qed.

Lemma absorb_page_raises (st : page_state) (data : json) (e : exn) :
  absorb_page st data = Raise e -> e = AttributeError \/ e = TypeError.
Proof.
  unfold absorb_page. intros H.
  apply rbind_raise in H as [H | (batch & _ & H)];
    [left; eapply get_default_raises; exact H |].
  apply rbind_raise in H as [H | (items & _ & H)];
    [right; eapply iter_raises; exact H |].
  apply rbind_raise in H as [H | (tot & _ & H)].
  { destruct (total st); try discriminate H.
    apply rbind_raise in H as [H | (n & _ & H)];
      [right; eapply len_raises; exact H | left; eapply get_default_raises; exact H]. }
  apply rbind_raise in H as [H | (n & _ & H)];
    [right; eapply len_raises; exact H |].
  apply rbind_raise in H as [H | (stop & _ & H)];
    [right; eapply int_ge_raises; exact H |].
  destruct stop; discriminate H.
Qed.

Lemma cli_loop_error_stream (fuel : nat) (search_url : string) (auth : string * string)
    (jql fields : string) (max_results : Z) (up : upstream) :
  forall st w o w',
    while_true fuel (GetJira.search_round search_url auth jql fields max_results) st up w
    = (o, w') ->
    (forall s b, o = Fail (HTTPError s b) ->
                 stderr w' = (stderr w ++ [http_error_line s b])%list) /\
    ((forall s b, o <> Fail (HTTPError s b)) -> stderr w' = stderr w).
Proof.
  induction fuel as [| n IH]; intros st w o w' H.
  - inversion H; subst. split; [discriminate | reflexivity].
  - rewrite while_true_step in H.
    destruct (GetJira.search_round _ _ _ _ _ st up w) as [o1 w1] eqn:E.
    unfold GetJira.search_round, bind, requests_get in E.
    destruct (up (exchanges w) _) as [r |].
    + unfold raise_for_status in E.
      destruct ((400 <=? status_code r) && (status_code r <? 600)).
      * cbn in E. inversion E; subst. inversion H; subst. cbn [stderr]. split.
        -- intros s b Hsb. injection Hsb as <- <-. reflexivity.
        -- intros Hn. exfalso. eapply Hn; reflexivity.
      * unfold resp_json in E. destruct (decoded r) as [data |].
        -- unfold ret in E. destruct (absorb_page st data) as [[st' | l] | e] eqn:Ha;
             inversion E; subst.
           ++ apply IH in H. exact H.
           ++ inversion H; subst. split; [discriminate | reflexivity].
           ++ inversion H; subst. split; [| reflexivity].
              intros s b Hsb. injection Hsb as ->.
              apply absorb_page_raises in Ha as [Ha | Ha]; discriminate Ha.
        -- inversion E; subst. inversion H; subst. split; [discriminate | reflexivity].
    + inversion E; subst. inversion H; subst. split; [discriminate | reflexivity].
Qed.

(** The command-line fetcher writes to the error stream only when it
    fails on an HTTP error, and then one line, made of the status and
    the body of the response. *)
Theorem cli_error_stream (fuel : nat) (search_url : string) (auth : string * string)
    (jql fields : string) (max_results : Z) (up : upstream) (w w' : world)
    (o : outcome (list json)) :
  GetJira.fetch_all_issues fuel search_url auth jql fields max_results up w = (o, w') ->
  (forall s b, o = Fail (HTTPError s b) ->
               stderr w' = (stderr w ++ [http_error_line s b])%list) /\
  ((forall s b, o <> Fail (HTTPError s b)) -> stderr w' = stderr w).
Proof. apply cli_loop_error_stream. Qed.

Lemma cli_error_stream_witness :
  stderr (snd (GetJira.fetch_all_issues 3 "https://jira.example.org/rest/api/2/search"
                 ("ada", "secret") (GetJira.jql "ARAPS" false) GetJira.fields 100
                 forbidden_on_second start))
  = (stderr start ++ [http_error_line 403 "Forbidden"])%list.
Proof.
  apply (proj1 (@cli_error_stream 3 "https://jira.example.org/rest/api/2/search"
                  ("ada", "secret") (GetJira.jql "ARAPS" false) GetJira.fields 100
                  forbidden_on_second start _
                  (fst (GetJira.fetch_all_issues 3
                          "https://jira.example.org/rest/api/2/search"
                          ("ada", "secret") (GetJira.jql "ARAPS" false) GetJira.fields 100
                          forbidden_on_second start))
                  (surjective_pairing _))).
  vm_compute. reflexivity.
Defined.
